(** * Split-payment checkout: payment orchestration core

    A shallow embedding of the server's payment orchestration, with the
    properties of its state machine stated over it.  Sources embedded:
    - money and validation utilities: [server/utils/currency.js],
      [server/utils/validation.js];
    - durable store: [server/db/migrations/001_initial_schema.sql] and the
      queries of [db/queries/payments.js], [transactions.js], [refunds.js]
      and [stores.js];
    - checkout service [services/paymentService.js] and refund service
      [services/refundService.js] (the latter follows the former in the same
      file of the tree);
    - order submitter [services/orderService.js];
    - widget routes [routes/widget.js] and provider webhooks
      [routes/stripe.js] (the latter follows [routes/admin.js] in the same
      file of the tree).

    Conventions of the embedding.
    - JavaScript numbers are IEEE-754 doubles.  A number with an integer
      value is held as that integer in [Z]; integers are doubles up to 2^53
      in magnitude, and sums and differences of amounts in cents stay within
      that range.  A quotient or a product that need not be an integer is
      rounded to the nearest double as the processor does ([Binary64]).
    - The payment provider, the commerce platform and the database are the
      only effects.  The provider is an oracle (a record of functions giving
      the outcome of each call), every request made is appended to a log,
      and the database is a record of tables threaded through each
      operation.  The [INSERT] of a payment or of a refund fails when the
      row breaks a constraint of the schema.  The other queries do not
      fail: the values their callers write are the statuses of the code and
      the strings the provider and the commerce platform answer with (error
      codes, order ids and numbers), which fit their columns.  A JavaScript
      exception is a value of the result type; state written before a
      [throw] stays written.
    - Requests started together by [Promise.allSettled] are logged in the
      order of the array.
    - A route handler is the handler of one request served on its own: no
      other request is served between its [await]s. *)

From Stdlib Require Import ZArith Lia Ascii String.
From stdpp Require Import base list strings pretty gmap.

Local Open Scope Z_scope.

(** * Double-precision arithmetic

    A finite double is [mant * 2^expo] with [|mant| <= 2^53] and
    [-1074 <= expo].  [/] and [*] give the double nearest to the exact
    result, ties to the even mantissa.  Results from 2^1024 on, which
    JavaScript turns into [Infinity], need operands far beyond 2^53 and are
    not represented. *)

Module Binary64.

Record double := { mant : Z; expo : Z }.

(** The integer nearest to [n / d] for [0 < d], ties to the even one. *)
Definition nearest_even (n d : Z) : Z :=
  let q := n / d in
  let r := n mod d in
  if 2 * r <? d then q
  else if d <? 2 * r then q + 1
  else if Z.even q then q else q + 1.

(** [n / (d * 2^e)] as a fraction of integers. *)
Definition scaled (n d e : Z) : Z * Z :=
  if 0 <=? e then (n, d * 2 ^ e) else (n * 2 ^ (- e), d).

(** [floor (log2 (n / d))] for positive [n] and [d]. *)
Definition floor_log2 (n d : Z) : Z :=
  let k := Z.log2 n - Z.log2 d in
  let '(n', d') := scaled n d k in
  if d' <=? n' then k else k - 1.

(** The double nearest to [n / d], for [0 < d]: 53 bits of mantissa from
    the leading bit of the quotient, fewer below 2^-1022. *)
Definition round (n d : Z) : double :=
  let e := Z.max (floor_log2 (Z.abs n) d - 52) (-1074) in
  let '(n', d') := scaled n d e in
  {| mant := nearest_even n' d'; expo := e |}.

(** [x / y] on numbers with integer values, [y] not zero. *)
Definition div (x y : Z) : double :=
  if y <? 0 then round (- x) (- y) else round x y.

(** [x * y] for [x] with an integer value. *)
Definition mul (x : Z) (y : double) : double :=
  let '(n, d) := scaled (x * mant y) 1 (- expo y) in round n d.

(** [Math.round(x)]: the nearest integer, ties towards plus infinity, that
    is [floor (x + 1/2)]. *)
Definition Math_round (x : double) : Z :=
  if 0 <=? expo x then mant x * 2 ^ expo x
  else (2 * mant x + 2 ^ (- expo x)) / 2 ^ (1 - expo x).

(** The double nearest to the integer [n]. *)
Definition of_integer (n : Z) : Z := Math_round (round n 1).

End Binary64.

(** * Money and proration ([server/utils/currency.js]) *)

Module Currency.

(** [xs.reduce((sum, x) => sum + x, 0)] *)
Definition reduce_sum (xs : list Z) : Z := foldl Z.add 0 xs.

(** [const proportion = portion / totalPortions;
     return Math.round(totalAmount * proportion)]: the quotient is rounded
    to a double, then the product, then [Math.round] takes the nearest
    integer.  Next to a tie the result can differ from the rounding of the
    exact [totalAmount * portion / totalPortions]. *)
Definition js_round_ratio (totalAmount portion totalPortions : Z) : Z :=
  Binary64.Math_round
    (Binary64.mul totalAmount (Binary64.div portion totalPortions)).

(** [calculateProportionalAmount(totalAmount, portion, splitAmount)] *)
Definition calculateProportionalAmount (totalAmount portion splitAmount : Z) : Z :=
  if totalAmount =? 0 then 0 else js_round_ratio splitAmount portion totalAmount.

(** The callback of
    [distributed.reduce((maxIdx, val, idx, arr) => val > arr[maxIdx] ? idx : maxIdx, 0)]:
    [rest] is the part of [arr] still to visit, [idx] the index of its head.
    A comparison with [undefined] is false in JavaScript. *)
Fixpoint largest_from (arr rest : list Z) (idx maxIdx : nat) : nat :=
  match rest with
  | [] => maxIdx
  | val :: rest' =>
      let maxIdx' :=
        match arr !! maxIdx with
        | Some m => if val >? m then idx else maxIdx
        | None => maxIdx
        end in
      largest_from arr rest' (S idx) maxIdx'
  end.

Definition largestIndex (arr : list Z) : nat := largest_from arr arr 0%nat 0%nat.

Section Distribute.

(** The rounding of [totalAmount * (portion / totalPortions)]. *)
Variable round : Z -> Z -> Z -> Z.

(** [distributeProportionally(totalAmount, portions)].  The in-place
    update [distributed[largestIndex] += difference] is a list insert; the
    index is always in range ([largestIndex_lt]), so the out-of-range
    branch is never taken. *)
Definition distributeProportionallyWith (totalAmount : Z) (portions : list Z) : list Z :=
  let totalPortions := reduce_sum portions in
  if totalPortions =? 0 then map (fun _ => 0) portions
  else
    let distributed := map (fun portion => round totalAmount portion totalPortions) portions in
    let distributedTotal := reduce_sum distributed in
    let difference := totalAmount - distributedTotal in
    if difference =? 0 then distributed
    else
      let i := largestIndex distributed in
      match distributed !! i with
      | Some v => <[i := v + difference]> distributed
      | None => distributed
      end.

End Distribute.

Definition distributeProportionally : Z -> list Z -> list Z :=
  distributeProportionallyWith js_round_ratio.

End Currency.

(** * JavaScript values at the boundaries *)

Module Js.

(** An exception object.  Absent ([undefined], [null]) and empty fields are
    all falsy and the source only ever tests them for truthiness, so both
    are the empty string here. *)
Record JsError := { err_code : string; err_message : string }.

(** [new Error(message)] *)
Definition Error (message : string) : JsError :=
  {| err_code := ""; err_message := message |}.

Definition truthy (s : string) : bool := negb (String.eqb s "").

(** [a || b] on strings *)
Definition or_else (a b : string) : string := if truthy a then a else b.

(** The outcome of an awaited call, and one entry of [Promise.allSettled]. *)
Inductive Completion (A : Type) : Type :=
  | Returns (value : A)
  | Throws (reason : JsError).
Arguments Returns {A} value.
Arguments Throws {A} reason.

(** A value received in a JSON body where a number is expected: absent, a
    number with the integer value [n], a number that is not an integer, or
    anything else. *)
Inductive JsValue : Type :=
  | JsUndefined
  | JsInt (n : Z)
  | JsFraction
  | JsOther.

(** [`${cents / 100}`] for an integer number of cents: at most two
    decimals, no trailing zero. *)
Definition over_100 (cents : Z) : string :=
  let a := Z.abs cents in
  let r := a mod 100 in
  let frac :=
    if r =? 0 then ""
    else if r mod 10 =? 0 then "." +:+ pretty (r / 10)
    else if r <? 10 then ".0" +:+ pretty r
    else "." +:+ pretty r in
  (if cents <? 0 then "-" else "") +:+ pretty (a / 100) +:+ frac.

(** The number of decimal digits of a non-negative integer. *)
Definition digits (x : Z) : nat := String.length (pretty x).

(** The digits of [Number::toString] for a positive number [x] with an
    integer value: the integer [s] with the fewest digits, and the power of
    ten [z], such that [s * 10^z] reads back as the double [x]; of two such
    [s] the one nearer to [x], then the even one.  [fuel] is the number of
    digits of [x] still to try. *)
Fixpoint shortest (x : Z) (fuel : nat) : Z * Z :=
  match fuel with
  | O => (x, 0)
  | S z =>
      let scale := 10 ^ Z.of_nat z in
      let lo := x / scale in
      let hi := lo + 1 in
      let lo_ok := Binary64.of_integer (lo * scale) =? x in
      let hi_ok := Binary64.of_integer (hi * scale) =? x in
      let lo_near := x - lo * scale <? hi * scale - x in
      let tie := x - lo * scale =? hi * scale - x in
      if lo_ok && (negb hi_ok || lo_near || (tie && Z.even lo)) then (lo, Z.of_nat z)
      else if hi_ok then (hi, Z.of_nat z)
      else shortest x z
  end.

(** [String(x)] for a number with an integer value: plain digits below
    10^21, then one digit, the other digits after a point, and the
    exponent. *)
Definition number_to_string (x : Z) : string :=
  let a := Z.abs x in
  let '(s, z) := shortest a (digits a) in
  let '(s, z) := if s =? 10 then (1, z + 1) else (s, z) in
  let body :=
    if s * 10 ^ z <? 10 ^ 21 then pretty (s * 10 ^ z)
    else
      match pretty s with
      | String d rest =>
          String d (if String.eqb rest "" then "" else "." +:+ rest) +:+
          "e+" +:+ pretty (Z.of_nat (String.length rest) + z)
      | EmptyString => ""
      end in
  (if x <? 0 then "-" else "") +:+ body.

(** The first digit of [String(x)] for a positive [x]. *)
Definition leading_digit (x : Z) : Z :=
  let '(s, _) := shortest x (digits x) in
  s / 10 ^ (Z.of_nat (digits s) - 1).

(** [parseInt(x, 10)] of a number with an integer value: [String(x)] is
    read up to its first character that is not a digit.  Below 10^21 the
    digits read back as [x]; from 10^21 on the string is in exponent form
    and only its first digit is read. *)
Definition parseInt_number (x : Z) : Z :=
  if Z.abs x <? 10 ^ 21 then x else Z.sgn x * leading_digit (Z.abs x).

(** A string between double quotes. *)
Definition quoted (s : string) : string :=
  String (ascii_of_nat 34) s +:+ String (ascii_of_nat 34) EmptyString.

(** [haystack.includes(needle)] *)
Fixpoint includes (haystack needle : string) : bool :=
  String.prefix needle haystack ||
  match haystack with
  | EmptyString => false
  | String _ rest => includes rest needle
  end.

End Js.

(** * Validation ([server/utils/validation.js]) *)

Module Validation.
Import Js.

Inductive Validation : Type :=
  | valid
  | invalid (error : string).

Definition is_valid (v : Validation) : bool :=
  match v with valid => true | invalid _ => false end.

Definition in_range (lo hi : nat) (c : ascii) : bool :=
  let n := nat_of_ascii c in (lo <=? n)%nat && (n <=? hi)%nat.

(** [[a-zA-Z0-9]] *)
Definition alnum (c : ascii) : bool :=
  in_range 97 122 c || in_range 65 90 c || in_range 48 57 c.

Fixpoint all_chars (p : ascii -> bool) (s : string) : bool :=
  match s with
  | EmptyString => true
  | String c rest => p c && all_chars p rest
  end.

(** [/^[a-zA-Z0-9-]+\.myshopify\.com$/]: the class excludes the dot, so the
    literal suffix is the last fourteen characters. *)
Definition validateShopDomain (shopDomain : string) : bool :=
  let n := String.length shopDomain in
  truthy shopDomain &&
  (14 <? n)%nat &&
  String.eqb (String.substring (n - 14) 14 shopDomain) ".myshopify.com" &&
  all_chars (fun c => alnum c || in_range 45 45 c)
            (String.substring 0 (n - 14) shopDomain).

(** [/^[a-zA-Z0-9]{32,64}$/] *)
Definition validateCheckoutToken (token : string) : bool :=
  let n := String.length token in
  truthy token && (32 <=? n)%nat && (n <=? 64)%nat && all_chars alnum token.

(** [validateAmount(amount, minAmount = 100, maxAmount = null)] *)
Definition validateAmount (amount : JsValue) (minAmount : Z) (maxAmount : option Z)
  : Validation :=
  match amount with
  | JsUndefined | JsOther => invalid "Amount must be a number"
  | JsFraction => invalid "Amount must be an integer (cents)"
  | JsInt amount =>
      if amount <? minAmount then
        invalid ("Amount must be at least " +:+ over_100 minAmount +:+ " " +:+
                 (if 100 <=? minAmount then "dollars" else "cents"))
      else if match maxAmount with Some m => m <? amount | None => false end then
        invalid ("Amount exceeds maximum of " +:+
                 over_100 (default 0 maxAmount) +:+ " dollars")
      else if amount <=? 0 then invalid "Amount must be positive"
      else valid
  end.

(** The loop [for (let i = 0; ...) validateAmount(paymentAmounts[i])]. *)
Fixpoint validate_each (i : nat) (paymentAmounts : list Z) : Validation :=
  match paymentAmounts with
  | [] => valid
  | a :: rest =>
      match validateAmount (JsInt a) 100 None with
      | invalid error => invalid ("Payment " +:+ pretty (i + 1)%nat +:+ ": " +:+ error)
      | valid => validate_each (S i) rest
      end
  end.

(** [validatePaymentAmounts(totalAmount, paymentAmounts)] *)
Definition validatePaymentAmounts (totalAmount : Z) (paymentAmounts : list Z)
  : Validation :=
  if (length paymentAmounts =? 0)%nat then invalid "At least one payment is required"
  else if (length paymentAmounts <? 2)%nat then
    invalid "Split payment requires at least 2 cards"
  else if (5 <? length paymentAmounts)%nat then invalid "Maximum 5 cards allowed"
  else
    match validate_each 0 paymentAmounts with
    | invalid error => invalid error
    | valid =>
        let sum := Currency.reduce_sum paymentAmounts in
        if negb (sum =? totalAmount) then
          invalid ("Payment amounts (" +:+ over_100 sum +:+
                   ") do not match total (" +:+ over_100 totalAmount +:+ ")")
        else valid
    end.

End Validation.

(** * Durable store ([db/migrations/001_initial_schema.sql], [db/queries]) *)

Module Db.
Import Js.

(** [payments.status] *)
Inductive PaymentStatus : Type :=
  | pending | authorized | captured | failed | voided | refunded.

(** [transactions.status] *)
Inductive TransactionStatus : Type :=
  | tx_pending | tx_processing | tx_completed | tx_failed
  | tx_refunded | tx_partially_refunded.

(** [refunds.status] *)
Inductive RefundStatus : Type :=
  | refund_pending | refund_succeeded | refund_failed.

#[global] Instance PaymentStatus_eq_dec : EqDecision PaymentStatus.
Proof. solve_decision. Defined.
#[global] Instance TransactionStatus_eq_dec : EqDecision TransactionStatus.
Proof. solve_decision. Defined.
#[global] Instance RefundStatus_eq_dec : EqDecision RefundStatus.
Proof. solve_decision. Defined.

Record Store := {
  store_id : nat;
  shop_domain : string;
  is_active : bool;
  maxCards : option Z;
  minAmount : option Z;
}.

Record Transaction := {
  tx_id : nat;
  tx_store_id : nat;
  shopify_checkout_token : string;
  shopify_order_id : option string;
  shopify_order_number : option string;
  total_amount : Z;
  tx_status : TransactionStatus;
  failure_reason : option string;
}.

Record Payment := {
  pay_id : nat;
  pay_transaction_id : nat;
  stripe_payment_intent_id : string;
  pay_amount : Z;
  pay_status : PaymentStatus;
  failure_code : option string;
  failure_message : option string;
}.

Record Refund := {
  refund_id : nat;
  refund_transaction_id : nat;
  refund_payment_id : nat;
  stripe_refund_id : string;
  refund_amount : Z;
  refund_reason : string;
  refund_status : RefundStatus;
  initiated_by : string;
}.

(** The four tables, each in insertion order ([created_at] ascending), and
    the [SERIAL] counters. *)
Record Database := {
  stores : list Store;
  transactions : list Transaction;
  payments : list Payment;
  refunds : list Refund;
  next_transaction_id : nat;
  next_payment_id : nat;
  next_refund_id : nat;
}.

Definition with_transactions (ts : list Transaction) (d : Database) : Database :=
  {| stores := stores d; transactions := ts; payments := payments d;
     refunds := refunds d; next_transaction_id := next_transaction_id d;
     next_payment_id := next_payment_id d; next_refund_id := next_refund_id d |}.

Definition with_payments (ps : list Payment) (d : Database) : Database :=
  {| stores := stores d; transactions := transactions d; payments := ps;
     refunds := refunds d; next_transaction_id := next_transaction_id d;
     next_payment_id := next_payment_id d; next_refund_id := next_refund_id d |}.

(** The errors PostgreSQL raises for the constraints of the schema; [code]
    is the SQLSTATE, which the error middleware reads. *)
Definition unique_violation (name : string) : JsError :=
  {| err_code := "23505";
     err_message := "duplicate key value violates unique constraint " +:+ quoted name |}.

Definition foreign_key_violation (table name : string) : JsError :=
  {| err_code := "23503";
     err_message := "insert or update on table " +:+ quoted table +:+
                    " violates foreign key constraint " +:+ quoted name |}.

Definition numeric_value_out_of_range (text : string) : JsError :=
  {| err_code := "22003";
     err_message := "value " +:+ quoted text +:+ " is out of range for type integer" |}.

Definition invalid_text_representation (text : string) : JsError :=
  {| err_code := "22P02";
     err_message := "invalid input syntax for type integer: " +:+ quoted text |}.

Definition string_data_right_truncation (limit : nat) : JsError :=
  {| err_code := "22001";
     err_message := "value too long for type character varying(" +:+
                    pretty limit +:+ ")" |}.

(** A string assigned to a [VARCHAR(n)] column: the characters beyond the
    [n]-th are cut off when they are all spaces, and the value is refused
    otherwise. *)
Definition varchar (n : nat) (s : string) : Completion string :=
  if (String.length s <=? n)%nat then Returns s
  else if Validation.all_chars (fun c => Ascii.eqb c " ")
            (String.substring n (String.length s - n) s)
  then Returns (String.substring 0 n s)
  else Throws (string_data_right_truncation n).

(** The values of an [INTEGER] column. *)
Definition int4 (n : Z) : bool := (-2147483648 <=? n) && (n <=? 2147483647).

(** A number bound to an [INTEGER] parameter: the driver sends
    [String(n)], which the server reads as an integer. *)
Definition integer_parameter (n : Z) : option JsError :=
  if 10 ^ 21 <=? Z.abs n then Some (invalid_text_representation (number_to_string n))
  else if negb (int4 n) then Some (numeric_value_out_of_range (number_to_string n))
  else None.

(** ** stores *)

(** [SELECT * FROM stores WHERE shop_domain = $1 AND is_active = true] *)
Definition getStoreByDomain (d : Database) (shopDomain : string) : option Store :=
  List.find (fun s => String.eqb (shop_domain s) shopDomain && is_active s) (stores d).

(** ** transactions *)

(** [INSERT INTO transactions (...) VALUES (..., 'pending') RETURNING *] *)
Definition createTransaction (d : Database) (storeId : nat) (token : string)
    (totalAmount : Z) : Database * Transaction :=
  let row := {| tx_id := next_transaction_id d; tx_store_id := storeId;
                shopify_checkout_token := token; shopify_order_id := None;
                shopify_order_number := None; total_amount := totalAmount;
                tx_status := tx_pending; failure_reason := None |} in
  ({| stores := stores d; transactions := transactions d ++ [row];
      payments := payments d; refunds := refunds d;
      next_transaction_id := S (next_transaction_id d);
      next_payment_id := next_payment_id d;
      next_refund_id := next_refund_id d |}, row).

Definition getTransactionById (d : Database) (transactionId : nat) : option Transaction :=
  List.find (fun t => (tx_id t =? transactionId)%nat) (transactions d).

(** [... WHERE shopify_checkout_token = $1 ORDER BY created_at DESC LIMIT 1] *)
Definition getTransactionByCheckoutToken (d : Database) (token : string)
  : option Transaction :=
  last (List.filter (fun t => String.eqb (shopify_checkout_token t) token)
                    (transactions d)).

Definition set_transaction_status (status : TransactionStatus) (failureReason : string)
    (t : Transaction) : Transaction :=
  {| tx_id := tx_id t; tx_store_id := tx_store_id t;
     shopify_checkout_token := shopify_checkout_token t;
     shopify_order_id := shopify_order_id t;
     shopify_order_number := shopify_order_number t;
     total_amount := total_amount t;
     tx_status := status;
     failure_reason :=
       if truthy failureReason then Some failureReason else failure_reason t |}.

(** [updateTransactionStatus(transactionId, status, failureReason = null)] *)
Definition updateTransactionStatus (d : Database) (transactionId : nat)
    (status : TransactionStatus) (failureReason : string) : Database :=
  with_transactions
    (map (fun t => if (tx_id t =? transactionId)%nat
                   then set_transaction_status status failureReason t else t)
         (transactions d)) d.

(** [updateTransactionOrder(transactionId, shopifyOrderId, shopifyOrderNumber)] *)
Definition updateTransactionOrder (d : Database) (transactionId : nat)
    (orderId orderNumber : string) : Database :=
  with_transactions
    (map (fun t => if (tx_id t =? transactionId)%nat then
                     {| tx_id := tx_id t; tx_store_id := tx_store_id t;
                        shopify_checkout_token := shopify_checkout_token t;
                        shopify_order_id := Some orderId;
                        shopify_order_number := Some orderNumber;
                        total_amount := total_amount t;
                        tx_status := tx_status t;
                        failure_reason := failure_reason t |}
                   else t)
         (transactions d)) d.

(** ** payments *)

Definition getPaymentByPaymentIntentId (d : Database) (intentId : string)
  : option Payment :=
  List.find (fun p => String.eqb (stripe_payment_intent_id p) intentId) (payments d).

(** [... WHERE transaction_id = $1 ORDER BY created_at ASC] *)
Definition getPaymentsByTransactionId (d : Database) (transactionId : nat)
  : list Payment :=
  List.filter (fun p => (pay_transaction_id p =? transactionId)%nat) (payments d).

(** [INSERT INTO payments (...) VALUES ($1, $2, $3, 'pending') RETURNING *].
    The schema has [amount INTEGER], [stripe_payment_intent_id VARCHAR(255)
    UNIQUE] and [transaction_id REFERENCES transactions(id)]; the server
    reads the parameters, builds the row, enters it in the unique index and
    checks the reference last. *)
Definition createPayment (d : Database) (transactionId : nat) (intentId : string)
    (amount : Z) : Completion (Database * Payment) :=
  match integer_parameter amount with
  | Some error => Throws error
  | None =>
      match varchar 255 intentId with
      | Throws error => Throws error
      | Returns intentId =>
          match getPaymentByPaymentIntentId d intentId with
          | Some _ => Throws (unique_violation "payments_stripe_payment_intent_id_key")
          | None =>
              match getTransactionById d transactionId with
              | None =>
                  Throws (foreign_key_violation "payments" "payments_transaction_id_fkey")
              | Some _ =>
                  let row := {| pay_id := next_payment_id d;
                                pay_transaction_id := transactionId;
                                stripe_payment_intent_id := intentId;
                                pay_amount := amount;
                                pay_status := pending; failure_code := None;
                                failure_message := None |} in
                  Returns ({| stores := stores d; transactions := transactions d;
                              payments := payments d ++ [row]; refunds := refunds d;
                              next_transaction_id := next_transaction_id d;
                              next_payment_id := S (next_payment_id d);
                              next_refund_id := next_refund_id d |}, row)
              end
          end
      end
  end.

Definition set_payment_status (status : PaymentStatus)
    (failureCode failureMessage : string) (p : Payment) : Payment :=
  {| pay_id := pay_id p; pay_transaction_id := pay_transaction_id p;
     stripe_payment_intent_id := stripe_payment_intent_id p;
     pay_amount := pay_amount p;
     pay_status := status;
     failure_code := if truthy failureCode then Some failureCode else failure_code p;
     failure_message :=
       if truthy failureCode && truthy failureMessage
       then Some failureMessage else failure_message p |}.

(** [updatePaymentStatus(paymentId, status, failureCode = null, failureMessage = null)]:
    one unconditional [UPDATE payments SET status = $2 ... WHERE id = $1].
    [failure_code] is [VARCHAR(100)]: this is the update for a code of at
    most 100 characters, which the provider's error codes are; a longer one
    is not stored as it is. *)
Definition updatePaymentStatus (d : Database) (paymentId : nat)
    (status : PaymentStatus) (failureCode failureMessage : string) : Database :=
  with_payments
    (map (fun p => if (pay_id p =? paymentId)%nat
                   then set_payment_status status failureCode failureMessage p else p)
         (payments d)) d.

(** ** refunds *)

(** The strings of a new row of [refunds] as they are stored:
    [stripe_refund_id VARCHAR(255)], [reason VARCHAR(255)] and
    [initiated_by VARCHAR(50)]. *)
Definition refund_strings (stripeRefundId reason initiatedBy : string)
  : Completion (string * string * string) :=
  match varchar 255 stripeRefundId with
  | Throws error => Throws error
  | Returns stripeRefundId =>
      match varchar 255 reason with
      | Throws error => Throws error
      | Returns reason =>
          match varchar 50 initiatedBy with
          | Throws error => Throws error
          | Returns initiatedBy => Returns (stripeRefundId, reason, initiatedBy)
          end
      end
  end.

(** [INSERT INTO refunds (...) VALUES ($1, ..., $7) RETURNING *].  The
    schema has [amount INTEGER], [stripe_refund_id UNIQUE] and the
    references to [transactions(id)] and [payments(id)], which the server
    checks last. *)
Definition createRefund (d : Database) (transactionId paymentId : nat)
    (stripeRefundId : string) (amount : Z) (reason initiatedBy : string)
    (status : RefundStatus) : Completion (Database * Refund) :=
  match integer_parameter amount with
  | Some error => Throws error
  | None =>
      match refund_strings stripeRefundId reason initiatedBy with
      | Throws error => Throws error
      | Returns (stripeRefundId, reason, initiatedBy) =>
          if existsb (fun r => String.eqb (stripe_refund_id r) stripeRefundId) (refunds d)
          then Throws (unique_violation "refunds_stripe_refund_id_key")
          else if negb (bool_decide (is_Some (getTransactionById d transactionId)))
          then Throws (foreign_key_violation "refunds" "refunds_transaction_id_fkey")
          else if negb (existsb (fun p => (pay_id p =? paymentId)%nat) (payments d))
          then Throws (foreign_key_violation "refunds" "refunds_payment_id_fkey")
          else
            let row := {| refund_id := next_refund_id d;
                          refund_transaction_id := transactionId;
                          refund_payment_id := paymentId;
                          stripe_refund_id := stripeRefundId; refund_amount := amount;
                          refund_reason := reason; refund_status := status;
                          initiated_by := initiatedBy |} in
            Returns ({| stores := stores d; transactions := transactions d;
                        payments := payments d; refunds := refunds d ++ [row];
                        next_transaction_id := next_transaction_id d;
                        next_payment_id := next_payment_id d;
                        next_refund_id := S (next_refund_id d) |}, row)
      end
  end.

(** [... WHERE transaction_id = $1 ORDER BY created_at DESC] *)
Definition getRefundsByTransactionId (d : Database) (transactionId : nat)
  : list Refund :=
  rev (List.filter (fun r => (refund_transaction_id r =? transactionId)%nat)
                   (refunds d)).

End Db.

(** * Payment provider *)

Module Provider.
Import Js.

(** The provider's answers.  Intent and refund statuses are the provider's
    strings. *)
Record Stripe := {
  (** [paymentIntents.create({amount, ...})]: intent id and client secret *)
  paymentIntents_create : Z -> Completion (string * string);
  (** [paymentIntents.retrieve(id)]: the intent's status *)
  paymentIntents_retrieve : string -> Completion string;
  (** [paymentIntents.confirm(id, {payment_method})]: the intent's status *)
  paymentIntents_confirm : string -> string -> Completion string;
  paymentIntents_capture : string -> Completion unit;
  paymentIntents_cancel : string -> Completion unit;
  (** [refunds.create({payment_intent, amount, reason})]: refund id and status *)
  refunds_create : string -> Z -> string -> Completion (string * string);
}.

(** A request sent to the provider. *)
Inductive ProviderCall : Type :=
  | CallCreate (amount : Z)
  | CallRetrieve (intentId : string)
  | CallConfirm (intentId methodId : string)
  | CallCapture (intentId : string)
  | CallCancel (intentId : string)
  | CallRefund (intentId : string) (amount : Z).

(** The database together with the log of provider requests. *)
Record Env := { db : Db.Database; calls : list ProviderCall }.

Definition with_db (d : Db.Database) (e : Env) : Env :=
  {| db := d; calls := calls e |}.

Definition record_calls (cs : list ProviderCall) (e : Env) : Env :=
  {| db := db e; calls := calls e ++ cs |}.

End Provider.

(** * Checkout service ([server/services/paymentService.js]) *)

Module PaymentService.
Import Js Validation Db Provider.

(** One entry of the [payments] parameter of [completeCheckout]. *)
Record CheckoutPayment := {
  paymentId : nat;
  paymentIntentId : string;
  paymentMethodId : string;
  amount : Z;
}.

(** [createPaymentIntent(params)]: the provider request and its answer;
    an error is logged and thrown again. *)
Definition createPaymentIntent (stripe : Stripe) (amount : Z) (env : Env)
  : Env * Completion (string * string) :=
  (record_calls [CallCreate amount] env, paymentIntents_create stripe amount).

(** [cancelPaymentIntent(paymentIntentId)] *)
Definition cancelPaymentIntent (stripe : Stripe) (intentId : string) (env : Env)
  : Env * Completion bool :=
  (record_calls [CallCancel intentId] env,
   match paymentIntents_cancel stripe intentId with
   | Returns _ => Returns true
   | Throws error =>
       if String.eqb (err_code error) "payment_intent_unexpected_state"
       then Returns true else Throws error
   end).

(** [cancelPaymentIntents(paymentIntentIds)]: [Promise.allSettled] over
    [cancelPaymentIntent]; rejections are logged only. *)
Definition cancelPaymentIntents (stripe : Stripe) (intentIds : list string) (env : Env)
  : Env :=
  foldl (fun e id => fst (cancelPaymentIntent stripe id e)) env intentIds.

(** [capturePaymentIntent(paymentIntentId)] *)
Definition capturePaymentIntent (stripe : Stripe) (intentId : string) (env : Env)
  : Env * Completion unit :=
  (record_calls [CallCapture intentId] env, paymentIntents_capture stripe intentId).

Definition confirmed_status (status : string) : bool :=
  String.eqb status "requires_capture" || String.eqb status "succeeded".

(** The callback mapped over [payments] in step 1: retrieve, and confirm
    unless the intent is already confirmed. *)
Definition authorize (stripe : Stripe) (payment : CheckoutPayment) (env : Env)
  : Env * Completion unit :=
  let id := paymentIntentId payment in
  let env := record_calls [CallRetrieve id] env in
  match paymentIntents_retrieve stripe id with
  | Throws error => (env, Throws error)
  | Returns status =>
      if confirmed_status status then (env, Returns tt)
      else
        let env := record_calls [CallConfirm id (paymentMethodId payment)] env in
        match paymentIntents_confirm stripe id (paymentMethodId payment) with
        | Throws error => (env, Throws error)
        | Returns confirmed =>
            if String.eqb confirmed "requires_action" then
              (env, Throws (Error
                 "3D Secure authentication required - should be handled on frontend"))
            else if negb (confirmed_status confirmed) then
              (env, Throws (Error ("PaymentIntent in unexpected state: " +:+ confirmed)))
            else (env, Returns tt)
        end
  end.

(** [Promise.allSettled(payments.map(authorize))], requests logged in the
    order of the array. *)
Fixpoint authorize_all (stripe : Stripe) (payments : list CheckoutPayment) (env : Env)
  : Env * list (Completion unit) :=
  match payments with
  | [] => (env, [])
  | payment :: rest =>
      let '(env, result) := authorize stripe payment env in
      let '(env, results) := authorize_all stripe rest env in
      (env, result :: results)
  end.

(** [for (const piId of authorizedPayments)]: mark the payment of each
    intent voided. *)
Definition void_authorized (authorizedPayments : list string) (d : Database)
  : Database :=
  foldl (fun d piId =>
           match getPaymentByPaymentIntentId d piId with
           | Some paymentRecord => updatePaymentStatus d (pay_id paymentRecord) voided "" ""
           | None => d
           end) d authorizedPayments.

(** The loop over [authorizationResults] (lines 221-274).  [work] pairs
    [payments[i]] with [authorizationResults[i]] for the indices still to
    visit; [authorizedPayments] holds the intents pushed so far.  The first
    rejected entry ends the loop with a [throw]. *)
Fixpoint check_authorizations (stripe : Stripe) (transactionId : nat)
    (work : list (CheckoutPayment * Completion unit))
    (authorizedPayments : list string) (env : Env)
  : Env * Completion (list string) :=
  match work with
  | [] => (env, Returns authorizedPayments)
  | (payment, Returns _) :: rest =>
      check_authorizations stripe transactionId rest
        (authorizedPayments ++ [paymentIntentId payment])
        (with_db (updatePaymentStatus (db env) (paymentId payment) authorized "" "") env)
  | (payment, Throws reason) :: _ =>
      let error := or_else (err_message reason) "Authorization failed" in
      let env := with_db (updatePaymentStatus (db env) (paymentId payment) failed
                            (err_code reason) (err_message reason)) env in
      let env :=
        if (0 <? length authorizedPayments)%nat then
          let env := cancelPaymentIntents stripe authorizedPayments env in
          with_db (void_authorized authorizedPayments (db env)) env
        else env in
      let env := with_db (updateTransactionStatus (db env) transactionId tx_failed
                            ("Payment failed: " +:+ error)) env in
      (env, Throws (Error ("Card payment failed: " +:+ error)))
  end.

(** [Promise.allSettled(authorizedPayments.map(capturePaymentIntent))] *)
Fixpoint capture_all (stripe : Stripe) (authorizedPayments : list string) (env : Env)
  : Env * list (Completion unit) :=
  match authorizedPayments with
  | [] => (env, [])
  | piId :: rest =>
      let '(env, result) := capturePaymentIntent stripe piId env in
      let '(env, results) := capture_all stripe rest env in
      (env, result :: results)
  end.

(** The loop over [captureResults]: captured payments are marked, the
    intents of failed captures are collected. *)
Fixpoint check_captures (work : list (string * Completion unit)) (d : Database)
  : Database * list string :=
  match work with
  | [] => (d, [])
  | (piId, Returns _) :: rest =>
      let d := match getPaymentByPaymentIntentId d piId with
               | Some paymentRecord =>
                   updatePaymentStatus d (pay_id paymentRecord) captured "" ""
               | None => d
               end in
      check_captures rest d
  | (piId, Throws _) :: rest =>
      let '(d, failedCaptures) := check_captures rest d in
      (d, piId :: failedCaptures)
  end.

(** [for (const failed of failedCaptures) try { await cancelPaymentIntent(...) }
    catch (err) { log }] *)
Definition void_failed_captures (stripe : Stripe) (failedCaptures : list string)
    (env : Env) : Env :=
  foldl (fun e piId => fst (cancelPaymentIntent stripe piId e)) env failedCaptures.

(** The body of the [try] block of [completeCheckout]. *)
Definition complete_try (stripe : Stripe) (transactionId : nat)
    (payments : list CheckoutPayment) (env : Env) : Env * Completion nat :=
  let '(env, authorizationResults) := authorize_all stripe payments env in
  match check_authorizations stripe transactionId
          (zip payments authorizationResults) [] env with
  | (env, Throws error) => (env, Throws error)
  | (env, Returns authorizedPayments) =>
      let '(env, captureResults) := capture_all stripe authorizedPayments env in
      let '(d, failedCaptures) :=
        check_captures (zip authorizedPayments captureResults) (db env) in
      let env := with_db d env in
      if (0 <? length failedCaptures)%nat then
        let env := void_failed_captures stripe failedCaptures env in
        let env := with_db (updateTransactionStatus (db env) transactionId tx_failed
                              "Capture failed after authorization") env in
        (env, Throws (Error "Payment capture failed - transaction voided"))
      else
        (with_db (updateTransactionStatus (db env) transactionId tx_completed "") env,
         Returns transactionId)
  end.

(** [completeCheckout({transactionId, payments, totalAmount})] *)
Definition completeCheckout (stripe : Stripe) (transactionId : nat)
    (payments : list CheckoutPayment) (totalAmount : Z) (env : Env)
  : Env * Completion nat :=
  match validatePaymentAmounts totalAmount (map amount payments) with
  | invalid error => (env, Throws (Error error))
  | valid =>
      match getTransactionById (db env) transactionId with
      | None => (env, Throws (Error "Transaction not found"))
      | Some _ =>
          let env := with_db (updateTransactionStatus (db env) transactionId
                                tx_processing "") env in
          match complete_try stripe transactionId payments env with
          | (env, Throws error) =>
              (with_db (updateTransactionStatus (db env) transactionId tx_failed
                          (err_message error)) env,
               Throws error)
          | (env, Returns result) => (env, Returns result)
          end
      end
  end.

End PaymentService.

(** * Refund service ([server/services/refundService.js]) *)

Module RefundService.
Import Js Db Provider.

Record RefundSplit := {
  paymentId : nat;
  stripePaymentIntentId : string;
  originalAmount : Z;
  refundAmount : Z;
}.

(** [calculateProportionalRefunds(payments, refundAmount)].  The result of
    [distributeProportionally] has the length of [payments], so pairing the
    two lists is [payments.map((payment, index) => ... refundAmounts[index])]. *)
Definition calculateProportionalRefunds (payments : list Payment) (refundAmount : Z)
  : list RefundSplit :=
  let paymentAmounts := map pay_amount payments in
  let refundAmounts := Currency.distributeProportionally refundAmount paymentAmounts in
  zip_with (fun payment amount =>
              {| paymentId := pay_id payment;
                 stripePaymentIntentId := stripe_payment_intent_id payment;
                 originalAmount := pay_amount payment;
                 refundAmount := amount |})
           payments refundAmounts.

(** One entry of [refundResults]; the second form carries
    [status: 'failed']. *)
Inductive RefundResult : Type :=
  | refund_done (paymentId refundId : nat) (stripeRefundId : string)
                (amount : Z) (status : string)
  | refund_error (paymentId : nat) (error : string).

Definition result_status (r : RefundResult) : string :=
  match r with
  | refund_done _ _ _ _ status => status
  | refund_error _ _ => "failed"
  end.

(** One iteration of [for (const refundSplit of nonZeroRefunds)]. *)
Definition refund_one (stripe : Stripe) (transactionId : nat)
    (reason initiatedBy : string) (state : Env * list RefundResult)
    (refundSplit : RefundSplit) : Env * list RefundResult :=
  let '(env, refundResults) := state in
  let intentId := stripePaymentIntentId refundSplit in
  match getPaymentByPaymentIntentId (db env) intentId with
  | None =>
      (env, refundResults ++
            [refund_error (paymentId refundSplit) ("Payment not found: " +:+ intentId)])
  | Some payment =>
      if negb (bool_decide (pay_status payment = captured)) then (env, refundResults)
      else
        let env := record_calls [CallRefund intentId (refundAmount refundSplit)] env in
        match refunds_create stripe intentId (refundAmount refundSplit) reason with
        | Throws error =>
            (env, refundResults ++
                  [refund_error (paymentId refundSplit) (err_message error)])
        | Returns (refundId, status) =>
            match createRefund (db env) transactionId (pay_id payment) refundId
                    (refundAmount refundSplit) reason initiatedBy
                    (if String.eqb status "succeeded"
                     then refund_succeeded else refund_pending) with
            | Throws error =>
                (env, refundResults ++
                      [refund_error (paymentId refundSplit) (err_message error)])
            | Returns (d, refundRecord) =>
                (with_db d env,
                 refundResults ++
                 [refund_done (pay_id payment) (refund_id refundRecord) refundId
                    (refundAmount refundSplit) status])
            end
        end
  end.

(** The sum of the transaction's existing refunds whose status is
    [succeeded]: [existingRefunds.filter(...).reduce((sum, r) => sum + r.amount, 0)]. *)
Definition already_refunded (d : Database) (transactionId : nat) : Z :=
  let existingRefunds := getRefundsByTransactionId d transactionId in
  Currency.reduce_sum
    (map refund_amount
       (List.filter (fun r => bool_decide (refund_status r = refund_succeeded))
                    existingRefunds)).

Record RefundOutcome := {
  success : bool;
  refunds : list RefundResult;
  totalRefunded : Z;
  transactionStatus : TransactionStatus;
}.

(** [processRefund({transactionId, refundAmount, reason, initiatedBy})] *)
Definition processRefund (stripe : Stripe) (transactionId : nat) (refundAmount : Z)
    (reason initiatedBy : string) (env : Env) : Env * Completion RefundOutcome :=
  match getTransactionById (db env) transactionId with
  | None => (env, Throws (Error "Transaction not found"))
  | Some transaction =>
      if negb (bool_decide (tx_status transaction = tx_completed)) then
        (env, Throws (Error "Can only refund completed transactions"))
      else
        let payments := getPaymentsByTransactionId (db env) transactionId in
        if (length payments =? 0)%nat then
          (env, Throws (Error "No payments found for transaction"))
        else
          let totalRefunded := already_refunded (db env) transactionId in
          let remainingRefundable := total_amount transaction - totalRefunded in
          if refundAmount >? remainingRefundable then
            (env, Throws (Error
               ("Refund amount (" +:+ over_100 refundAmount +:+
                ") exceeds remaining refundable amount (" +:+
                over_100 remainingRefundable +:+ ")")))
          else
            let refundSplits := calculateProportionalRefunds payments refundAmount in
            let nonZeroRefunds :=
              List.filter (fun r => RefundService.refundAmount r >? 0) refundSplits in
            if (length nonZeroRefunds =? 0)%nat then
              (env, Throws (Error "Refund amount is too small to distribute"))
            else
              let '(env, refundResults) :=
                foldl (refund_one stripe transactionId reason initiatedBy)
                      (env, []) nonZeroRefunds in
              let newTotalRefunded := totalRefunded + refundAmount in
              let env :=
                if newTotalRefunded >=? total_amount transaction then
                  with_db (updateTransactionStatus (db env) transactionId tx_refunded "") env
                else if newTotalRefunded >? 0 then
                  with_db (updateTransactionStatus (db env) transactionId
                             tx_partially_refunded "") env
                else env in
              let allSucceeded :=
                forallb (fun r => String.eqb (result_status r) "succeeded" ||
                                  String.eqb (result_status r) "pending")
                        refundResults in
              (env,
               Returns {| success := allSucceeded;
                          refunds := refundResults;
                          totalRefunded := newTotalRefunded;
                          transactionStatus :=
                            if newTotalRefunded >=? total_amount transaction
                            then tx_refunded else tx_partially_refunded |})
  end.

(** The status [processRefund] leaves for a new refunded total. *)
Definition status_after_refund (newTotalRefunded total : Z) : TransactionStatus :=
  if newTotalRefunded >=? total then tx_refunded else tx_partially_refunded.

End RefundService.

(** * Order submitter ([server/services/orderService.js]) *)

Module OrderService.
Import Js Db Provider.

(** The commerce platform's answer to [POST orders] for a transaction:
    the order id and the order number (empty when absent). *)
Record Shopify := { orders_post : Transaction -> Completion (string * string) }.

(** [createShopifyOrder({transactionId, shopDomain, checkoutToken})]:
    returns [orderId] and [orderNumber]. *)
Definition createShopifyOrder (shopify : Shopify) (transactionId : nat)
    (shopDomain : string) (d : Database) : Database * Completion (string * string) :=
  match getStoreByDomain d shopDomain with
  | None => (d, Throws (Error ("Store not found: " +:+ shopDomain)))
  | Some _ =>
      match getTransactionById d transactionId with
      | None => (d, Throws (Error ("Transaction not found: " +:+ pretty transactionId)))
      | Some transaction =>
          match orders_post shopify transaction with
          | Throws error => (d, Throws error)
          | Returns (orderId, orderNumber) =>
              let number := or_else orderNumber orderId in
              (updateTransactionOrder d transactionId orderId number,
               Returns (orderId, number))
          end
      end
  end.

End OrderService.

(** * Widget routes ([server/routes/widget.js]) *)

Module Widget.
Import Js Validation Db Provider OrderService.

(** One entry of [session.payments]. *)
Record SessionPayment := {
  paymentId : nat;
  paymentIntentId : string;
  amount : Z;
}.

(** A value of the [widgetSessions] map.  The record has no creation or
    expiry time. *)
Record Session := {
  transactionId : nat;
  shopDomain : string;
  checkoutToken : string;
  payments : list SessionPayment;
}.

(** The server: database, provider log and [const widgetSessions = new Map()]. *)
Record App := {
  env : Env;
  widgetSessions : gmap string Session;
}.

Definition with_env (e : Env) (app : App) : App :=
  {| env := e; widgetSessions := widgetSessions app |}.

Definition with_sessions (m : gmap string Session) (app : App) : App :=
  {| env := env app; widgetSessions := m |}.

Definition with_session_payments (ps : list SessionPayment) (s : Session) : Session :=
  {| transactionId := transactionId s; shopDomain := shopDomain s;
     checkoutToken := checkoutToken s; payments := ps |}.

Inductive Response : Type :=
  (** [res.status(status).json({success: false, error: {code, message}})] *)
  | resp_error (status : nat) (code message : string)
  | resp_init (sessionId : string) (transactionId : nat) (totalAmount maxCards minAmount : Z)
  | resp_payment_intent (paymentIntentId clientSecret : string) (paymentId : nat)
  | resp_success
  | resp_order (orderId orderNumber : string)
  (** status 400, code [CHECKOUT_FAILED], with [failedCard] *)
  | resp_checkout_failed (message : string) (failedCard : option string)
  (** an exception that reaches the error middleware *)
  | resp_uncaught (error : JsError).

(** [settings.maxCards || 5] *)
Definition setting_or (setting : option Z) (fallback : Z) : Z :=
  match setting with
  | Some n => if n =? 0 then fallback else n
  | None => fallback
  end.

(** Each handler takes [now], the time in milliseconds at which the request
    is served ([Date.now()]), and the body of the request.  Only [/init]
    reads the clock, for the name of the session. *)

(** [POST /api/widget/init]; [random] is
    [Math.random().toString(36).substr(2, 9)]. *)
Definition init (now : Z) (random : string) (shopDomain checkoutToken : string)
    (app : App) : App * Response :=
  if negb (truthy shopDomain) || negb (truthy checkoutToken) then
    (app, resp_error 400 "MISSING_PARAMS" "shopDomain and checkoutToken are required")
  else if negb (validateShopDomain shopDomain) then
    (app, resp_error 400 "INVALID_SHOP" "Invalid shop domain format")
  else if negb (validateCheckoutToken checkoutToken) then
    (app, resp_error 400 "INVALID_TOKEN" "Invalid checkout token format")
  else
    match getStoreByDomain (db (env app)) shopDomain with
    | None =>
        (app, resp_error 404 "STORE_NOT_FOUND" "Store not found or app not installed")
    | Some store =>
        let '(d, transaction) :=
          match getTransactionByCheckoutToken (db (env app)) checkoutToken with
          | Some transaction => (db (env app), transaction)
          | None => createTransaction (db (env app)) (store_id store) checkoutToken 0
          end in
        let sessionId := "session_" +:+ pretty now +:+ "_" +:+ random in
        let session := {| transactionId := tx_id transaction;
                          shopDomain := shopDomain;
                          checkoutToken := checkoutToken;
                          payments := [] |} in
        ({| env := with_db d (env app);
            widgetSessions := <[sessionId := session]> (widgetSessions app) |},
         resp_init sessionId (tx_id transaction) (total_amount transaction)
                   (setting_or (maxCards store) 5) (setting_or (minAmount store) 100))
    end.

(** [!amount] *)
Definition falsy_amount (amount : JsValue) : bool :=
  match amount with
  | JsUndefined => true
  | JsInt n => n =? 0
  | _ => false
  end.

(** [parseInt(amount, 10)] of a value that passed [validateAmount], which
    only numbers with an integer value do. *)
Definition parseInt (amount : JsValue) : Z :=
  match amount with JsInt n => parseInt_number n | _ => 0 end.

(** [POST /api/widget/create-payment-intent].  The handler awaits the
    transaction query, the provider and the [INSERT]; the card count is
    read before the provider is called and the card is pushed after the
    [INSERT]. *)
Definition create_payment_intent (now : Z) (stripe : Stripe) (sessionId : string)
    (amount : JsValue) (app : App) : App * Response :=
  if negb (truthy sessionId) || falsy_amount amount then
    (app, resp_error 400 "MISSING_PARAMS" "sessionId and amount are required")
  else
    match validateAmount amount 100 None with
    | invalid error => (app, resp_error 400 "INVALID_AMOUNT" error)
    | valid =>
        match widgetSessions app !! sessionId with
        | None => (app, resp_error 404 "SESSION_NOT_FOUND" "Session expired, please refresh")
        | Some session =>
            match getTransactionById (db (env app)) (transactionId session) with
            | None => (app, resp_error 404 "TRANSACTION_NOT_FOUND" "Transaction not found")
            | Some transaction =>
                if (5 <=? length (payments session))%nat then
                  (app, resp_error 400 "TOO_MANY_CARDS" "Maximum 5 cards allowed")
                else
                  match PaymentService.createPaymentIntent stripe (parseInt amount)
                          (env app) with
                  | (e, Throws error) => (with_env e app, resp_uncaught error)
                  | (e, Returns (intentId, clientSecret)) =>
                      match createPayment (db e) (tx_id transaction) intentId
                              (parseInt amount) with
                      | Throws error => (with_env e app, resp_uncaught error)
                      | Returns (d, payment) =>
                          let entry := {| paymentId := pay_id payment;
                                          paymentIntentId := intentId;
                                          amount := parseInt amount |} in
                          ({| env := with_db d e;
                              widgetSessions :=
                                <[sessionId :=
                                    with_session_payments (payments session ++ [entry])
                                                          session]>
                                  (widgetSessions app) |},
                           resp_payment_intent intentId clientSecret (pay_id payment))
                      end
                  end
            end
        end
    end.

(** [session.payments.findIndex(p => p.paymentIntentId === paymentIntentId)] *)
Definition findIndex (intentId : string) (ps : list SessionPayment) : option nat :=
  fst <$> list_find (fun p => paymentIntentId p = intentId) ps.

(** [POST /api/widget/remove-payment] *)
Definition remove_payment (now : Z) (stripe : Stripe) (sessionId intentId : string)
    (app : App) : App * Response :=
  if negb (truthy sessionId) || negb (truthy intentId) then
    (app, resp_error 400 "MISSING_PARAMS" "sessionId and paymentIntentId are required")
  else
    match widgetSessions app !! sessionId with
    | None => (app, resp_error 404 "SESSION_NOT_FOUND" "Session expired")
    | Some session =>
        match findIndex intentId (payments session) with
        | None => (app, resp_error 404 "PAYMENT_NOT_FOUND" "Payment not found in session")
        | Some paymentIndex =>
            let e := fst (PaymentService.cancelPaymentIntent stripe intentId (env app)) in
            ({| env := e;
                widgetSessions :=
                  <[sessionId :=
                      with_session_payments (delete paymentIndex (payments session))
                                            session]>
                    (widgetSessions app) |},
             resp_success)
        end
    end.

(** One entry of the [payments] array of [/complete-checkout]. *)
Record SubmittedPayment := {
  submittedIntentId : string;
  submittedMethodId : string;
}.

(** [Promise.all(payments.map(...))]: attach the row of each submitted
    intent; a missing row rejects the whole. *)
Fixpoint payment_data (d : Database) (submitted : list SubmittedPayment)
  : Completion (list PaymentService.CheckoutPayment) :=
  match submitted with
  | [] => Returns []
  | p :: rest =>
      match getPaymentByPaymentIntentId d (submittedIntentId p) with
      | None => Throws (Error ("Payment not found: " +:+ submittedIntentId p))
      | Some payment =>
          match payment_data d rest with
          | Throws error => Throws error
          | Returns data =>
              Returns ({| PaymentService.paymentId := pay_id payment;
                          PaymentService.paymentIntentId := submittedIntentId p;
                          PaymentService.paymentMethodId := submittedMethodId p;
                          PaymentService.amount := pay_amount payment |} :: data)
          end
      end
  end.

(** The [catch] of [/complete-checkout]. *)
Definition checkout_failed (error : JsError)
    (paymentData : list PaymentService.CheckoutPayment) : Response :=
  resp_checkout_failed (err_message error)
    (PaymentService.paymentIntentId <$>
       List.find (fun p => includes (err_message error) (PaymentService.paymentIntentId p))
                 paymentData).

(** [POST /api/widget/complete-checkout]; [submitted] is [None] when the
    body has no [payments] array. *)
Definition complete_checkout (now : Z) (stripe : Stripe) (shopify : Shopify)
    (sessionId : string) (submitted : option (list SubmittedPayment)) (app : App)
  : App * Response :=
  match submitted with
  | None => (app, resp_error 400 "MISSING_PARAMS" "sessionId and payments array are required")
  | Some submitted =>
      if negb (truthy sessionId) then
        (app, resp_error 400 "MISSING_PARAMS" "sessionId and payments array are required")
      else
        match widgetSessions app !! sessionId with
        | None => (app, resp_error 404 "SESSION_NOT_FOUND" "Session expired")
        | Some session =>
            match getTransactionById (db (env app)) (transactionId session) with
            | None => (app, resp_error 404 "TRANSACTION_NOT_FOUND" "Transaction not found")
            | Some transaction =>
                match payment_data (db (env app)) submitted with
                | Throws error => (app, resp_uncaught error)
                | Returns paymentData =>
                    match PaymentService.completeCheckout stripe (tx_id transaction)
                            paymentData (total_amount transaction) (env app) with
                    | (e, Throws error) =>
                        (with_env e app, checkout_failed error paymentData)
                    | (e, Returns _) =>
                        match createShopifyOrder shopify (tx_id transaction)
                                (shopDomain session) (db e) with
                        | (d, Throws error) =>
                            (with_env (with_db d e) app, checkout_failed error paymentData)
                        | (d, Returns (orderId, orderNumber)) =>
                            ({| env := with_db d e;
                                widgetSessions := delete sessionId (widgetSessions app) |},
                             resp_order orderId orderNumber)
                        end
                    end
                end
            end
        end
  end.

(** The payment row and the session entry that [/create-payment-intent]
    adds for an intent. *)
Definition new_payment_row (d : Database) (txid : nat) (intent : string) (n : Z)
  : Payment :=
  {| pay_id := next_payment_id d; pay_transaction_id := txid;
     stripe_payment_intent_id := intent; pay_amount := n; pay_status := pending;
     failure_code := None; failure_message := None |}.

Definition new_session_entry (d : Database) (intent : string) (n : Z) : SessionPayment :=
  {| paymentId := next_payment_id d; paymentIntentId := intent; amount := n |}.

End Widget.

(** * Provider webhooks ([server/routes/stripe.js]) *)

Module Webhooks.
Import Js Db.

(** [handlePaymentIntentSucceeded(paymentIntent)] *)
Definition handlePaymentIntentSucceeded (intentId : string) (d : Database) : Database :=
  match getPaymentByPaymentIntentId d intentId with
  | Some payment =>
      if negb (bool_decide (pay_status payment = captured))
      then updatePaymentStatus d (pay_id payment) captured "" ""
      else d
  | None => d
  end.

(** [handlePaymentIntentFailed(paymentIntent)]; [last_payment_error] is
    [None] when the event carries none. *)
Definition handlePaymentIntentFailed (intentId : string)
    (last_payment_error : option JsError) (d : Database) : Database :=
  match getPaymentByPaymentIntentId d intentId with
  | Some payment =>
      updatePaymentStatus d (pay_id payment) failed
        (from_option err_code "" last_payment_error)
        (from_option err_message "" last_payment_error)
  | None => d
  end.

End Webhooks.

(** * Operations and events as one transition system *)

Module Machine.
Import Js Db Provider OrderService Widget.

(** The orchestrator operations and reconciler events that touch payments
    after they are created, with the inputs and the provider answers of
    each. *)
Inductive Event : Type :=
  | complete (now : Z) (stripe : Stripe) (shopify : Shopify) (sessionId : string)
             (submitted : option (list SubmittedPayment))
  | remove_card (now : Z) (stripe : Stripe) (sessionId intentId : string)
  | refund (stripe : Stripe) (transactionId : nat) (refundAmount : Z)
           (reason initiatedBy : string)
  | payment_intent_succeeded (intentId : string)
  | payment_intent_payment_failed (intentId : string) (last_payment_error : option JsError).

Definition step (e : Event) (app : App) : App :=
  match e with
  | complete now stripe shopify sessionId submitted =>
      fst (complete_checkout now stripe shopify sessionId submitted app)
  | remove_card now stripe sessionId intentId =>
      fst (remove_payment now stripe sessionId intentId app)
  | refund stripe transactionId refundAmount reason initiatedBy =>
      with_env (fst (RefundService.processRefund stripe transactionId refundAmount
                       reason initiatedBy (env app))) app
  | payment_intent_succeeded intentId =>
      with_env (with_db (Webhooks.handlePaymentIntentSucceeded intentId (db (env app)))
                        (env app)) app
  | payment_intent_payment_failed intentId error =>
      with_env (with_db (Webhooks.handlePaymentIntentFailed intentId error (db (env app)))
                        (env app)) app
  end.

Definition run (events : list Event) (app : App) : App :=
  foldl (fun app e => step e app) app events.

(** The payment rows before and after an operation: same rows in the same
    order, each status related by [R]. *)
Definition rows_moved (R : PaymentStatus -> PaymentStatus -> Prop)
    (ps ps' : list Payment) : Prop :=
  Forall2 (fun p p' => pay_id p' = pay_id p /\ R (pay_status p) (pay_status p')) ps ps'.

(** What [completeCheckout] may write over a payment's status. *)
Definition checkout_moves (s s' : PaymentStatus) : Prop :=
  s' = s \/ s' = authorized \/ s' = failed \/ s' = voided \/ s' = captured.

(** What one event can do to the status of a payment, read off the
    handlers: [s] before, [s'] after. *)
Definition event_moves (e : Event) (s s' : PaymentStatus) : Prop :=
  match e with
  | complete _ _ _ _ _ =>
      s' = s \/ s' = authorized \/ s' = failed \/ s' = voided \/ s' = captured
  | remove_card _ _ _ _ => s' = s
  | refund _ _ _ _ _ => s' = s
  | payment_intent_succeeded _ => s' = s \/ (s <> captured /\ s' = captured)
  | payment_intent_payment_failed _ _ => s' = s \/ s' = failed
  end.

(** A payment's status along a sequence of events. *)
Fixpoint moves_along (events : list Event) (s s' : PaymentStatus) : Prop :=
  match events with
  | [] => s' = s
  | e :: rest => exists mid, event_moves e s mid /\ moves_along rest mid s'
  end.

(** The transitions the specification allows (section 3, invariant 5). *)
Definition allowed_transition (s s' : PaymentStatus) : bool :=
  match s, s' with
  | pending, authorized | authorized, captured | pending, failed
  | authorized, voided | captured, refunded => true
  | _, _ => false
  end.

Definition terminal (s : PaymentStatus) : bool :=
  match s with
  | captured | voided | failed | refunded => true
  | _ => false
  end.

End Machine.

(** * Concrete scenarios *)

Module Scenarios.
Import Js Db Provider PaymentService.

Definition demo_store : Store :=
  {| store_id := 1; shop_domain := "demo.myshopify.com"; is_active := true;
     maxCards := None; minAmount := None |}.

Definition transaction_row (total : Z) (status : TransactionStatus) : Transaction :=
  {| tx_id := 1; tx_store_id := 1;
     shopify_checkout_token := "c0ffee00c0ffee00c0ffee00c0ffee00";
     shopify_order_id := None; shopify_order_number := None;
     total_amount := total; tx_status := status; failure_reason := None |}.

Definition payment_row (id : nat) (intentId : string) (amount : Z)
    (status : PaymentStatus) : Payment :=
  {| pay_id := id; pay_transaction_id := 1; stripe_payment_intent_id := intentId;
     pay_amount := amount; pay_status := status;
     failure_code := None; failure_message := None |}.

Definition database (t : Transaction) (ps : list Payment) : Database :=
  {| stores := [demo_store]; transactions := [t]; payments := ps; refunds := [];
     next_transaction_id := 2; next_payment_id := S (length ps);
     next_refund_id := 1 |}.

Definition checkout_payment (id : nat) (intentId methodId : string) (amount : Z)
  : CheckoutPayment :=
  {| paymentId := id; paymentIntentId := intentId; paymentMethodId := methodId;
     amount := amount |}.

Definition card_declined : JsError :=
  {| err_code := "card_declined"; err_message := "Your card was declined." |}.

(** A provider on which every intent still awaits confirmation, every
    confirmation is granted except for the intents in [declined], and every
    capture, cancel and refund succeeds. *)
Definition provider (declined : list string) : Stripe :=
  {| paymentIntents_create := fun amount =>
       Returns ("pi_" +:+ pretty amount, "secret_" +:+ pretty amount);
     paymentIntents_retrieve := fun _ => Returns "requires_confirmation";
     paymentIntents_confirm := fun id _ =>
       if bool_decide (id ∈ declined) then Throws card_declined
       else Returns "requires_capture";
     paymentIntents_capture := fun _ => Returns tt;
     paymentIntents_cancel := fun _ => Returns tt;
     refunds_create := fun id amount _ => Returns ("re_" +:+ id, "succeeded") |}.

(** The same provider with every refund request refused. *)
Definition provider_refusing_refunds : Stripe :=
  {| paymentIntents_create := paymentIntents_create (provider []);
     paymentIntents_retrieve := paymentIntents_retrieve (provider []);
     paymentIntents_confirm := paymentIntents_confirm (provider []);
     paymentIntents_capture := paymentIntents_capture (provider []);
     paymentIntents_cancel := paymentIntents_cancel (provider []);
     refunds_create := fun _ _ _ =>
       Throws {| err_code := "api_connection_error";
                 err_message := "Network error" |} |}.

(** S2: a 120.00 total split three ways; the second card declines. *)
Definition three_cards_env : Env :=
  {| db := database (transaction_row 12000 tx_pending)
             [payment_row 1 "pi_1" 4000 pending;
              payment_row 2 "pi_2" 4000 pending;
              payment_row 3 "pi_3" 4000 pending];
     calls := [] |}.

Definition three_cards : list CheckoutPayment :=
  [checkout_payment 1 "pi_1" "pm_1" 4000;
   checkout_payment 2 "pi_2" "pm_2" 4000;
   checkout_payment 3 "pi_3" "pm_3" 4000].

(** A 150.00 total on two cards whose transaction is already [processing]. *)
Definition processing_env : Env :=
  {| db := database (transaction_row 15000 tx_processing)
             [payment_row 1 "pi_1" 10000 pending;
              payment_row 2 "pi_2" 5000 pending];
     calls := [] |}.

Definition two_cards : list CheckoutPayment :=
  [checkout_payment 1 "pi_1" "pm_1" 10000;
   checkout_payment 2 "pi_2" "pm_2" 5000].

(** A completed 150.00 transaction on two captured cards. *)
Definition captured_db : Database :=
  database (transaction_row 15000 tx_completed)
    [payment_row 1 "pi_1" 10000 captured; payment_row 2 "pi_2" 5000 captured].

Definition captured_env : Env := {| db := captured_db; calls := [] |}.

(** The same after the first card was released. *)
Definition voided_db : Database :=
  database (transaction_row 15000 tx_failed)
    [payment_row 1 "pi_1" 10000 voided; payment_row 2 "pi_2" 5000 failed].

(** A completed 150.00 transaction whose buyer added a 50.00 card, removed
    it and added another: the removed card's row stays, [pending]. *)
Definition removed_card_env : Env :=
  {| db := database (transaction_row 15000 tx_completed)
             [payment_row 1 "pi_1" 10000 captured;
              payment_row 2 "pi_2" 5000 pending;
              payment_row 3 "pi_3" 5000 captured];
     calls := [] |}.

(** A completed 4.00 transaction on four captured cards of 1.00 each. *)
Definition four_cards_env : Env :=
  {| db := database (transaction_row 400 tx_completed)
             [payment_row 1 "pi_1" 100 captured; payment_row 2 "pi_2" 100 captured;
              payment_row 3 "pi_3" 100 captured; payment_row 4 "pi_4" 100 captured];
     calls := [] |}.

(** A completed 5.00 transaction on five captured cards of 1.00 each. *)
Definition five_cards_env : Env :=
  {| db := database (transaction_row 500 tx_completed)
             [payment_row 1 "pi_1" 100 captured; payment_row 2 "pi_2" 100 captured;
              payment_row 3 "pi_3" 100 captured; payment_row 4 "pi_4" 100 captured;
              payment_row 5 "pi_5" 100 captured];
     calls := [] |}.

(** A 150.00 transaction of which 30.00 were refunded before. *)
Definition partially_refunded_env : Env :=
  {| db :=
       {| stores := [demo_store];
          transactions := [transaction_row 15000 tx_partially_refunded];
          payments := [payment_row 1 "pi_1" 10000 captured;
                       payment_row 2 "pi_2" 5000 captured];
          refunds := [{| refund_id := 1; refund_transaction_id := 1;
                         refund_payment_id := 1; stripe_refund_id := "re_1";
                         refund_amount := 2000; refund_reason := "requested_by_customer";
                         refund_status := refund_succeeded; initiated_by := "admin" |};
                      {| refund_id := 2; refund_transaction_id := 1;
                         refund_payment_id := 2; stripe_refund_id := "re_2";
                         refund_amount := 1000; refund_reason := "requested_by_customer";
                         refund_status := refund_succeeded; initiated_by := "admin" |}];
          next_transaction_id := 2; next_payment_id := 3; next_refund_id := 3 |};
     calls := [] |}.

(** A session whose two cards already cover the 150.00 total. *)
Definition covered_app : Widget.App :=
  {| Widget.env :=
       {| db := database (transaction_row 15000 tx_pending)
                  [payment_row 1 "pi_1" 10000 pending; payment_row 2 "pi_2" 5000 pending];
          calls := [] |};
     Widget.widgetSessions :=
       {[ "session_0_k3j9x0a1b" :=
            {| Widget.transactionId := 1;
               Widget.shopDomain := "demo.myshopify.com";
               Widget.checkoutToken := "c0ffee00c0ffee00c0ffee00c0ffee00";
               Widget.payments :=
                 [{| Widget.paymentId := 1; Widget.paymentIntentId := "pi_1";
                     Widget.amount := 10000 |};
                  {| Widget.paymentId := 2; Widget.paymentIntentId := "pi_2";
                     Widget.amount := 5000 |}] |} ]} |}.

(** The session of a checkout whose first attempt failed: card 1 was
    released, card 2 was declined, and the session is still in the cache. *)
Definition retry_app : Widget.App :=
  {| Widget.env := {| db := voided_db; calls := [] |};
     Widget.widgetSessions := Widget.widgetSessions covered_app |}.

Definition no_orders : OrderService.Shopify :=
  {| OrderService.orders_post := fun _ =>
       Throws {| err_code := ""; err_message := "Service unavailable" |} |}.

(** The sum of [session.payments[_].amount] and the remaining balance of
    the specification: total minus that sum. *)
Definition remaining_balance (t : Transaction) (s : Widget.Session) : Z :=
  total_amount t - Currency.reduce_sum (map Widget.amount (Widget.payments s)).

(** A server with one installed store and nothing else. *)
Definition fresh_app : Widget.App :=
  {| Widget.env :=
       {| db := {| stores := [demo_store]; transactions := []; payments := [];
                   refunds := []; next_transaction_id := 1; next_payment_id := 1;
                   next_refund_id := 1 |};
          calls := [] |};
     Widget.widgetSessions := ∅ |}.

Definition thirty_minutes : Z := 30 * 60 * 1000.

End Scenarios.

(** * Further queries, handlers and predicates *)

Module ValidationIds.
Import Js.

(** [validatePaymentIntentId(paymentIntentId)]:
    [startsWith('pi_') && length > 3] on a non-empty string. *)
Definition validatePaymentIntentId (paymentIntentId : string) : bool :=
  truthy paymentIntentId &&
  String.prefix "pi_" paymentIntentId && (3 <? String.length paymentIntentId)%nat.

(** [validatePaymentMethodId(paymentMethodId)] *)
Definition validatePaymentMethodId (paymentMethodId : string) : bool :=
  truthy paymentMethodId &&
  String.prefix "pm_" paymentMethodId && (3 <? String.length paymentMethodId)%nat.

End ValidationIds.

Module StoreQueries.
Import Js Db.

(** [uninstallStore(shopDomain)]:
    [UPDATE stores SET is_active = false, ... WHERE shop_domain = $1] *)
Definition uninstallStore (d : Database) (shopDomain : string) : Database :=
  {| stores :=
       map (fun s => if String.eqb (shop_domain s) shopDomain
                     then {| store_id := store_id s; shop_domain := shop_domain s;
                             is_active := false; maxCards := maxCards s;
                             minAmount := minAmount s |}
                     else s)
           (stores d);
     transactions := transactions d; payments := payments d; refunds := refunds d;
     next_transaction_id := next_transaction_id d;
     next_payment_id := next_payment_id d; next_refund_id := next_refund_id d |}.

(** [SELECT * FROM transactions WHERE shopify_order_id = $1] *)
Definition getTransactionByOrderId (d : Database) (orderId : string) : option Transaction :=
  List.find (fun t => match shopify_order_id t with
                      | Some o => String.eqb o orderId
                      | None => false
                      end) (transactions d).

End StoreQueries.

(** * Platform webhooks ([server/routes/webhooks.js]) *)

Module ShopifyWebhooks.
Import Js Db StoreQueries.

(** [handleAppUninstalled(shop)] *)
Definition handleAppUninstalled (shop : string) (d : Database) : Database :=
  uninstallStore d shop.

(** The [switch (topic)] of [POST /api/webhooks/shopify], after the
    signature check: [orders/create] and [checkouts/delete] only log,
    [orders/refunded] looks the transaction up and logs. *)
Definition shopify_webhook (topic shop : string) (d : Database) : Database :=
  if String.eqb topic "app/uninstalled" then handleAppUninstalled shop d
  else d.

(** [POST /api/webhooks/gdpr/shop/redact] *)
Definition gdpr_shop_redact (shop_domain : string) (d : Database) : Database :=
  uninstallStore d shop_domain.

End ShopifyWebhooks.

(** * Predicates on states *)

Module Invariants.
Import Js Db Provider Widget.

(** Two payment rows that differ at most in status and failure fields. *)
Definition same_payment (p p' : Payment) : Prop :=
  pay_id p' = pay_id p /\
  pay_transaction_id p' = pay_transaction_id p /\
  stripe_payment_intent_id p' = stripe_payment_intent_id p /\
  pay_amount p' = pay_amount p.

(** The same rows in the same order, up to status and failure fields. *)
Definition rows_same (ps ps' : list Payment) : Prop := Forall2 same_payment ps ps'.

(** The constraints of the schema on the payments table: the intents are
    pairwise distinct ([UNIQUE]) and of at most 255 characters, the amounts
    are in the [INTEGER] range, and every row refers to a transaction. *)
Definition payments_constrained (d : Database) : Prop :=
  NoDup (map stripe_payment_intent_id (Db.payments d)) /\
  Forall (fun p => (String.length (stripe_payment_intent_id p) <= 255)%nat /\
                   int4 (pay_amount p) = true /\
                   is_Some (getTransactionById d (pay_transaction_id p)))
         (Db.payments d).

(** The transactions found in [d] are found in [d']. *)
Definition tx_kept (d d' : Database) : Prop :=
  forall id, is_Some (getTransactionById d id) -> is_Some (getTransactionById d' id).

(** The lookup of intent [i] in [d] finds a captured payment. *)
Definition captured_at (d : Database) (i : string) : Prop :=
  exists row, getPaymentByPaymentIntentId d i = Some row /\ pay_status row = captured.

Definition is_capture (c : ProviderCall) : bool :=
  match c with CallCapture _ => true | _ => false end.

Definition is_refund (c : ProviderCall) : bool :=
  match c with CallRefund _ _ => true | _ => false end.

End Invariants.

Module CheckoutLog.
Import Js Db Provider PaymentService.

(** A provider request that a checkout with a refused authorization may
    send: a retrieve or a confirm, or the cancel of an intent submitted in
    [ps] whose own authorization the provider [stripe] grants. *)
Definition compensation_call (stripe : Stripe) (ps : list CheckoutPayment) (env0 : Env)
    (c : ProviderCall) : Prop :=
  match c with
  | CallRetrieve _ | CallConfirm _ _ => True
  | CallCancel id =>
      exists q, q ∈ ps /\ paymentIntentId q = id /\
                snd (authorize stripe q env0) = Returns tt
  | _ => False
  end.

End CheckoutLog.

Module RefundLog.
Import Js Db Provider RefundService.

(** The amounts of the per-payment results that the provider reported as
    [succeeded]. *)
Definition succeeded_amounts (results : list RefundResult) : list Z :=
  flat_map (fun r => match r with
                     | refund_done _ _ _ amount status =>
                         if String.eqb status "succeeded" then [amount] else []
                     | refund_error _ _ => []
                     end) results.

(** A refund request for a positive amount on an intent whose payment row
    in [d] is captured. *)
Definition sound_refund_call (d : Database) (c : ProviderCall) : Prop :=
  match c with
  | CallRefund intent amount =>
      0 < amount /\
      exists row, getPaymentByPaymentIntentId d intent = Some row /\
                  pay_status row = captured
  | _ => False
  end.

End RefundLog.

Module MoreScenarios.
Import Js Db Provider OrderService.

(** A commerce platform that creates order 7001 with number 1042. *)
Definition orders_accepted : Shopify :=
  {| orders_post := fun _ => Returns ("7001", "1042") |}.

Definition both_cards : list Widget.SubmittedPayment :=
  [{| Widget.submittedIntentId := "pi_1"; Widget.submittedMethodId := "pm_1" |};
   {| Widget.submittedIntentId := "pi_2"; Widget.submittedMethodId := "pm_2" |}].

End MoreScenarios.

(** ** Properties of the proration *)

Module CurrencyFacts.
Import Currency.

Lemma foldl_add_shift (xs : list Z) (a : Z) :
  foldl Z.add a xs = a + reduce_sum xs.
Proof.
  unfold reduce_sum. revert a.
  induction xs as [|x xs IH]; intros a; simpl; [lia|].
  rewrite (IH (a + x)), (IH (0 + x)). lia.
Qed.

Lemma reduce_sum_nil : reduce_sum [] = 0.
Proof. reflexivity. Qed.

Lemma reduce_sum_cons (x : Z) (xs : list Z) :
  reduce_sum (x :: xs) = x + reduce_sum xs.
Proof. unfold reduce_sum at 1. simpl. apply foldl_add_shift. Qed.

Lemma reduce_sum_app (xs ys : list Z) :
  reduce_sum (xs ++ ys) = reduce_sum xs + reduce_sum ys.
Proof.
  induction xs as [|x xs IH]; simpl.
  - rewrite reduce_sum_nil. lia.
  - rewrite !reduce_sum_cons, IH. lia.
Qed.

(** Replacing one entry shifts the sum by the change of that entry. *)
Lemma reduce_sum_insert (xs : list Z) (i : nat) (v d : Z) :
  xs !! i = Some v ->
  reduce_sum (<[i := v + d]> xs) = reduce_sum xs + d.
Proof.
  revert i. induction xs as [|x xs IH]; intros [|i] Hi; simpl in *; try discriminate.
  - injection Hi as ->. rewrite !reduce_sum_cons. lia.
  - rewrite !reduce_sum_cons, (IH i Hi). lia.
Qed.

Lemma largest_from_lt (arr rest : list Z) (idx maxIdx : nat) :
  (maxIdx < length arr)%nat ->
  (idx + length rest <= length arr)%nat ->
  (largest_from arr rest idx maxIdx < length arr)%nat.
Proof.
  revert idx maxIdx.
  induction rest as [|val rest IH]; intros idx maxIdx Hm Hi; simpl in *; [exact Hm|].
  apply IH; [|lia].
  destruct (arr !! maxIdx) as [m|]; [|exact Hm].
  destruct (val >? m); [lia|exact Hm].
Qed.

Lemma largestIndex_lt (arr : list Z) :
  arr <> [] -> (largestIndex arr < length arr)%nat.
Proof.
  intros Hne. unfold largestIndex.
  destruct arr as [|a arr]; [congruence|].
  apply largest_from_lt; simpl; lia.
Qed.

Lemma distribute_length (round : Z -> Z -> Z -> Z) (total : Z) (portions : list Z) :
  length (distributeProportionallyWith round total portions) = length portions.
Proof.
  unfold distributeProportionallyWith.
  destruct (reduce_sum portions =? 0); [apply length_map|].
  destruct (_ - _ =? 0); [apply length_map|].
  destruct (_ !! _); [rewrite length_insert|]; apply length_map.
Qed.

Lemma distribute_sum (round : Z -> Z -> Z -> Z) (total : Z) (portions : list Z) :
  reduce_sum portions <> 0 ->
  reduce_sum (distributeProportionallyWith round total portions) = total.
Proof.
  intros HW. unfold distributeProportionallyWith.
  destruct (Z.eqb_spec (reduce_sum portions) 0) as [|_]; [contradiction|].
  set (distributed := map _ portions).
  destruct (Z.eqb_spec (total - reduce_sum distributed) 0) as [H0|Hd]; [lia|].
  assert (Hne : distributed <> []).
  { subst distributed. destruct portions; [|discriminate].
    exfalso. apply HW. reflexivity. }
  pose proof (largestIndex_lt distributed Hne) as Hlt.
  destruct (lookup_lt_is_Some_2 _ _ Hlt) as [v Hv].
  rewrite Hv, (reduce_sum_insert _ _ _ _ Hv). lia.
Qed.

(** C3. For every total >= 0 and every non-empty vector of non-negative
    integer weights whose sum is positive, [distributeProportionally]
    returns a vector of the same length as the weights whose elements sum
    exactly to the total.  The statement holds for every rounding of the
    quotients, hence for the double-precision one of the source as well as
    for the exact one of [distributeProportionally]. *)
Theorem distribute_exact_sum
    (round : Z -> Z -> Z -> Z) (total : Z) (weights : list Z) :
  0 <= total ->
  weights <> [] ->
  Forall (fun w => 0 <= w) weights ->
  0 < reduce_sum weights ->
  length (distributeProportionallyWith round total weights) = length weights /\
  reduce_sum (distributeProportionallyWith round total weights) = total.
Proof.
  intros _ _ _ Hpos. split.
  - apply distribute_length.
  - apply distribute_sum. lia.
Qed.

Lemma distribute_exact_sum_witness :
  length (distributeProportionally 10 [1; 1; 1]) = 3%nat /\
  reduce_sum (distributeProportionally 10 [1; 1; 1]) = 10.
Proof.
  apply (distribute_exact_sum js_round_ratio 10 [1; 1; 1]).
  - lia.
  - discriminate.
  - repeat constructor; lia.
  - vm_compute. reflexivity.
Defined.

(** S3 and S4 of the specification. *)
Example distribute_s3 : distributeProportionally 3000 [8000; 4000] = [2000; 1000].
Proof. reflexivity. Qed.

Example distribute_s4 :
  distributeProportionally 1000 [33; 33; 34] = [330; 330; 340] /\
  distributeProportionally 10 [1; 1; 1] = [4; 3; 3].
Proof. split; reflexivity. Qed.

(** C4 (the code on the failing input).  Total 2 over four equal weights:
    every quotient is 1/2 and rounds up to 1, the rounded shares sum to 4,
    and the difference of -2 is added to the first share, which becomes -1.
    The quotients 100/400 and 2 * 0.25 are exact in double precision. *)
Theorem distribute_negative_share :
  0 <= 2 /\
  Forall (fun w => 0 <= w) [100; 100; 100; 100] /\
  0 < reduce_sum [100; 100; 100; 100] /\
  map (fun portion => js_round_ratio 2 portion 400) [100; 100; 100; 100] = [1; 1; 1; 1] /\
  distributeProportionally 2 [100; 100; 100; 100] = [-1; 1; 1; 1].
Proof.
  split; [lia|]. split; [repeat constructor; lia|].
  vm_compute. repeat split; reflexivity.
Qed.

End CurrencyFacts.

(** ** Properties of the store queries *)

Module DbFacts.
Import Js Db Provider Machine.

Lemma rows_moved_refl (R : PaymentStatus -> PaymentStatus -> Prop) (ps : list Payment) :
  (forall s, R s s) -> rows_moved R ps ps.
Proof.
  intros HR. induction ps as [|p ps IH]; constructor; auto.
Qed.

Lemma rows_moved_compose (R S T : PaymentStatus -> PaymentStatus -> Prop)
    (ps1 ps2 ps3 : list Payment) :
  (forall a b c, R a b -> S b c -> T a c) ->
  rows_moved R ps1 ps2 -> rows_moved S ps2 ps3 -> rows_moved T ps1 ps3.
Proof.
  intros HT H12. revert ps3.
  induction H12 as [|p1 p2 ps1 ps2 [Hid HR] _ IH]; intros ps3 H23;
    inversion H23 as [|? p3 ? ps3' [Hid' HS] Hrest]; subst; constructor.
  - split; [congruence|]. eapply HT; eauto.
  - apply IH, Hrest.
Qed.

Lemma rows_moved_weaken (R S : PaymentStatus -> PaymentStatus -> Prop)
    (ps ps' : list Payment) :
  (forall a b, R a b -> S a b) -> rows_moved R ps ps' -> rows_moved S ps ps'.
Proof.
  intros HRS H. induction H as [|p p' ps ps' [Hid HR] _ IH]; constructor; auto.
Qed.

(** [updatePaymentStatus] writes [status] over whatever the row holds. *)
Lemma updatePaymentStatus_moved (d : Database) (id : nat) (status : PaymentStatus)
    (code message : string) :
  rows_moved (fun s s' => s' = s \/ s' = status)
             (payments d) (payments (updatePaymentStatus d id status code message)).
Proof.
  unfold updatePaymentStatus. simpl.
  induction (payments d) as [|p ps IH]; simpl; constructor; [|exact IH].
  destruct (pay_id p =? id)%nat; simpl; auto.
Qed.

Lemma payments_updateTransactionStatus (d : Database) (id : nat)
    (status : TransactionStatus) (reason : string) :
  payments (updateTransactionStatus d id status reason) = payments d.
Proof. reflexivity. Qed.

Lemma payments_updateTransactionOrder (d : Database) (id : nat) (o n : string) :
  payments (updateTransactionOrder d id o n) = payments d.
Proof. reflexivity. Qed.

Lemma getTransactionById_update (d : Database) (id : nat) (status : TransactionStatus)
    (reason : string) :
  getTransactionById (updateTransactionStatus d id status reason) id =
  set_transaction_status status reason <$> getTransactionById d id.
Proof.
  unfold getTransactionById, updateTransactionStatus. simpl.
  induction (transactions d) as [|t ts IH]; simpl; [reflexivity|].
  destruct (tx_id t =? id)%nat eqn:E; simpl; rewrite E; [reflexivity|exact IH].
Qed.

Lemma updateTransactionStatus_twice (d : Database) (id : nat)
    (s1 s2 : TransactionStatus) :
  updateTransactionStatus (updateTransactionStatus d id s1 "") id s2 "" =
  updateTransactionStatus d id s2 "".
Proof.
  unfold updateTransactionStatus, with_transactions. simpl. f_equal.
  rewrite map_map. apply map_ext. intros t.
  destruct (tx_id t =? id)%nat eqn:E; simpl; rewrite E; reflexivity.
Qed.

Lemma getTransactionById_id (d : Database) (id : nat) (t : Transaction) :
  getTransactionById d id = Some t -> tx_id t = id.
Proof.
  unfold getTransactionById. intros Hfound.
  apply List.find_some in Hfound as [_ Heq]. apply Nat.eqb_eq, Heq.
Qed.

(** An amount of the [INTEGER] range is read back by [parseInt] and bound
    to an [INTEGER] parameter as it is. *)
Lemma parseInt_in_range (n : Z) :
  -2147483648 <= n <= 2147483647 -> Widget.parseInt (JsInt n) = n.
Proof.
  intros Hn. cbn [Widget.parseInt]. unfold parseInt_number.
  assert (H : (Z.abs n <? 10 ^ 21) = true) by (apply Z.ltb_lt; lia).
  rewrite H. reflexivity.
Qed.

Lemma integer_parameter_in_range (n : Z) :
  -2147483648 <= n <= 2147483647 -> integer_parameter n = None.
Proof.
  intros Hn. unfold integer_parameter, int4.
  assert (H : (10 ^ 21 <=? Z.abs n) = false) by (apply Z.leb_gt; lia).
  rewrite H.
  assert (H1 : (-2147483648 <=? n) = true) by lia.
  assert (H2 : (n <=? 2147483647) = true) by lia.
  rewrite H1, H2. reflexivity.
Qed.

Lemma varchar_fits (n : nat) (s : string) :
  (String.length s <= n)%nat -> varchar n s = Returns s.
Proof.
  intros Hl. unfold varchar.
  assert (H : (String.length s <=? n)%nat = true) by (apply Nat.leb_le; exact Hl).
  rewrite H. reflexivity.
Qed.

(** The [INSERT] of a payment that meets the constraints of the schema. *)
Lemma createPayment_accepted (d : Database) (txid : nat) (intent : string) (n : Z)
    (t : Transaction) :
  -2147483648 <= n <= 2147483647 ->
  (String.length intent <= 255)%nat ->
  getPaymentByPaymentIntentId d intent = None ->
  getTransactionById d txid = Some t ->
  createPayment d txid intent n =
  Returns ({| stores := stores d; transactions := transactions d;
              payments := payments d ++
                [{| pay_id := next_payment_id d; pay_transaction_id := txid;
                    stripe_payment_intent_id := intent; pay_amount := n;
                    pay_status := pending; failure_code := None;
                    failure_message := None |}];
              refunds := refunds d;
              next_transaction_id := next_transaction_id d;
              next_payment_id := S (next_payment_id d);
              next_refund_id := next_refund_id d |},
           {| pay_id := next_payment_id d; pay_transaction_id := txid;
              stripe_payment_intent_id := intent; pay_amount := n;
              pay_status := pending; failure_code := None;
              failure_message := None |}).
Proof.
  intros Hn Hlength Hfresh Hfound. unfold createPayment.
  rewrite (integer_parameter_in_range n Hn), (varchar_fits 255 intent Hlength).
  rewrite Hfresh, Hfound. reflexivity.
Qed.

End DbFacts.

(** ** Properties of the checkout service *)

Module PaymentServiceFacts.
Import Js Validation Db Provider PaymentService Machine DbFacts.

Lemma checkout_moves_refl (s : PaymentStatus) : checkout_moves s s.
Proof. left. reflexivity. Qed.

Lemma checkout_moves_trans (a b c : PaymentStatus) :
  checkout_moves a b -> checkout_moves b c -> checkout_moves a c.
Proof. unfold checkout_moves. intros Hab Hbc. destruct Hbc as [-> | Hc]; auto. Qed.

Lemma checkout_write (d : Database) (id : nat) (status : PaymentStatus)
    (code message : string) :
  status <> pending -> status <> refunded ->
  rows_moved checkout_moves (payments d)
             (payments (updatePaymentStatus d id status code message)).
Proof.
  intros Hp Hr.
  eapply rows_moved_weaken; [|apply updatePaymentStatus_moved].
  intros a b [-> | ->]; [left; reflexivity|].
  unfold checkout_moves. destruct status; auto; congruence.
Qed.

Ltac chain_moves :=
  eapply (rows_moved_compose checkout_moves checkout_moves checkout_moves);
  [exact checkout_moves_trans| |].

(** Provider requests only grow the log. *)
Lemma cancel_db (stripe : Stripe) (ids : list string) (env : Env) :
  db (cancelPaymentIntents stripe ids env) = db env.
Proof.
  unfold cancelPaymentIntents. revert env.
  induction ids as [|id ids IH]; intros env; simpl; [reflexivity|].
  rewrite IH. reflexivity.
Qed.

Lemma void_failed_db (stripe : Stripe) (ids : list string) (env : Env) :
  db (void_failed_captures stripe ids env) = db env.
Proof. exact (cancel_db stripe ids env). Qed.

Lemma authorize_db (stripe : Stripe) (p : CheckoutPayment) (env : Env) :
  db (fst (authorize stripe p env)) = db env.
Proof.
  unfold authorize.
  destruct (paymentIntents_retrieve _ _) as [status|]; [|reflexivity].
  destruct (confirmed_status status); [reflexivity|].
  destruct (paymentIntents_confirm _ _ _) as [confirmed|]; [|reflexivity].
  destruct (String.eqb confirmed _); [reflexivity|].
  destruct (negb _); reflexivity.
Qed.

Lemma authorize_all_db (stripe : Stripe) (ps : list CheckoutPayment) (env : Env) :
  db (fst (authorize_all stripe ps env)) = db env.
Proof.
  revert env. induction ps as [|p ps IH]; intros env; simpl; [reflexivity|].
  pose proof (authorize_db stripe p env) as Ha.
  destruct (authorize stripe p env) as [env1 r]. simpl in Ha.
  pose proof (IH env1) as Hb.
  destruct (authorize_all stripe ps env1) as [env2 rs]. simpl in *. congruence.
Qed.

Lemma capture_all_db (stripe : Stripe) (ids : list string) (env : Env) :
  db (fst (capture_all stripe ids env)) = db env.
Proof.
  revert env. induction ids as [|id ids IH]; intros env; simpl; [reflexivity|].
  pose proof (IH (record_calls [CallCapture id] env)) as Hb.
  destruct (capture_all stripe ids _) as [env2 rs]. simpl in *. exact Hb.
Qed.

Lemma void_authorized_moved (ids : list string) (d : Database) :
  rows_moved checkout_moves (payments d) (payments (void_authorized ids d)).
Proof.
  unfold void_authorized. revert d.
  induction ids as [|id ids IH]; intros d; simpl.
  - apply rows_moved_refl, checkout_moves_refl.
  - chain_moves; [|apply IH].
    destruct (getPaymentByPaymentIntentId d id).
    + apply checkout_write; discriminate.
    + apply rows_moved_refl, checkout_moves_refl.
Qed.

Lemma check_authorizations_moved (stripe : Stripe) (txid : nat)
    (work : list (CheckoutPayment * Completion unit)) (done : list string) (env : Env) :
  rows_moved checkout_moves (payments (db env))
    (payments (db (fst (check_authorizations stripe txid work done env)))).
Proof.
  revert done env.
  induction work as [|[p [u|reason]] work IH]; intros done env;
    cbn [check_authorizations].
  - apply rows_moved_refl, checkout_moves_refl.
  - chain_moves; [|apply IH].
    apply (checkout_write (db env) (paymentId p) authorized); discriminate.
  - set (d1 := updatePaymentStatus (db env) (paymentId p) failed
                 (err_code reason) (err_message reason)).
    apply (rows_moved_compose checkout_moves checkout_moves checkout_moves
             _ (payments d1)); [exact checkout_moves_trans| |].
    + apply checkout_write; discriminate.
    + destruct (0 <? length done)%nat; cbn [fst db with_db];
        rewrite ?cancel_db; cbn [db with_db].
      * apply void_authorized_moved.
      * apply rows_moved_refl, checkout_moves_refl.
Qed.

Lemma check_captures_moved (work : list (string * Completion unit)) (d : Database) :
  rows_moved checkout_moves (payments d) (payments (fst (check_captures work d))).
Proof.
  revert d. induction work as [|[id [u|reason]] work IH]; intros d; simpl.
  - apply rows_moved_refl, checkout_moves_refl.
  - chain_moves; [|apply IH].
    destruct (getPaymentByPaymentIntentId d id).
    + apply checkout_write; discriminate.
    + apply rows_moved_refl, checkout_moves_refl.
  - specialize (IH d). destruct (check_captures work d). exact IH.
Qed.

Lemma complete_try_moved (stripe : Stripe) (txid : nat) (ps : list CheckoutPayment)
    (env : Env) :
  rows_moved checkout_moves (payments (db env))
    (payments (db (fst (complete_try stripe txid ps env)))).
Proof.
  unfold complete_try.
  pose proof (authorize_all_db stripe ps env) as Ha.
  destruct (authorize_all stripe ps env) as [env1 results]. simpl in Ha.
  pose proof (check_authorizations_moved stripe txid (zip ps results) [] env1) as Hc.
  rewrite Ha in Hc.
  destruct (check_authorizations _ _ _ _ _) as [env2 [ids|error]]; simpl in Hc;
    [|exact Hc].
  pose proof (capture_all_db stripe ids env2) as Hd.
  destruct (capture_all stripe ids env2) as [env3 captures]. simpl in Hd.
  pose proof (check_captures_moved (zip ids captures) (db env3)) as He.
  destruct (check_captures _ _) as [d failedCaptures]. simpl in He.
  rewrite Hd in He.
  chain_moves; [exact Hc|].
  chain_moves; [exact He|].
  destruct (0 <? length failedCaptures)%nat; cbn [fst db with_db];
    rewrite payments_updateTransactionStatus, ?void_failed_db;
    apply rows_moved_refl, checkout_moves_refl.
Qed.

Lemma completeCheckout_moved (stripe : Stripe) (txid : nat) (ps : list CheckoutPayment)
    (total : Z) (env : Env) :
  rows_moved checkout_moves (payments (db env))
    (payments (db (fst (completeCheckout stripe txid ps total env)))).
Proof.
  unfold completeCheckout.
  destruct (validatePaymentAmounts _ _);
    [|apply rows_moved_refl, checkout_moves_refl].
  destruct (getTransactionById _ _);
    [|apply rows_moved_refl, checkout_moves_refl].
  match goal with
  | |- context [complete_try stripe txid ps ?e] =>
      pose proof (complete_try_moved stripe txid ps e) as Ht;
      destruct (complete_try stripe txid ps e) as [env1 [r|error]]
  end; simpl in *; exact Ht.
Qed.

(** Every step of the checkout keeps the requests already logged. *)
Lemma record_calls_prefix (cs : list ProviderCall) (env : Env) :
  calls env `prefix_of` calls (record_calls cs env).
Proof. exists cs. reflexivity. Qed.

Lemma cancel_prefix (stripe : Stripe) (ids : list string) (env : Env) :
  calls env `prefix_of` calls (cancelPaymentIntents stripe ids env).
Proof.
  unfold cancelPaymentIntents. revert env.
  induction ids as [|id ids IH]; intros env; simpl; [reflexivity|].
  etrans; [|apply IH]. apply record_calls_prefix.
Qed.

Lemma authorize_prefix (stripe : Stripe) (p : CheckoutPayment) (env : Env) :
  (calls env ++ [CallRetrieve (paymentIntentId p)])
    `prefix_of` calls (fst (authorize stripe p env)).
Proof.
  unfold authorize.
  destruct (paymentIntents_retrieve _ _) as [status|]; [|reflexivity].
  destruct (confirmed_status status); [reflexivity|].
  destruct (paymentIntents_confirm _ _ _) as [confirmed|];
    [|apply record_calls_prefix].
  destruct (String.eqb confirmed _); [apply record_calls_prefix|].
  destruct (negb _); apply record_calls_prefix.
Qed.

Lemma authorize_all_prefix (stripe : Stripe) (ps : list CheckoutPayment) (env : Env) :
  calls env `prefix_of` calls (fst (authorize_all stripe ps env)).
Proof.
  revert env. induction ps as [|p ps IH]; intros env; simpl; [reflexivity|].
  pose proof (authorize_prefix stripe p env) as Ha.
  destruct (authorize stripe p env) as [env1 r]. simpl in Ha.
  pose proof (IH env1) as Hb.
  destruct (authorize_all stripe ps env1) as [env2 rs]. simpl in *.
  etrans; [|exact Hb]. etrans; [|exact Ha]. apply prefix_app_r. reflexivity.
Qed.

Lemma authorize_all_retrieves (stripe : Stripe) (ps : list CheckoutPayment) (env : Env)
    (p : CheckoutPayment) :
  p ∈ ps ->
  CallRetrieve (paymentIntentId p) ∈ calls (fst (authorize_all stripe ps env)).
Proof.
  revert env. induction ps as [|q ps IH]; intros env Hin; [inversion Hin|].
  simpl.
  pose proof (authorize_prefix stripe q env) as Ha.
  destruct (authorize stripe q env) as [env1 r]. simpl in Ha.
  pose proof (IH env1) as Hb. pose proof (authorize_all_prefix stripe ps env1) as Hc.
  destruct (authorize_all stripe ps env1) as [env2 rs]. simpl in *.
  apply elem_of_cons in Hin as [-> | Hin]; [|auto].
  destruct Hc as [k1 ->]. destruct Ha as [k2 ->].
  rewrite !elem_of_app, list_elem_of_singleton. auto.
Qed.

Lemma check_authorizations_prefix (stripe : Stripe) (txid : nat)
    (work : list (CheckoutPayment * Completion unit)) (done : list string) (env : Env) :
  calls env `prefix_of` calls (fst (check_authorizations stripe txid work done env)).
Proof.
  revert done env.
  induction work as [|[p [u|reason]] work IH]; intros done env;
    cbn [check_authorizations].
  - reflexivity.
  - etrans; [|apply IH]. reflexivity.
  - destruct (0 <? length done)%nat; cbn [fst calls with_db]; [|reflexivity].
    etrans; [|apply cancel_prefix]. reflexivity.
Qed.

Lemma capture_all_prefix (stripe : Stripe) (ids : list string) (env : Env) :
  calls env `prefix_of` calls (fst (capture_all stripe ids env)).
Proof.
  revert env. induction ids as [|id ids IH]; intros env; simpl; [reflexivity|].
  pose proof (IH (record_calls [CallCapture id] env)) as Hb.
  destruct (capture_all stripe ids _) as [env2 rs]. simpl in *.
  etrans; [|exact Hb]. apply record_calls_prefix.
Qed.

Lemma complete_try_prefix (stripe : Stripe) (txid : nat) (ps : list CheckoutPayment)
    (env : Env) :
  calls (fst (authorize_all stripe ps env))
    `prefix_of` calls (fst (complete_try stripe txid ps env)).
Proof.
  unfold complete_try.
  destruct (authorize_all stripe ps env) as [env1 results]. cbn [fst].
  pose proof (check_authorizations_prefix stripe txid (zip ps results) [] env1) as Hc.
  destruct (check_authorizations _ _ _ _ _) as [env2 [ids|error]]; simpl in Hc;
    [|exact Hc].
  pose proof (capture_all_prefix stripe ids env2) as Hd.
  destruct (capture_all stripe ids env2) as [env3 captures]. simpl in Hd.
  destruct (check_captures _ _) as [d failedCaptures].
  etrans; [exact Hc|]. etrans; [exact Hd|].
  destruct (0 <? length failedCaptures)%nat; cbn [fst calls with_db]; [|reflexivity].
  apply (cancel_prefix stripe failedCaptures (with_db d env3)).
Qed.

(** C1 (the code on the failing input).  Three cards of 40.00 on a 120.00
    total; the provider grants the confirmation of cards 1 and 3 and
    declines card 2.  [completeCheckout] cancels and voids card 1, marks
    card 2 failed and the transaction failed, and stops: the authorization
    of card 3 was requested and granted, yet no cancel is sent for it and
    its payment stays pending. *)
Theorem complete_leaves_later_authorization :
  let result := completeCheckout (Scenarios.provider ["pi_2"]) 1
                  Scenarios.three_cards 12000 Scenarios.three_cards_env in
  paymentIntents_confirm (Scenarios.provider ["pi_2"]) "pi_3" "pm_3"
    = Returns "requires_capture" /\
  calls (fst result) =
    [CallRetrieve "pi_1"; CallConfirm "pi_1" "pm_1";
     CallRetrieve "pi_2"; CallConfirm "pi_2" "pm_2";
     CallRetrieve "pi_3"; CallConfirm "pi_3" "pm_3";
     CallCancel "pi_1"] /\
  map pay_status (payments (db (fst result))) = [voided; failed; pending] /\
  tx_status <$> getTransactionById (db (fst result)) 1 = Some tx_failed /\
  snd result = Throws (Error "Card payment failed: Your card was declined.").
Proof. vm_compute. repeat split; reflexivity. Qed.

(** C5 (counterexample).  The transaction is already [processing];
    [completeCheckout] is not rejected: it confirms and captures both
    intents with the provider and returns. *)
Lemma complete_proceeds_when_processing :
  let result := completeCheckout (Scenarios.provider []) 1
                  Scenarios.two_cards 15000 Scenarios.processing_env in
  tx_status <$> getTransactionById (db Scenarios.processing_env) 1
    = Some tx_processing /\
  calls (fst result) =
    [CallRetrieve "pi_1"; CallConfirm "pi_1" "pm_1";
     CallRetrieve "pi_2"; CallConfirm "pi_2" "pm_2";
     CallCapture "pi_1"; CallCapture "pi_2"] /\
  snd result = Returns 1%nat.
Proof. vm_compute. repeat split; reflexivity. Qed.

(** C5 (amended).  [completeCheckout] has no status guard.  When the
    amounts pass validation and the transaction exists, the call proceeds
    whatever the transaction's status is: the outcome and the final state
    are those of the same call on any other status of that transaction
    ([processing] included), and a provider retrieve is sent for every
    submitted payment. *)
Theorem complete_ignores_transaction_status
    (stripe : Stripe) (txid : nat) (ps : list CheckoutPayment) (total : Z)
    (env : Env) (transaction : Transaction) :
  validatePaymentAmounts total (map amount ps) = valid ->
  getTransactionById (db env) txid = Some transaction ->
  (forall status,
     completeCheckout stripe txid ps total
       (with_db (updateTransactionStatus (db env) txid status "") env) =
     completeCheckout stripe txid ps total env) /\
  (forall p, p ∈ ps ->
     CallRetrieve (paymentIntentId p) ∈
       calls (fst (completeCheckout stripe txid ps total env))).
Proof.
  intros Hvalid Hfound. split.
  - intros status. unfold completeCheckout. rewrite Hvalid.
    cbn [db with_db]. rewrite getTransactionById_update, Hfound. cbn [fmap option_fmap option_map].
    rewrite updateTransactionStatus_twice. reflexivity.
  - intros p Hin. unfold completeCheckout. rewrite Hvalid, Hfound.
    match goal with
    | |- context [complete_try stripe txid ps ?e] =>
        pose proof (complete_try_prefix stripe txid ps e) as [more Hmore];
        pose proof (authorize_all_retrieves stripe ps e p Hin) as Hr;
        destruct (complete_try stripe txid ps e) as [env1 [r|error]]
    end; cbn [fst calls with_db] in *; rewrite Hmore, elem_of_app; auto.
Qed.

Lemma complete_ignores_transaction_status_witness :
  (forall status,
     completeCheckout (Scenarios.provider []) 1 Scenarios.two_cards 15000
       (with_db (updateTransactionStatus (db Scenarios.processing_env) 1 status "")
                Scenarios.processing_env) =
     completeCheckout (Scenarios.provider []) 1 Scenarios.two_cards 15000
       Scenarios.processing_env) /\
  (forall p, p ∈ Scenarios.two_cards ->
     CallRetrieve (paymentIntentId p) ∈
       calls (fst (completeCheckout (Scenarios.provider []) 1 Scenarios.two_cards 15000
                     Scenarios.processing_env))).
Proof.
  apply (complete_ignores_transaction_status (Scenarios.provider []) 1
           Scenarios.two_cards 15000 Scenarios.processing_env
           (Scenarios.transaction_row 15000 tx_processing)).
  - vm_compute. reflexivity.
  - vm_compute. reflexivity.
Defined.

End PaymentServiceFacts.

(** ** Properties of the refund service *)

Module RefundServiceFacts.
Import Js Db Provider RefundService DbFacts CurrencyFacts.

(** A refund writes refund rows only: the payment and transaction tables
    seen by one iteration are those it leaves. *)
Lemma refund_one_tables (stripe : Stripe) (txid : nat) (reason who : string)
    (state : Env * list RefundResult) (split : RefundSplit) :
  payments (db (fst (refund_one stripe txid reason who state split))) =
    payments (db (fst state)) /\
  transactions (db (fst (refund_one stripe txid reason who state split))) =
    transactions (db (fst state)).
Proof.
  destruct state as [env results]. unfold refund_one.
  destruct (getPaymentByPaymentIntentId _ _) as [payment|]; [|auto].
  destruct (negb _); [auto|].
  destruct (refunds_create _ _ _ _) as [[rid status]|]; [|auto].
  unfold createRefund. cbn [db record_calls].
  destruct (integer_parameter _); [auto|].
  destruct (refund_strings _ _ _) as [[[rid' reason'] who']|]; [|auto].
  destruct (existsb _ _); [auto|].
  destruct (negb _); [auto|].
  destruct (negb _); auto.
Qed.

Lemma refund_loop_tables (stripe : Stripe) (txid : nat) (reason who : string)
    (splits : list RefundSplit) (state : Env * list RefundResult) :
  payments (db (fst (foldl (refund_one stripe txid reason who) state splits))) =
    payments (db (fst state)) /\
  transactions (db (fst (foldl (refund_one stripe txid reason who) state splits))) =
    transactions (db (fst state)).
Proof.
  revert state. induction splits as [|split splits IH]; intros state; simpl; [auto|].
  destruct (IH (refund_one stripe txid reason who state split)) as [Hp Ht].
  destruct (refund_one_tables stripe txid reason who state split) as [Hp' Ht'].
  split; congruence.
Qed.

Lemma processRefund_payments (stripe : Stripe) (txid : nat) (amount : Z)
    (reason who : string) (env : Env) :
  payments (db (fst (processRefund stripe txid amount reason who env))) =
  payments (db env).
Proof.
  unfold processRefund.
  destruct (getTransactionById _ _) as [transaction|]; [|reflexivity].
  destruct (negb _); [reflexivity|].
  destruct (length _ =? 0)%nat; [reflexivity|].
  destruct (amount >? _); [reflexivity|].
  destruct (length _ =? 0)%nat; [reflexivity|].
  match goal with
  | |- context [foldl ?f ?st ?l] =>
      destruct (refund_loop_tables stripe txid reason who l st) as [Hp _];
      destruct (foldl f st l) as [env1 results]
  end.
  simpl in Hp. cbn [fst].
  destruct (_ >=? _); [exact Hp|].
  destruct (_ >? 0); exact Hp.
Qed.

(** The splits carry the shares computed by [distributeProportionally], in
    the order of the payments. *)
Lemma split_amounts (ps : list Payment) (amount : Z) :
  map refundAmount (calculateProportionalRefunds ps amount) =
  Currency.distributeProportionally amount (map pay_amount ps).
Proof.
  unfold calculateProportionalRefunds.
  pose proof (distribute_length Currency.js_round_ratio amount (map pay_amount ps)) as Hl.
  rewrite length_map in Hl. fold Currency.distributeProportionally in Hl.
  revert Hl. generalize (Currency.distributeProportionally amount (map pay_amount ps)).
  induction ps as [|p ps IH]; intros [|a shares] Hl; simpl in *; try discriminate;
    [reflexivity|].
  f_equal. apply IH. lia.
Qed.

(** A list of integers with a positive sum has a positive entry. *)
Lemma positive_sum_has_positive (xs : list Z) :
  0 < Currency.reduce_sum xs -> List.filter (fun x => x >? 0) xs <> [].
Proof.
  induction xs as [|x xs IH]; [rewrite reduce_sum_nil; lia|].
  rewrite reduce_sum_cons. intros Hs. simpl.
  destruct (Z.gtb_spec x 0); [discriminate|]. apply IH. lia.
Qed.

Lemma filter_map_nonempty {A B : Type} (f : A -> B) (p : B -> bool) (l : list A) :
  List.filter p (map f l) <> [] -> List.filter (fun a => p (f a)) l <> [].
Proof.
  induction l as [|a l IH]; simpl; [auto|].
  destruct (p (f a)); [discriminate|exact IH].
Qed.

(** C6 (the code on the failing inputs).  First, a completed transaction
    with a removed card's row still [pending]: the 100.00 refund is split
    over all three rows, the share of the pending row is skipped, and the
    refunds created sum to 75.00 while 100.00 is reported.  Second, four
    captured cards of 1.00 and a refund of 2 cents: the split holds a
    negative share, which the filter drops, and the refunds created sum to
    3 cents. *)
Theorem refund_split_misses_requested_amount :
  let rows := getPaymentsByTransactionId (db Scenarios.removed_card_env) 1 in
  let result := processRefund (Scenarios.provider []) 1 10000
                  "requested_by_customer" "admin" Scenarios.removed_card_env in
  let result' := processRefund (Scenarios.provider []) 1 2
                   "requested_by_customer" "admin" Scenarios.four_cards_env in
  map pay_status rows = [captured; pending; captured] /\
  map refundAmount (calculateProportionalRefunds rows 10000) = [5000; 2500; 2500] /\
  map refund_amount (Db.refunds (db (fst result))) = [5000; 2500] /\
  totalRefunded <$> (match snd result with Returns out => Some out | Throws _ => None end)
    = Some 10000 /\
  map refundAmount
      (calculateProportionalRefunds
         (getPaymentsByTransactionId (db Scenarios.four_cards_env) 1) 2)
    = [-1; 1; 1; 1] /\
  map refund_amount (Db.refunds (db (fst result'))) = [1; 1; 1].
Proof. vm_compute. repeat split; reflexivity. Qed.

(** C7 (counterexample).  The transaction is [partially_refunded], 30.00 of
    its 150.00 are refunded, and a further refund of 10.00 is within the
    remaining amount; [processRefund] rejects it. *)
Lemma refund_rejects_partially_refunded :
  tx_status <$> getTransactionById (db Scenarios.partially_refunded_env) 1
    = Some tx_partially_refunded /\
  already_refunded (db Scenarios.partially_refunded_env) 1 = 3000 /\
  processRefund (Scenarios.provider []) 1 1000 "requested_by_customer" "admin"
                Scenarios.partially_refunded_env
    = (Scenarios.partially_refunded_env,
       Throws (Error "Can only refund completed transactions")).
Proof. vm_compute. repeat split; reflexivity. Qed.

(** C7 (amended).  A refund request on an existing transaction is rejected
    with "Can only refund completed transactions", the state left as it
    was, if and only if the transaction's status is not [completed]; a
    transaction in [partially_refunded] is among the rejected. *)
Theorem refund_status_guard
    (stripe : Stripe) (txid : nat) (amount : Z) (reason who : string) (env : Env)
    (transaction : Transaction) :
  getTransactionById (db env) txid = Some transaction ->
  (snd (processRefund stripe txid amount reason who env)
     = Throws (Error "Can only refund completed transactions")
   <-> tx_status transaction <> tx_completed) /\
  (tx_status transaction <> tx_completed ->
   fst (processRefund stripe txid amount reason who env) = env).
Proof.
  intros Hfound. unfold processRefund. rewrite Hfound.
  destruct (decide (tx_status transaction = tx_completed)) as [Hc | Hn].
  - rewrite (bool_decide_eq_true_2 _ Hc). cbn [negb].
    split; [|intros Hn; contradiction].
    split; [|intros Hn; contradiction].
    intros Hthrow. exfalso. revert Hthrow.
    destruct (length _ =? 0)%nat; [cbn; discriminate|].
    destruct (amount >? _); [cbn; discriminate|].
    destruct (length _ =? 0)%nat; [cbn; discriminate|].
    destruct (foldl _ _ _) as [env1 results]. cbn. discriminate.
  - rewrite (bool_decide_eq_false_2 _ Hn). cbn [negb fst snd].
    split; [split|]; auto.
Qed.

Lemma refund_status_guard_witness :
  (snd (processRefund (Scenarios.provider []) 1 1000 "requested_by_customer" "admin"
          Scenarios.partially_refunded_env)
     = Throws (Error "Can only refund completed transactions")
   <-> tx_partially_refunded <> tx_completed) /\
  (tx_partially_refunded <> tx_completed ->
   fst (processRefund (Scenarios.provider []) 1 1000 "requested_by_customer" "admin"
          Scenarios.partially_refunded_env) = Scenarios.partially_refunded_env).
Proof.
  apply (refund_status_guard (Scenarios.provider []) 1 1000 "requested_by_customer"
           "admin" Scenarios.partially_refunded_env
           (Scenarios.transaction_row 15000 tx_partially_refunded)).
  vm_compute. reflexivity.
Defined.

(** C10 (counterexample).  A request for a zero amount, and one for a
    negative amount, pass the status check and the check against the
    remaining refundable amount.  On a completed 150.00 transaction a
    refund of 0 is then rejected as too small to distribute: nothing is
    returned and the status is not set.  On a completed 5.00 transaction on
    five cards a refund of -3 is split into [1; -1; -1; -1; -1]; one cent
    is refunded on the first card, the call returns a total of -3 with the
    status [partially_refunded], and the transaction's status stays
    [completed]. *)
Lemma refund_of_nonpositive_amount :
  let zero := processRefund (Scenarios.provider []) 1 0
                "requested_by_customer" "admin" Scenarios.captured_env in
  let negative := processRefund (Scenarios.provider []) 1 (-3)
                    "requested_by_customer" "admin" Scenarios.five_cards_env in
  tx_status <$> getTransactionById (db Scenarios.captured_env) 1 = Some tx_completed /\
  (0 >? 15000 - already_refunded (db Scenarios.captured_env) 1) = false /\
  zero = (Scenarios.captured_env,
          Throws (Error "Refund amount is too small to distribute")) /\
  tx_status <$> getTransactionById (db Scenarios.five_cards_env) 1 = Some tx_completed /\
  (-3 >? 500 - already_refunded (db Scenarios.five_cards_env) 1) = false /\
  map refundAmount
      (calculateProportionalRefunds
         (getPaymentsByTransactionId (db Scenarios.five_cards_env) 1) (-3))
    = [1; -1; -1; -1; -1] /\
  (match snd negative with
   | Returns out => Some (totalRefunded out, transactionStatus out)
   | Throws _ => None
   end) = Some (-3, tx_partially_refunded) /\
  calls (fst negative) = [CallRefund "pi_1" 1] /\
  tx_status <$> getTransactionById (db (fst negative)) 1 = Some tx_completed.
Proof. vm_compute. repeat split; reflexivity. Qed.

(** C10 (amended).  For a refund of a positive amount on a completed
    transaction whose payments carry a positive total and whose succeeded
    refunds so far sum to a non-negative amount, within the remaining
    refundable amount, [processRefund] returns, whatever the provider
    answers to the refund requests: the returned [totalRefunded] is the
    amount already refunded plus the full requested amount, the
    transaction's status becomes [refunded] when that sum reaches the total
    and [partially_refunded] otherwise, and only [success] depends on the
    per-payment results. *)
Theorem refund_total_from_request
    (stripe : Stripe) (txid : nat) (amount : Z) (reason who : string) (env : Env)
    (transaction : Transaction) :
  getTransactionById (db env) txid = Some transaction ->
  tx_status transaction = tx_completed ->
  0 < Currency.reduce_sum (map pay_amount (getPaymentsByTransactionId (db env) txid)) ->
  0 <= already_refunded (db env) txid ->
  0 < amount <= total_amount transaction - already_refunded (db env) txid ->
  exists env' out,
    processRefund stripe txid amount reason who env = (env', Returns out) /\
    totalRefunded out = already_refunded (db env) txid + amount /\
    transactionStatus out =
      status_after_refund (totalRefunded out) (total_amount transaction) /\
    tx_status <$> getTransactionById (db env') txid =
      Some (status_after_refund (totalRefunded out) (total_amount transaction)) /\
    success out =
      forallb (fun r => String.eqb (result_status r) "succeeded" ||
                        String.eqb (result_status r) "pending") (refunds out).
Proof.
  intros Hfound Hstatus Hweights Hprior [Hpos Hle].
  unfold processRefund. rewrite Hfound.
  rewrite (bool_decide_eq_true_2 _ Hstatus). cbn [negb].
  generalize dependent (getPaymentsByTransactionId (db env) txid).
  intros rows Hweights.
  assert (Hrows : (length rows =? 0)%nat = false).
  { destruct rows; [cbn in Hweights; lia|reflexivity]. }
  rewrite Hrows.
  assert (Hcheck : (amount >? total_amount transaction - already_refunded (db env) txid)
                   = false) by lia.
  rewrite Hcheck.
  set (nonZero := List.filter _ (calculateProportionalRefunds rows amount)).
  assert (HnonZero : (length nonZero =? 0)%nat = false).
  { assert (Hne : nonZero <> []).
    { apply (filter_map_nonempty refundAmount (fun x => x >? 0)).
      rewrite split_amounts. apply positive_sum_has_positive.
      unfold Currency.distributeProportionally. rewrite distribute_sum; lia. }
    destruct nonZero; [congruence|reflexivity]. }
  rewrite HnonZero.
  destruct (refund_loop_tables stripe txid reason who nonZero (env, [])) as [_ Ht].
  destruct (foldl _ _ nonZero) as [env1 results]. cbn [fst] in Ht.
  assert (Hfound1 : getTransactionById (db env1) txid = Some transaction).
  { unfold getTransactionById in *. rewrite Ht. exact Hfound. }
  unfold status_after_refund. cbn [totalRefunded].
  destruct (already_refunded (db env) txid + amount >=? total_amount transaction) eqn:Hfull.
  - eexists _, _. split; [reflexivity|]. cbn [totalRefunded transactionStatus success
      refunds db with_db]. rewrite Hfull, getTransactionById_update, Hfound1.
    repeat split; reflexivity.
  - assert (Hsome : (already_refunded (db env) txid + amount >? 0) = true) by lia.
    rewrite Hsome.
    eexists _, _. split; [reflexivity|]. cbn [totalRefunded transactionStatus success
      refunds db with_db]. rewrite Hfull, getTransactionById_update, Hfound1.
    repeat split; reflexivity.
Qed.

Lemma refund_total_from_request_witness :
  exists env' out,
    processRefund Scenarios.provider_refusing_refunds 1 3000
      "requested_by_customer" "admin" Scenarios.captured_env = (env', Returns out) /\
    totalRefunded out = already_refunded Scenarios.captured_db 1 + 3000 /\
    transactionStatus out = status_after_refund (totalRefunded out) 15000 /\
    tx_status <$> getTransactionById (db env') 1 =
      Some (status_after_refund (totalRefunded out) 15000) /\
    success out =
      forallb (fun r => String.eqb (result_status r) "succeeded" ||
                        String.eqb (result_status r) "pending") (refunds out).
Proof.
  apply (refund_total_from_request Scenarios.provider_refusing_refunds 1 3000
           "requested_by_customer" "admin" Scenarios.captured_env
           (Scenarios.transaction_row 15000 tx_completed)).
  - vm_compute. reflexivity.
  - reflexivity.
  - vm_compute. reflexivity.
  - vm_compute. discriminate.
  - vm_compute. split; [reflexivity|discriminate].
Defined.

End RefundServiceFacts.

(** ** Properties of the routes and of the event system *)

Module WidgetFacts.
Import Js Validation Db Provider OrderService Widget Machine DbFacts PaymentServiceFacts.

Lemma createShopifyOrder_payments (shopify : Shopify) (txid : nat) (shop : string)
    (d : Database) :
  Db.payments (fst (createShopifyOrder shopify txid shop d)) = Db.payments d.
Proof.
  unfold createShopifyOrder.
  destruct (getStoreByDomain _ _); [|reflexivity].
  destruct (getTransactionById _ _); [|reflexivity].
  destruct (orders_post _ _) as [[o n]|]; reflexivity.
Qed.

Lemma remove_payment_payments (now : Z) (stripe : Stripe) (sid intent : string)
    (app : App) :
  Db.payments (db (env (fst (remove_payment now stripe sid intent app)))) =
  Db.payments (db (env app)).
Proof.
  unfold remove_payment.
  destruct (_ || _); [reflexivity|].
  destruct (_ !! _); [|reflexivity].
  destruct (findIndex _ _); reflexivity.
Qed.

Lemma complete_checkout_moved (now : Z) (stripe : Stripe) (shopify : Shopify)
    (sid : string) (submitted : option (list SubmittedPayment)) (app : App) :
  rows_moved checkout_moves (Db.payments (db (env app)))
    (Db.payments (db (env (fst (complete_checkout now stripe shopify sid submitted app))))).
Proof.
  pose proof (fun ps => rows_moved_refl checkout_moves ps checkout_moves_refl) as Hrefl.
  unfold complete_checkout.
  destruct submitted as [submitted|]; [|apply Hrefl].
  destruct (negb _); [apply Hrefl|].
  destruct (_ !! _) as [session|]; [|apply Hrefl].
  destruct (getTransactionById _ _) as [transaction|]; [|apply Hrefl].
  destruct (payment_data _ _) as [data|]; [|apply Hrefl].
  pose proof (completeCheckout_moved stripe (tx_id transaction) data
                (total_amount transaction) (env app)) as Hc.
  destruct (PaymentService.completeCheckout _ _ _ _ _) as [e [r|error]];
    cbn [fst] in Hc; [|exact Hc].
  pose proof (createShopifyOrder_payments shopify (tx_id transaction)
                (shopDomain session) (db e)) as Ho.
  destruct (createShopifyOrder _ _ _ _) as [d [[o n]|error]];
    cbn [fst env db with_env with_db] in *; rewrite Ho; exact Hc.
Qed.

Ltac case_response :=
  repeat match goal with
         | |- context [if ?b then _ else _] => destruct b
         | |- context [match ?x with _ => _ end] => destruct x
         end.

(** C8 (counterexample).  The session's two cards already cover the 150.00
    total, so the remaining balance is 0; a third card of 100.00 is
    accepted: the provider is asked for an authorization and a payment row
    is created. *)
Lemma add_card_accepts_over_balance :
  let result := create_payment_intent 0 (Scenarios.provider [])
                  "session_0_k3j9x0a1b" (JsInt 10000) Scenarios.covered_app in
  Scenarios.remaining_balance (Scenarios.transaction_row 15000 tx_pending)
    <$> widgetSessions Scenarios.covered_app !! "session_0_k3j9x0a1b" = Some 0 /\
  snd result = resp_payment_intent "pi_10000" "secret_10000" 3 /\
  calls (env (fst result)) = [CallCreate 10000] /\
  map pay_amount (Db.payments (db (env (fst result)))) = [10000; 5000; 10000].
Proof. vm_compute. repeat split; reflexivity. Qed.

(** C8 (amended).  [/create-payment-intent] compares the amount with the
    minimum of 100 only, never with the remaining balance.  A request that
    the handler's own checks reject (answers 400 and 404) leaves the state
    as it was: no request to the provider, no payment row.  A request that
    fails after the checks (an exception answered by the error middleware)
    has sent one create request to the provider and leaves no payment row
    and no card in the session: either the provider refused and there is no
    authorization, or the provider created the intent and the [INSERT] was
    refused, and the authorization exists without a payment row.  There is
    no other answer than these two and the acceptance.  A request for an
    integer amount from 100 to 2147483647 on an existing session with fewer
    than five cards, whose transaction exists and for which the provider
    creates an intent that has no payment row yet and whose id fits the
    column, is accepted whatever the total and the amounts already
    recorded: the authorization is requested, the payment row is created
    and the card is added to the session. *)
Theorem add_card_without_balance_check
    (now : Z) (stripe : Stripe) (sid : string) (requested : JsValue) (app : App) :
  let result := create_payment_intent now stripe sid requested app in
  (forall status code message,
     snd result = resp_error status code message -> fst result = app) /\
  (forall error,
     snd result = resp_uncaught error ->
     calls (env (fst result)) = calls (env app) ++ [CallCreate (parseInt requested)] /\
     Db.payments (db (env (fst result))) = Db.payments (db (env app)) /\
     widgetSessions (fst result) = widgetSessions app /\
     (paymentIntents_create stripe (parseInt requested) = Throws error \/
      exists intent secret session,
        widgetSessions app !! sid = Some session /\
        paymentIntents_create stripe (parseInt requested) = Returns (intent, secret) /\
        createPayment (db (env app)) (transactionId session) intent (parseInt requested)
          = Throws error)) /\
  match snd result with
  | resp_error _ _ _ | resp_uncaught _ | resp_payment_intent _ _ _ => True
  | _ => False
  end /\
  (forall n session transaction intent secret,
     requested = JsInt n ->
     truthy sid = true ->
     100 <= n <= 2147483647 ->
     widgetSessions app !! sid = Some session ->
     getTransactionById (db (env app)) (transactionId session) = Some transaction ->
     (length (payments session) < 5)%nat ->
     paymentIntents_create stripe n = Returns (intent, secret) ->
     (String.length intent <= 255)%nat ->
     getPaymentByPaymentIntentId (db (env app)) intent = None ->
     snd result = resp_payment_intent intent secret (next_payment_id (db (env app))) /\
     calls (env (fst result)) = calls (env app) ++ [CallCreate n] /\
     Db.payments (db (env (fst result))) =
       Db.payments (db (env app)) ++
       [new_payment_row (db (env app)) (tx_id transaction) intent n] /\
     widgetSessions (fst result) !! sid =
       Some (with_session_payments
               (payments session ++ [new_session_entry (db (env app)) intent n])
               session)).
Proof.
  cbn zeta. split; [|split; [|split]].
  - intros status code message. unfold create_payment_intent.
    case_response; cbn [fst snd]; congruence.
  - intros error. unfold create_payment_intent.
    destruct (_ || _); [discriminate|].
    destruct (validateAmount _ _ _); [|discriminate].
    destruct (_ !! _) as [session|]; [|discriminate].
    destruct (getTransactionById _ _) as [transaction|] eqn:Hfound; [|discriminate].
    apply getTransactionById_id in Hfound.
    destruct (5 <=? _)%nat; [discriminate|].
    unfold PaymentService.createPaymentIntent.
    destruct (paymentIntents_create _ _) as [[intent secret]|err] eqn:Hcreate;
      cbn [db record_calls].
    + destruct (createPayment _ _ _ _) as [[d payment]|err] eqn:Hinsert; [discriminate|].
      cbn [fst snd env with_env db calls widgetSessions]. intros [= ->].
      repeat split. right. exists intent, secret, session.
      rewrite <- Hfound. auto.
    + cbn [fst snd env with_env db calls widgetSessions]. intros [= ->].
      repeat split. left. reflexivity.
  - unfold create_payment_intent.
    destruct (_ || _); [exact I|].
    destruct (validateAmount _ _ _); [|exact I].
    destruct (_ !! _) as [session|]; [|exact I].
    destruct (getTransactionById _ _) as [transaction|]; [|exact I].
    destruct (5 <=? _)%nat; [exact I|].
    destruct (PaymentService.createPaymentIntent _ _ _) as [e [[intent secret]|err]];
      [|exact I].
    destruct (createPayment _ _ _ _) as [[d payment]|err]; exact I.
  - intros n session transaction intent secret -> Hsid [Hmin Hmax] Hsession Hfound Hcards
           Hcreate Hlength Hfresh.
    unfold create_payment_intent, PaymentService.createPaymentIntent.
    rewrite Hsid. cbn [negb orb falsy_amount validateAmount].
    rewrite (parseInt_in_range n) by lia.
    assert (Hnz : (n =? 0) = false) by lia. rewrite Hnz.
    assert (Hlt : (n <? 100) = false) by lia. rewrite Hlt.
    assert (Hle : (n <=? 0) = false) by lia. rewrite Hle.
    rewrite Hsession, Hfound.
    assert (Hfive : (5 <=? length (payments session))%nat = false)
      by (apply Nat.leb_gt; exact Hcards).
    rewrite Hfive, Hcreate. cbn [db record_calls].
    rewrite (createPayment_accepted (db (env app)) (tx_id transaction) intent n transaction);
      [|lia|exact Hlength|exact Hfresh|].
    + cbn [fst snd env db calls widgetSessions with_db Db.payments].
      rewrite lookup_insert_eq. repeat split; reflexivity.
    + rewrite (getTransactionById_id _ _ _ Hfound). exact Hfound.
Qed.

Lemma add_card_without_balance_check_witness :
  let result := create_payment_intent 0 (Scenarios.provider [])
                  "session_0_k3j9x0a1b" (JsInt 10000) Scenarios.covered_app in
  snd result = resp_payment_intent "pi_10000" "secret_10000" 3 /\
  calls (env (fst result)) = [] ++ [CallCreate 10000] /\
  Db.payments (db (env (fst result))) =
    Db.payments (db (env Scenarios.covered_app)) ++
    [new_payment_row (db (env Scenarios.covered_app)) 1 "pi_10000" 10000] /\
  widgetSessions (fst result) !! "session_0_k3j9x0a1b" =
    (fun session =>
       with_session_payments
         (payments session ++
            [new_session_entry (db (env Scenarios.covered_app)) "pi_10000" 10000])
         session)
      <$> widgetSessions Scenarios.covered_app !! "session_0_k3j9x0a1b".
Proof.
  refine (proj2 (proj2 (proj2
            (add_card_without_balance_check 0 (Scenarios.provider [])
               "session_0_k3j9x0a1b" (JsInt 10000) Scenarios.covered_app)))
            10000 _ (Scenarios.transaction_row 15000 tx_pending)
            "pi_10000" "secret_10000" _ _ _ _ _ _ _ _ _).
  - reflexivity.
  - reflexivity.
  - lia.
  - vm_compute. reflexivity.
  - vm_compute. reflexivity.
  - vm_compute. lia.
  - vm_compute. reflexivity.
  - vm_compute. lia.
  - vm_compute. reflexivity.
Defined.

(** The amount is read by [parseInt] and stored in an [INTEGER] column:
    2147483648 passes the validation, the provider is asked for it and the
    [INSERT] is refused, which leaves the authorization without a payment
    row; 10^21 passes the validation and is read as 1. *)
Example add_card_beyond_the_integer_range :
  let app := fst (init 0 "k3j9x0a1b" "demo.myshopify.com"
                    "c0ffee00c0ffee00c0ffee00c0ffee00" Scenarios.fresh_app) in
  let refused := create_payment_intent 1 (Scenarios.provider [])
                   "session_0_k3j9x0a1b" (JsInt 2147483648) app in
  let huge := create_payment_intent 1 (Scenarios.provider [])
                "session_0_k3j9x0a1b" (JsInt (10 ^ 21)) app in
  snd refused = resp_uncaught (numeric_value_out_of_range "2147483648") /\
  calls (env (fst refused)) = [CallCreate 2147483648] /\
  Db.payments (db (env (fst refused))) = [] /\
  snd huge = resp_payment_intent "pi_1" "secret_1" 1 /\
  calls (env (fst huge)) = [CallCreate 1] /\
  map pay_amount (Db.payments (db (env (fst huge)))) = [1].
Proof. vm_compute. repeat split; reflexivity. Qed.

(** C9 (counterexample).  A session is created at time 0; a card is added
    one millisecond after the thirtieth minute and the request is served,
    not answered with SESSION_NOT_FOUND. *)
Lemma session_found_after_thirty_minutes :
  let created := init 0 "k3j9x0a1b" "demo.myshopify.com"
                   "c0ffee00c0ffee00c0ffee00c0ffee00" Scenarios.fresh_app in
  snd created = resp_init "session_0_k3j9x0a1b" 1 0 5 100 /\
  snd (create_payment_intent (Scenarios.thirty_minutes + 1) (Scenarios.provider [])
         "session_0_k3j9x0a1b" (JsInt 5000) (fst created))
    = resp_payment_intent "pi_5000" "secret_5000" 1.
Proof. vm_compute. repeat split; reflexivity. Qed.

(** C9 (amended).  Entries of the session cache carry no creation or expiry
    time and never expire.  A session created by [/init] is in the cache
    with an empty payment list; whenever the cache holds a session,
    add_card, remove_card and complete served at any time, more than thirty
    minutes after its creation included, find it and never answer
    SESSION_NOT_FOUND; and the entry stays in the cache through every
    add_card and remove_card and through every complete that does not end
    with an order. *)
Theorem session_lookup_ignores_time
    (now : Z) (random shop token : string) (app app1 : App)
    (sid : string) (txid : nat) (total maxCards minAmount : Z) :
  init now random shop token app
    = (app1, resp_init sid txid total maxCards minAmount) ->
  widgetSessions app1 !! sid =
    Some {| transactionId := txid; shopDomain := shop; checkoutToken := token;
            payments := [] |} /\
  forall (app2 : App) (later : Z) (stripe : Stripe) (shopify : OrderService.Shopify)
         (requested : JsValue) (intent : string)
         (submitted : option (list SubmittedPayment)),
    is_Some (widgetSessions app2 !! sid) ->
    (forall status message,
       snd (create_payment_intent later stripe sid requested app2)
         <> resp_error status "SESSION_NOT_FOUND" message /\
       snd (remove_payment later stripe sid intent app2)
         <> resp_error status "SESSION_NOT_FOUND" message /\
       snd (complete_checkout later stripe shopify sid submitted app2)
         <> resp_error status "SESSION_NOT_FOUND" message) /\
    (forall other,
       is_Some (widgetSessions
                  (fst (create_payment_intent later stripe other requested app2)) !! sid) /\
       is_Some (widgetSessions
                  (fst (remove_payment later stripe other intent app2)) !! sid) /\
       ((forall orderId orderNumber,
           snd (complete_checkout later stripe shopify other submitted app2)
             <> resp_order orderId orderNumber) ->
        is_Some (widgetSessions
                   (fst (complete_checkout later stripe shopify other submitted app2))
                   !! sid))).
Proof.
  intros Hinit. split.
  - revert Hinit. unfold init.
    destruct (_ || _); [discriminate|].
    destruct (negb (validateShopDomain shop)); [discriminate|].
    destruct (negb (validateCheckoutToken token)); [discriminate|].
    destruct (getStoreByDomain _ _) as [store|]; [|discriminate].
    destruct (match getTransactionByCheckoutToken _ _ with
              | Some t => _ | None => _ end) as [d transaction].
    intros [= <- <- <- _ _ _]. cbn [widgetSessions]. apply lookup_insert_eq.
  - intros app2 later stripe shopify requested intent submitted [session Hcached].
    split.
    + intros status message. repeat split.
      * unfold create_payment_intent. rewrite Hcached.
        case_response; cbn [snd]; congruence.
      * unfold remove_payment. rewrite Hcached.
        case_response; cbn [snd]; congruence.
      * unfold complete_checkout. rewrite Hcached.
        case_response; cbn [snd]; unfold checkout_failed; congruence.
    + intros other. repeat split.
      * unfold create_payment_intent.
        case_response; cbn [fst widgetSessions with_env];
          rewrite ?lookup_insert; try case_decide; eauto.
      * unfold remove_payment.
        case_response; cbn [fst widgetSessions with_env];
          rewrite ?lookup_insert; try case_decide; eauto.
      * unfold complete_checkout.
        case_response; cbn [fst snd widgetSessions with_env]; intros Hno;
          eauto; exfalso; eapply Hno; reflexivity.
Qed.

Lemma session_lookup_ignores_time_witness :
  let app1 := fst (init 0 "k3j9x0a1b" "demo.myshopify.com"
                     "c0ffee00c0ffee00c0ffee00c0ffee00" Scenarios.fresh_app) in
  widgetSessions app1 !! "session_0_k3j9x0a1b" =
    Some {| transactionId := 1; shopDomain := "demo.myshopify.com";
            checkoutToken := "c0ffee00c0ffee00c0ffee00c0ffee00"; payments := [] |} /\
  forall (status : nat) (message : string),
    snd (create_payment_intent (Scenarios.thirty_minutes + 1) (Scenarios.provider [])
           "session_0_k3j9x0a1b" (JsInt 5000) app1)
      <> resp_error status "SESSION_NOT_FOUND" message.
Proof.
  intros app1.
  destruct (session_lookup_ignores_time 0 "k3j9x0a1b" "demo.myshopify.com"
              "c0ffee00c0ffee00c0ffee00c0ffee00" Scenarios.fresh_app app1
              "session_0_k3j9x0a1b" 1 0 5 100) as [Hcached Hlater].
  - vm_compute. reflexivity.
  - split; [exact Hcached|].
    intros status message.
    destruct (Hlater app1 (Scenarios.thirty_minutes + 1) (Scenarios.provider [])
                Scenarios.no_orders (JsInt 5000) "pi_1" None) as [Hfound _].
    + rewrite Hcached. eexists. reflexivity.
    + apply (Hfound status message).
Defined.

End WidgetFacts.

Module MachineFacts.
Import Js Db Provider Widget Machine DbFacts PaymentServiceFacts RefundServiceFacts
       WidgetFacts Scenarios.

Lemma step_moved (e : Event) (app : App) :
  rows_moved (event_moves e) (Db.payments (db (env app)))
             (Db.payments (db (env (step e app)))).
Proof.
  destruct e as [now stripe shopify sid submitted | now stripe sid intent
                | stripe txid amount reason who | intent | intent error];
    cbn [step event_moves].
  - apply complete_checkout_moved.
  - rewrite remove_payment_payments. apply rows_moved_refl. reflexivity.
  - cbn [env with_env]. rewrite processRefund_payments.
    apply rows_moved_refl. reflexivity.
  - cbn [env with_env db with_db]. unfold Webhooks.handlePaymentIntentSucceeded.
    destruct (getPaymentByPaymentIntentId _ _) as [payment|];
      [|apply rows_moved_refl; left; reflexivity].
    destruct (negb _); [|apply rows_moved_refl; left; reflexivity].
    eapply rows_moved_weaken; [|apply updatePaymentStatus_moved].
    intros a b [-> | ->]; [left; reflexivity|].
    destruct (decide (a = captured)) as [-> | Hne]; [left|right]; auto.
  - cbn [env with_env db with_db]. unfold Webhooks.handlePaymentIntentFailed.
    destruct (getPaymentByPaymentIntentId _ _) as [payment|];
      [|apply rows_moved_refl; left; reflexivity].
    apply updatePaymentStatus_moved.
Qed.

Lemma event_moves_coarse (e : Event) (s s' : PaymentStatus) :
  event_moves e s s' -> s' = s \/ (s' <> pending /\ s' <> refunded).
Proof.
  destruct e; cbn [event_moves]; intros H.
  - destruct H as [-> | [-> | [-> | [-> | ->]]]];
      [left; reflexivity | right; split; discriminate ..].
  - left. exact H.
  - left. exact H.
  - destruct H as [-> | [_ ->]]; [left; reflexivity | right; split; discriminate].
  - destruct H as [-> | ->]; [left; reflexivity | right; split; discriminate].
Qed.

Lemma moves_along_coarse (events : list Event) (s s' : PaymentStatus) :
  moves_along events s s' -> s' = s \/ (s' <> pending /\ s' <> refunded).
Proof.
  revert s. induction events as [|e events IH]; intros s; cbn [moves_along].
  - auto.
  - intros (mid & He & Hrest).
    destruct (IH mid Hrest) as [-> | H]; [|auto].
    apply (event_moves_coarse e), He.
Qed.

(** C2 (counterexample).  A payment in the terminal state [captured] is
    moved to [failed] by a [payment_intent.payment_failed] event, a payment
    in the terminal state [voided] is moved to [captured] by a
    [payment_intent.succeeded] event, and a second complete on the session
    of a failed checkout moves the [voided] payment to [failed]; none is a
    transition of invariant 5. *)
Lemma terminal_payment_moves :
  let app d := {| env := {| db := d; calls := [] |}; widgetSessions := ∅ |} in
  map pay_status
      (Db.payments
         (db (env (run [complete 0 (provider ["pi_1"]) no_orders "session_0_k3j9x0a1b"
                          (Some [{| submittedIntentId := "pi_1";
                                    submittedMethodId := "pm_1" |};
                                 {| submittedIntentId := "pi_2";
                                    submittedMethodId := "pm_4" |}])]
                       retry_app)))) = [failed; failed] /\
  allowed_transition voided failed = false /\
  map pay_status (Db.payments captured_db) = [captured; captured] /\
  map pay_status
      (Db.payments (db (env (run [payment_intent_payment_failed "pi_1" None]
                                 (app captured_db))))) = [failed; captured] /\
  map pay_status (Db.payments voided_db) = [voided; failed] /\
  map pay_status
      (Db.payments (db (env (run [payment_intent_succeeded "pi_1"]
                                 (app voided_db))))) = [captured; failed] /\
  terminal captured = true /\ allowed_transition captured failed = false /\
  terminal voided = true /\ allowed_transition voided captured = false.
Proof. vm_compute. repeat split; reflexivity. Qed.

(** C2 (amended).  Across any sequence of complete, remove_card and refund
    operations and of payment_intent.succeeded and
    payment_intent.payment_failed events, the payment rows stay the same
    rows and each event changes a status only as [event_moves] says:
    complete may write authorized, failed, voided or captured over any
    status; payment_intent.succeeded writes captured over any status other
    than captured; payment_intent.payment_failed writes failed over any
    status; remove_card and refund write no payment status.  So a status is
    never set back to pending and never set to refunded. *)
Theorem payment_status_along_events (events : list Event) (app : App) :
  Forall2
    (fun p p' =>
       pay_id p' = pay_id p /\
       moves_along events (pay_status p) (pay_status p') /\
       (pay_status p' = pay_status p \/
        (pay_status p' <> pending /\ pay_status p' <> refunded)))
    (Db.payments (db (env app)))
    (Db.payments (db (env (run events app)))).
Proof.
  assert (H : rows_moved (moves_along events) (Db.payments (db (env app)))
                (Db.payments (db (env (run events app))))).
  { revert app. induction events as [|e events IH]; intros app.
    - apply rows_moved_refl. reflexivity.
    - cbn [run foldl].
      apply (rows_moved_compose (event_moves e) (moves_along events) _ _
               (Db.payments (db (env (step e app)))));
        [|apply step_moved|apply IH].
      intros a b c Hab Hbc. exists b. auto. }
  unfold rows_moved in H.
  eapply Forall2_impl; [exact H|].
  intros p p' [Hid Hm]. repeat split; auto.
  apply (moves_along_coarse events), Hm.
Qed.

End MachineFacts.

(** * Further properties *)

(** ** Money and validation *)

Module MoneyFacts.
Import Js Currency Validation CurrencyFacts.

(** *** Rounding to doubles *)

Lemma nearest_even_zero (d : Z) : 0 < d -> Binary64.nearest_even 0 d = 0.
Proof.
  intros Hd. unfold Binary64.nearest_even.
  rewrite Z.div_0_l, Z.mod_0_l by lia.
  assert (H : (2 * 0 <? d) = true) by lia. rewrite H. reflexivity.
Qed.

Lemma nearest_even_nonneg (n d : Z) :
  0 <= n -> 0 < d -> 0 <= Binary64.nearest_even n d.
Proof.
  intros Hn Hd. unfold Binary64.nearest_even.
  pose proof (Z.div_pos n d Hn Hd).
  repeat match goal with |- context [if ?b then _ else _] => destruct b end; lia.
Qed.

(** Rounding to the nearest integer does not cross an integer. *)
Lemma nearest_even_le (n d c : Z) :
  0 < d -> n <= c * d -> Binary64.nearest_even n d <= c.
Proof.
  intros Hd Hle. unfold Binary64.nearest_even.
  pose proof (Z.div_mod n d ltac:(lia)) as Hdm.
  pose proof (Z.mod_pos_bound n d Hd) as Hr.
  destruct (Z.ltb_spec (2 * (n mod d)) d); [nia|].
  assert (n / d + 1 <= c) by nia.
  repeat match goal with |- context [if ?b then _ else _] => destruct b end; lia.
Qed.

Lemma scaled_nonneg (n d e : Z) :
  0 <= n -> 0 < d ->
  0 <= fst (Binary64.scaled n d e) /\ 0 < snd (Binary64.scaled n d e).
Proof.
  intros Hn Hd. unfold Binary64.scaled.
  destruct (Z.leb_spec 0 e); cbn [fst snd].
  - pose proof (Z.pow_pos_nonneg 2 e ltac:(lia) ltac:(lia)). nia.
  - pose proof (Z.pow_pos_nonneg 2 (- e) ltac:(lia) ltac:(lia)). nia.
Qed.

Lemma scaled_zero (d e : Z) : fst (Binary64.scaled 0 d e) = 0.
Proof. unfold Binary64.scaled. destruct (0 <=? e); reflexivity. Qed.

Lemma round_fields (n d : Z) :
  let e := Z.max (Binary64.floor_log2 (Z.abs n) d - 52) (-1074) in
  Binary64.expo (Binary64.round n d) = e /\
  Binary64.mant (Binary64.round n d) =
    Binary64.nearest_even (fst (Binary64.scaled n d e)) (snd (Binary64.scaled n d e)).
Proof.
  cbn zeta. unfold Binary64.round.
  destruct (Binary64.scaled n d _) as [n' d']. split; reflexivity.
Qed.

Lemma round_nonneg (n d : Z) :
  0 <= n -> 0 < d -> 0 <= Binary64.mant (Binary64.round n d).
Proof.
  intros Hn Hd. destruct (round_fields n d) as [_ ->].
  destruct (scaled_nonneg n d (Z.max (Binary64.floor_log2 (Z.abs n) d - 52) (-1074)) Hn Hd).
  apply nearest_even_nonneg; assumption.
Qed.

Lemma round_zero (d : Z) : 0 < d -> Binary64.mant (Binary64.round 0 d) = 0.
Proof.
  intros Hd. destruct (round_fields 0 d) as [_ ->].
  rewrite scaled_zero. apply nearest_even_zero.
  apply (scaled_nonneg 0 d); lia.
Qed.

Lemma Math_round_nonneg (x : Binary64.double) :
  0 <= Binary64.mant x -> 0 <= Binary64.Math_round x.
Proof.
  intros Hm. unfold Binary64.Math_round.
  destruct (Z.leb_spec 0 (Binary64.expo x)).
  - pose proof (Z.pow_pos_nonneg 2 (Binary64.expo x) ltac:(lia) ltac:(lia)). nia.
  - pose proof (Z.pow_pos_nonneg 2 (- Binary64.expo x) ltac:(lia) ltac:(lia)).
    pose proof (Z.pow_pos_nonneg 2 (1 - Binary64.expo x) ltac:(lia) ltac:(lia)).
    apply Z.div_pos; lia.
Qed.

Lemma Math_round_zero (x : Binary64.double) :
  Binary64.mant x = 0 -> Binary64.Math_round x = 0.
Proof.
  intros Hm. unfold Binary64.Math_round. rewrite Hm.
  destruct (Z.leb_spec 0 (Binary64.expo x)); [lia|].
  apply Z.div_small.
  replace (1 - Binary64.expo x) with (Z.succ (- Binary64.expo x)) by lia.
  rewrite Z.pow_succ_r by lia.
  pose proof (Z.pow_pos_nonneg 2 (- Binary64.expo x) ltac:(lia) ltac:(lia)). lia.
Qed.

Lemma mul_fraction (x : Z) (y : Binary64.double) :
  Binary64.mul x y =
  Binary64.round (fst (Binary64.scaled (x * Binary64.mant y) 1 (- Binary64.expo y)))
                 (snd (Binary64.scaled (x * Binary64.mant y) 1 (- Binary64.expo y))).
Proof.
  unfold Binary64.mul. destruct (Binary64.scaled _ _ _). reflexivity.
Qed.

(** The rounded product of the total 0 is 0. *)
Lemma round_of_zero (portion totalPortions : Z) :
  js_round_ratio 0 portion totalPortions = 0.
Proof.
  unfold js_round_ratio. apply Math_round_zero.
  rewrite mul_fraction. cbn [Z.mul]. rewrite scaled_zero.
  apply round_zero. apply (scaled_nonneg 0 1); lia.
Qed.

(** The rounded product of non-negative numbers is not negative. *)
Lemma round_ratio_nonneg (total w W : Z) :
  0 <= total -> 0 <= w -> 0 < W -> 0 <= js_round_ratio total w W.
Proof.
  intros Ht Hw HW. unfold js_round_ratio. apply Math_round_nonneg.
  assert (Hq : 0 <= Binary64.mant (Binary64.div w W)).
  { unfold Binary64.div. destruct (Z.ltb_spec W 0); [lia|].
    apply round_nonneg; assumption. }
  rewrite mul_fraction.
  destruct (scaled_nonneg (total * Binary64.mant (Binary64.div w W)) 1
              (- Binary64.expo (Binary64.div w W))) as [Hn Hd]; [nia|lia|].
  apply round_nonneg; assumption.
Qed.

Lemma floor_log2_le_0 (n d : Z) : n <= d -> Binary64.floor_log2 n d <= 0.
Proof.
  intros Hle. unfold Binary64.floor_log2.
  pose proof (Z.log2_le_mono n d Hle).
  destruct (Binary64.scaled _ _ _) as [n' d']. destruct (d' <=? n'); lia.
Qed.

(** [floor_log2] does not exceed the logarithm of the quotient. *)
Lemma floor_log2_lower (n d : Z) :
  0 < n -> 0 < d -> 0 <= Binary64.floor_log2 n d ->
  d * 2 ^ Binary64.floor_log2 n d <= n.
Proof.
  intros Hn Hd. unfold Binary64.floor_log2, Binary64.scaled.
  set (k := Z.log2 n - Z.log2 d).
  destruct (Z.leb_spec 0 k) as [Hk | Hk].
  - destruct (Z.leb_spec (d * 2 ^ k) n) as [Hin | Hout]; [auto|].
    intros Hk1.
    destruct (Z.log2_spec n Hn) as [Hn1 _].
    destruct (Z.log2_spec d Hd) as [_ Hd2].
    pose proof (Z.log2_nonneg d) as Hld.
    assert (Hsplit : 2 ^ Z.log2 n = 2 ^ Z.succ (Z.log2 d) * 2 ^ (k - 1)).
    { rewrite <- Z.pow_add_r by lia. f_equal. subst k. lia. }
    pose proof (Z.pow_pos_nonneg 2 (k - 1) ltac:(lia) ltac:(lia)).
    nia.
  - destruct (d <=? n * 2 ^ (- k)); lia.
Qed.

(** A quotient of at most 1: its double is a fraction of a power of two. *)
Lemma div_at_most_one (p W : Z) :
  0 <= p <= W -> 0 < W ->
  Binary64.expo (Binary64.div p W) < 0 /\
  0 <= Binary64.mant (Binary64.div p W) <= 2 ^ (- Binary64.expo (Binary64.div p W)).
Proof.
  intros [Hp HpW] HW. unfold Binary64.div.
  destruct (Z.ltb_spec W 0); [lia|].
  destruct (round_fields p W) as [He Hm]. rewrite He, Hm.
  rewrite Z.abs_eq in * by lia.
  pose proof (floor_log2_le_0 p W HpW) as Hf.
  set (e := Z.max (Binary64.floor_log2 p W - 52) (-1074)) in *.
  assert (Hneg : e < 0) by lia.
  unfold Binary64.scaled. destruct (Z.leb_spec 0 e); [lia|]. cbn [fst snd].
  pose proof (Z.pow_pos_nonneg 2 (- e) ltac:(lia) ltac:(lia)).
  split; [exact Hneg|]. split.
  - apply nearest_even_nonneg; nia.
  - apply nearest_even_le; nia.
Qed.

(** The rounded product of a safe integer and a double of at most 1 does
    not exceed the integer. *)
Lemma mul_at_most (s : Z) (q : Binary64.double) :
  0 <= s < 2 ^ 53 ->
  Binary64.expo q < 0 ->
  0 <= Binary64.mant q <= 2 ^ (- Binary64.expo q) ->
  Binary64.Math_round (Binary64.mul s q) <= s.
Proof.
  intros [Hs Hsafe] He [Hm Hone].
  rewrite mul_fraction. unfold Binary64.scaled at 1 2.
  destruct (Z.leb_spec 0 (- Binary64.expo q)); [|lia]. cbn [fst snd].
  set (n := s * Binary64.mant q). set (d := 1 * 2 ^ (- Binary64.expo q)).
  assert (Hd : 0 < d).
  { subst d. pose proof (Z.pow_pos_nonneg 2 (- Binary64.expo q) ltac:(lia) ltac:(lia)). lia. }
  assert (Hn : 0 <= n) by (subst n; nia).
  assert (Hle : n <= s * d) by (subst n d; nia).
  unfold Binary64.Math_round.
  destruct (round_fields n d) as [He2 Hm2]. rewrite He2, Hm2.
  rewrite Z.abs_eq in * by lia.
  set (f := Binary64.floor_log2 n d) in *.
  set (e2 := Z.max (f - 52) (-1074)) in *.
  unfold Binary64.scaled.
  destruct (Z.leb_spec 0 e2) as [Hpos | Hneg]; cbn [fst snd].
  - destruct (Z.eq_dec n 0) as [Hz | Hnz].
    + rewrite Hz. rewrite nearest_even_zero; [lia|].
      pose proof (Z.pow_pos_nonneg 2 e2 ltac:(lia) ltac:(lia)). nia.
    + assert (Hf : 0 <= f) by lia.
      pose proof (floor_log2_lower n d ltac:(lia) Hd Hf) as Hlow. fold f in Hlow.
      assert (Hf53 : f < 53).
      { destruct (Z.lt_ge_cases f 53) as [|Hbig]; [assumption|].
        pose proof (Z.pow_le_mono_r 2 53 f ltac:(lia) Hbig). nia. }
      assert (He0 : e2 = 0) by lia. rewrite He0.
      rewrite Z.pow_0_r, !Z.mul_1_r. apply nearest_even_le; [exact Hd|exact Hle].
  - pose proof (Z.pow_pos_nonneg 2 (- e2) ltac:(lia) ltac:(lia)) as Hp.
    assert (Hmant : Binary64.nearest_even (n * 2 ^ (- e2)) d <= s * 2 ^ (- e2)).
    { apply nearest_even_le; [exact Hd|nia]. }
    replace (1 - e2) with (Z.succ (- e2)) by lia.
    rewrite Z.pow_succ_r by lia.
    apply Z.lt_succ_r, Z.div_lt_upper_bound; nia.
Qed.

(** The rounded share of a part of the whole lies between 0 and the amount
    shared, when that amount is a safe integer. *)
Lemma round_ratio_bounds (total w W : Z) :
  0 <= total < 2 ^ 53 -> 0 <= w <= W -> 0 < W ->
  0 <= js_round_ratio total w W <= total.
Proof.
  intros Ht Hw HW. split.
  - apply round_ratio_nonneg; lia.
  - unfold js_round_ratio.
    destruct (div_at_most_one w W Hw HW) as [He Hm].
    apply mul_at_most; assumption.
Qed.

(** Next to a tie the rounding is that of the doubles, not that of the
    exact quotient: 45 * (7 / 10) is just below 31.5, and 55 * (300 / 2200)
    just below 7.5. *)
Example rounding_next_to_a_tie :
  calculateProportionalAmount 10 7 45 = 31 /\
  distributeProportionally 55 [100; 1800; 300] = [3; 45; 7] /\
  map (fun w => js_round_ratio 231023802 w (227868216 + 313402805))
      [227868216; 313402805] = [97258083; 133765720].
Proof. vm_compute. repeat split; reflexivity. Qed.

Lemma reduce_sum_zeros {A : Type} (l : list A) :
  reduce_sum (map (fun _ => 0) l) = 0.
Proof.
  induction l as [|a l IH]; [reflexivity|].
  simpl. rewrite reduce_sum_cons, IH. reflexivity.
Qed.

(** X1.  Degenerate inputs: when the weights sum to zero or the total is
    zero, [distributeProportionally] returns a zero for every weight. *)
Theorem distribute_degenerate (total : Z) (weights : list Z) :
  reduce_sum weights = 0 \/ total = 0 ->
  distributeProportionally total weights = map (fun _ => 0) weights.
Proof.
  intros Hcase. unfold distributeProportionally, distributeProportionallyWith.
  destruct (Z.eqb_spec (reduce_sum weights) 0) as [|HW]; [reflexivity|].
  destruct Hcase as [Hsum | ->]; [contradiction|].
  assert (Hz : map (fun portion => js_round_ratio 0 portion (reduce_sum weights)) weights
               = map (fun _ => 0) weights).
  { apply map_ext. intros p. apply round_of_zero. }
  rewrite Hz, reduce_sum_zeros. reflexivity.
Qed.

Lemma distribute_degenerate_witness :
  distributeProportionally 0 [3; 4] = [0; 0] /\
  distributeProportionally 500 [0; 0; 0] = [0; 0; 0].
Proof.
  split.
  - apply (distribute_degenerate 0 [3; 4]). right. reflexivity.
  - apply (distribute_degenerate 500 [0; 0; 0]). left. reflexivity.
Defined.

Lemma lookup_map {A B : Type} (f : A -> B) (l : list A) (j : nat) :
  map f l !! j = f <$> l !! j.
Proof.
  revert j. induction l as [|a l IH]; intros [|j]; simpl; auto.
Qed.

Lemma reduce_sum_nonneg (xs : list Z) :
  Forall (fun x => 0 <= x) xs -> 0 <= reduce_sum xs.
Proof.
  induction 1 as [|x xs Hx _ IH]; [rewrite reduce_sum_nil; lia|].
  rewrite reduce_sum_cons. lia.
Qed.

(** A non-negative weight is at most the sum of the weights. *)
Lemma weight_le_sum (xs : list Z) (j : nat) (w : Z) :
  Forall (fun x => 0 <= x) xs -> xs !! j = Some w -> 0 <= w <= reduce_sum xs.
Proof.
  intros Hall. revert j. induction Hall as [|x xs Hx Hall IH]; intros j Hj.
  - destruct j; discriminate.
  - rewrite reduce_sum_cons. pose proof (reduce_sum_nonneg xs Hall).
    destruct j as [|j]; cbn in Hj.
    + injection Hj as <-. lia.
    + specialize (IH j Hj). lia.
Qed.

(** X2.  For a total that is a non-negative safe integer and non-negative
    weights with a positive sum, every share other than the one that
    receives the rounding difference is the rounded product of the total
    and its weight's part of the sum, and lies between 0 and the total. *)
Theorem distribute_unadjusted_shares (total : Z) (weights : list Z) (j : nat) (w : Z) :
  0 <= total < 2 ^ 53 ->
  Forall (fun x => 0 <= x) weights ->
  0 < reduce_sum weights <= 2 ^ 53 ->
  weights !! j = Some w ->
  j <> largestIndex
         (map (fun portion => js_round_ratio total portion (reduce_sum weights)) weights) ->
  exists share,
    distributeProportionally total weights !! j = Some share /\
    share = js_round_ratio total w (reduce_sum weights) /\
    0 <= share <= total.
Proof.
  intros Htotal Hweights [HW _] Hj Hother.
  exists (js_round_ratio total w (reduce_sum weights)).
  pose proof (weight_le_sum weights j w Hweights Hj) as Hw.
  split; [|split; [reflexivity|]].
  - unfold distributeProportionally, distributeProportionallyWith.
    destruct (Z.eqb_spec (reduce_sum weights) 0); [lia|].
    set (distributed := map _ weights) in *.
    assert (Hd : distributed !! j = Some (js_round_ratio total w (reduce_sum weights))).
    { subst distributed. rewrite lookup_map, Hj. reflexivity. }
    destruct (_ - _ =? 0); [exact Hd|].
    destruct (distributed !! largestIndex distributed); [|exact Hd].
    rewrite list_lookup_insert_ne; [exact Hd|auto].
  - apply round_ratio_bounds; assumption.
Qed.

Lemma distribute_unadjusted_shares_witness :
  exists share,
    distributeProportionally 55 [100; 1800; 300] !! 2%nat = Some share /\
    share = js_round_ratio 55 300 (reduce_sum [100; 1800; 300]) /\
    0 <= share <= 55.
Proof.
  apply (distribute_unadjusted_shares 55 [100; 1800; 300] 2 300).
  - lia.
  - repeat constructor; lia.
  - vm_compute. split; [reflexivity|discriminate].
  - reflexivity.
  - vm_compute. discriminate.
Defined.

(** X4.  [calculateProportionalAmount] is 0 on a zero total, and for a
    portion of a positive total and an amount to split that is a safe
    integer it lies between 0 and the amount to split. *)
Theorem proportional_amount_bounds (totalAmount portion splitAmount : Z) :
  calculateProportionalAmount 0 portion splitAmount = 0 /\
  (0 < totalAmount <= 2 ^ 53 -> 0 <= portion <= totalAmount ->
   0 <= splitAmount < 2 ^ 53 ->
   0 <= calculateProportionalAmount totalAmount portion splitAmount <= splitAmount).
Proof.
  split; [reflexivity|].
  intros [HT _] Hp Hs. unfold calculateProportionalAmount.
  destruct (Z.eqb_spec totalAmount 0); [lia|].
  apply round_ratio_bounds; assumption.
Qed.

Lemma proportional_amount_bounds_witness :
  0 <= calculateProportionalAmount 10 7 45 <= 45.
Proof.
  apply (proj2 (proportional_amount_bounds 10 7 45)); lia.
Defined.

(** X5.  [validateAmount] accepts exactly the integers that reach the
    minimum, do not exceed the maximum when one is given, and are
    positive. *)
Theorem validateAmount_accepts (amount : JsValue) (minAmount : Z) (maxAmount : option Z) :
  validateAmount amount minAmount maxAmount = valid <->
  exists a, amount = JsInt a /\ minAmount <= a /\
            (forall m, maxAmount = Some m -> a <= m) /\ 0 < a.
Proof.
  split.
  - destruct amount as [|a| |]; cbn [validateAmount]; try discriminate.
    destruct (Z.ltb_spec a minAmount); [discriminate|].
    destruct maxAmount as [m|].
    + destruct (Z.ltb_spec m a); [discriminate|].
      destruct (Z.leb_spec a 0); [discriminate|].
      intros _. exists a. repeat split; auto. intros m' [= <-]. lia.
    + destruct (Z.leb_spec a 0); [discriminate|].
      intros _. exists a. repeat split; auto. discriminate.
  - intros (a & -> & Hmin & Hmax & Hpos). cbn [validateAmount].
    destruct (Z.ltb_spec a minAmount); [lia|].
    destruct maxAmount as [m|].
    + specialize (Hmax m eq_refl).
      destruct (Z.ltb_spec m a); [lia|].
      destruct (Z.leb_spec a 0); [lia|reflexivity].
    + destruct (Z.leb_spec a 0); [lia|reflexivity].
Qed.

Lemma validate_each_accepts (i : nat) (amounts : list Z) :
  validate_each i amounts = valid <-> Forall (fun a => 100 <= a) amounts.
Proof.
  revert i. induction amounts as [|a amounts IH]; intros i; cbn [validate_each].
  - split; auto.
  - cbn [validateAmount].
    destruct (Z.ltb_spec a 100).
    + split; [discriminate|]. intros H'. inversion H'; subst. lia.
    + destruct (Z.leb_spec a 0); [lia|].
      rewrite IH. split; [intros; constructor; auto|].
      intros H'. inversion H'; auto.
Qed.

(** X6.  [validatePaymentAmounts] accepts exactly the lists of two to five
    amounts, each at least 100, whose sum is the total. *)
Theorem validatePaymentAmounts_accepts (totalAmount : Z) (paymentAmounts : list Z) :
  validatePaymentAmounts totalAmount paymentAmounts = valid <->
  (2 <= length paymentAmounts <= 5)%nat /\
  Forall (fun a => 100 <= a) paymentAmounts /\
  reduce_sum paymentAmounts = totalAmount.
Proof.
  unfold validatePaymentAmounts.
  destruct (Nat.eqb_spec (length paymentAmounts) 0);
    [split; [discriminate|intros [? _]; lia]|].
  destruct (Nat.ltb_spec (length paymentAmounts) 2);
    [split; [discriminate|intros [? _]; lia]|].
  destruct (Nat.ltb_spec 5 (length paymentAmounts));
    [split; [discriminate|intros [? _]; lia]|].
  pose proof (validate_each_accepts 0 paymentAmounts) as Heach.
  destruct (validate_each 0 paymentAmounts) as [|error].
  - destruct (Z.eqb_spec (reduce_sum paymentAmounts) totalAmount); cbn [negb].
    + split; [|reflexivity]. intros _. repeat split; auto; try lia. apply Heach. reflexivity.
    + split; [discriminate|]. intros (_ & _ & ?). contradiction.
  - split; [discriminate|]. intros (_ & Hall & _).
    apply Heach in Hall. discriminate.
Qed.

End MoneyFacts.

(** ** Identifier formats *)

Module FormatFacts.
Import Js Validation ValidationIds.

Lemma length_append (p q : string) :
  String.length (p +:+ q) = (String.length p + String.length q)%nat.
Proof. induction p as [|c p IH]; simpl; [reflexivity|]. rewrite IH. reflexivity. Qed.

Lemma substring_all (s : string) : String.substring 0 (String.length s) s = s.
Proof. induction s as [|c s IH]; simpl; [reflexivity|]. rewrite IH. reflexivity. Qed.

Lemma substring_head (p q : string) :
  String.substring 0 (String.length p) (p +:+ q) = p.
Proof.
  induction p as [|c p IH]; simpl.
  - destruct q; reflexivity.
  - rewrite IH. reflexivity.
Qed.

Lemma substring_tail (p q : string) :
  String.substring (String.length p) (String.length q) (p +:+ q) = q.
Proof. induction p as [|c p IH]; simpl; [apply substring_all|exact IH]. Qed.

Lemma substring_split (s : string) (k : nat) :
  (k <= String.length s)%nat ->
  s = String.substring 0 k s +:+ String.substring k (String.length s - k) s.
Proof.
  revert k. induction s as [|c s IH]; intros [|k] Hk; simpl in *; try lia.
  - reflexivity.
  - rewrite substring_all. reflexivity.
  - change (String c s = String c (String.substring 0 k s +:+
                                    String.substring k (String.length s - k) s)).
    f_equal. apply IH. lia.
Qed.

Lemma substring_length (s : string) (k : nat) :
  (k <= String.length s)%nat -> String.length (String.substring 0 k s) = k.
Proof.
  revert k. induction s as [|c s IH]; intros [|k] Hk; simpl in *; try lia.
  rewrite IH by lia. reflexivity.
Qed.

Lemma truthy_nonempty (s : string) : truthy s = true <-> s <> "".
Proof.
  destruct s; simpl; split; intros H; try discriminate; try reflexivity.
  contradiction.
Qed.

(** X7.  [validateShopDomain] accepts exactly the strings made of a
    non-empty name of letters, digits and hyphens followed by
    [.myshopify.com]. *)
Theorem validateShopDomain_accepts (shopDomain : string) :
  validateShopDomain shopDomain = true <->
  exists name,
    name <> "" /\
    all_chars (fun c => alnum c || in_range 45 45 c) name = true /\
    shopDomain = name +:+ ".myshopify.com".
Proof.
  unfold validateShopDomain. split.
  - intros H. repeat (apply andb_prop in H as [H ?]).
    match goal with Hn : (14 <? _)%nat = true |- _ => apply Nat.ltb_lt in Hn end.
    match goal with He : String.eqb _ _ = true |- _ => apply String.eqb_eq in He end.
    exists (String.substring 0 (String.length shopDomain - 14) shopDomain).
    repeat split.
    + intros Hempty.
      pose proof (substring_length shopDomain (String.length shopDomain - 14)
                    ltac:(lia)) as Hlen.
      rewrite Hempty in Hlen. simpl in Hlen. lia.
    + assumption.
    + rewrite (substring_split shopDomain (String.length shopDomain - 14)) at 1 by lia.
      f_equal.
      replace (String.length shopDomain - (String.length shopDomain - 14))%nat
        with 14%nat by lia.
      assumption.
  - intros (name & Hname & Hchars & ->).
    assert (Hlen : (0 < String.length name)%nat) by (destruct name; simpl; [congruence|lia]).
    rewrite length_append. change (String.length ".myshopify.com") with 14%nat.
    replace (String.length name + 14 - 14)%nat with (String.length name) by lia.
    pose proof (substring_tail name ".myshopify.com") as Htail.
    change (String.length ".myshopify.com") with 14%nat in Htail.
    rewrite Htail, substring_head, Hchars.
    assert (Ht : truthy (name +:+ ".myshopify.com") = true)
      by (destruct name; [congruence|reflexivity]).
    rewrite Ht.
    assert (Hn : (14 <? String.length name + 14)%nat = true) by (apply Nat.ltb_lt; lia).
    rewrite Hn. reflexivity.
Qed.

(** X8.  [validateCheckoutToken] accepts exactly the strings of 32 to 64
    letters and digits; [validatePaymentIntentId] accepts exactly the
    strings that extend the prefix [pi_] by at least one character. *)
Theorem token_and_intent_formats (token intentId : string) :
  (validateCheckoutToken token = true <->
   (32 <= String.length token <= 64)%nat /\ all_chars alnum token = true) /\
  (validatePaymentIntentId intentId = true <->
   exists rest, rest <> "" /\ intentId = "pi_" +:+ rest).
Proof.
  split.
  - unfold validateCheckoutToken. split.
    + intros H. repeat (apply andb_prop in H as [H ?]).
      repeat match goal with
             | Hn : (_ <=? _)%nat = true |- _ => apply Nat.leb_le in Hn
             end.
      auto.
    + intros [[Hlo Hhi] Hchars].
      assert (Ht : truthy token = true) by (destruct token; simpl in *; [lia|reflexivity]).
      rewrite Ht, Hchars.
      apply Nat.leb_le in Hlo, Hhi. rewrite Hlo, Hhi. reflexivity.
  - unfold validatePaymentIntentId. split.
    + intros H. repeat (apply andb_prop in H as [H ?]).
      match goal with Hn : (3 <? _)%nat = true |- _ => apply Nat.ltb_lt in Hn end.
      match goal with Hp : String.prefix _ _ = true |- _ => rename Hp into Hprefix end.
      destruct intentId as [|a [|b [|c rest]]]; cbn [String.length] in *; try lia.
      cbn [String.prefix] in Hprefix.
      destruct (Ascii.ascii_dec "p" a) as [<- | ?]; [|discriminate Hprefix].
      destruct (Ascii.ascii_dec "i" b) as [<- | ?]; [|discriminate Hprefix].
      destruct (Ascii.ascii_dec "_" c) as [<- | ?]; [|discriminate Hprefix].
      exists rest. split; [|reflexivity].
      destruct rest; cbn [String.length] in *; [lia|discriminate].
    + intros (rest & Hrest & ->).
      destruct rest as [|c rest]; [congruence|]. reflexivity.
Qed.

End FormatFacts.

(** ** Store queries *)

Module QueryFacts.
Import Js Validation Db Provider StoreQueries ShopifyWebhooks Widget Invariants.

Lemma intent_lookup_none (d : Database) (intent : string) :
  getPaymentByPaymentIntentId d intent = None <->
  intent ∉ map stripe_payment_intent_id (Db.payments d).
Proof.
  unfold getPaymentByPaymentIntentId.
  induction (Db.payments d) as [|p ps IH]; simpl.
  - split; [intros _ H; inversion H|reflexivity].
  - destruct (String.eqb_spec (stripe_payment_intent_id p) intent) as [<- | Hne].
    + split; [discriminate|]. intros H. exfalso. apply H. left.
    + rewrite IH, not_elem_of_cons. split; [auto|]. intros [_ H]. exact H.
Qed.

Lemma intent_lookup_app_fresh (ps : list Payment) (row : Payment) (other : string) :
  other <> stripe_payment_intent_id row ->
  List.find (fun p => String.eqb (stripe_payment_intent_id p) other) (ps ++ [row]) =
  List.find (fun p => String.eqb (stripe_payment_intent_id p) other) ps.
Proof.
  intros Hne. induction ps as [|p ps IH]; simpl.
  - destruct (String.eqb_spec (stripe_payment_intent_id row) other); congruence.
  - destruct (String.eqb _ _); [reflexivity|exact IH].
Qed.

Lemma intent_lookup_app_new (ps : list Payment) (row : Payment) :
  List.find (fun p => String.eqb (stripe_payment_intent_id p)
                                 (stripe_payment_intent_id row)) ps = None ->
  List.find (fun p => String.eqb (stripe_payment_intent_id p)
                                 (stripe_payment_intent_id row)) (ps ++ [row]) = Some row.
Proof.
  induction ps as [|p ps IH]; simpl.
  - rewrite String.eqb_refl. reflexivity.
  - destruct (String.eqb _ _); [discriminate|exact IH].
Qed.

(** X9.  Insert and lookup of payments: creating a payment that meets the
    constraints of the schema (an amount in the [INTEGER] range, an intent
    of at most 255 characters that has no row yet, an existing transaction)
    succeeds; the new row is pending, carries the amount and the
    transaction, is what a lookup by that intent returns, comes last among
    the transaction's payments, and the lookups of all other intents are
    unchanged. *)
Theorem createPayment_then_lookup (d : Database) (txid : nat) (intent : string)
    (amount : Z) :
  -2147483648 <= amount <= 2147483647 ->
  (String.length intent <= 255)%nat ->
  getPaymentByPaymentIntentId d intent = None ->
  is_Some (getTransactionById d txid) ->
  exists d' row,
    createPayment d txid intent amount = Returns (d', row) /\
    getPaymentByPaymentIntentId d' intent = Some row /\
    pay_status row = pending /\ pay_amount row = amount /\
    pay_transaction_id row = txid /\
    getPaymentsByTransactionId d' txid = getPaymentsByTransactionId d txid ++ [row] /\
    (forall other, other <> intent ->
       getPaymentByPaymentIntentId d' other = getPaymentByPaymentIntentId d other).
Proof.
  intros Hrange Hlength Hfresh [t Hfound].
  rewrite (DbFacts.createPayment_accepted d txid intent amount t) by assumption.
  eexists _, _. split; [reflexivity|].
  unfold getPaymentByPaymentIntentId, getPaymentsByTransactionId in *.
  cbn [Db.payments pay_status pay_amount pay_transaction_id].
  repeat split.
  - apply (intent_lookup_app_new (Db.payments d)
             {| pay_id := next_payment_id d; pay_transaction_id := txid;
                stripe_payment_intent_id := intent; pay_amount := amount;
                pay_status := pending; failure_code := None;
                failure_message := None |}).
    exact Hfresh.
  - rewrite List.filter_app. cbn [List.filter pay_transaction_id].
    rewrite Nat.eqb_refl. reflexivity.
  - intros other Hne. apply intent_lookup_app_fresh. cbn. congruence.
Qed.

Lemma createPayment_then_lookup_witness :
  exists d' row,
    createPayment Scenarios.captured_db 1 "pi_9" 700 = Returns (d', row) /\
    getPaymentByPaymentIntentId d' "pi_9" = Some row /\
    pay_status row = pending /\ pay_amount row = 700 /\
    pay_transaction_id row = 1%nat /\
    getPaymentsByTransactionId d' 1 =
      getPaymentsByTransactionId Scenarios.captured_db 1 ++ [row] /\
    (forall other, other <> "pi_9" ->
       getPaymentByPaymentIntentId d' other =
       getPaymentByPaymentIntentId Scenarios.captured_db other).
Proof.
  apply (createPayment_then_lookup Scenarios.captured_db 1 "pi_9" 700).
  - lia.
  - vm_compute. lia.
  - vm_compute. reflexivity.
  - vm_compute. eexists. reflexivity.
Defined.

Lemma integer_parameter_refused (n : Z) (error : JsError) :
  integer_parameter n = Some error ->
  (err_code error = "22P02" \/ err_code error = "22003") /\ int4 n = false.
Proof.
  unfold integer_parameter.
  destruct (Z.leb_spec (10 ^ 21) (Z.abs n)) as [Hbig | _].
  - intros [= <-]. split; [left; reflexivity|].
    unfold int4. apply andb_false_iff. lia.
  - destruct (int4 n); cbn [negb]; [discriminate|].
    intros [= <-]. split; [right; reflexivity|reflexivity].
Qed.

Lemma integer_parameter_bound (n : Z) :
  integer_parameter n = None -> int4 n = true.
Proof.
  unfold integer_parameter.
  destruct (10 ^ 21 <=? Z.abs n); [discriminate|].
  destruct (int4 n); [reflexivity|discriminate].
Qed.

Lemma length_substring_0 (m : nat) (s : string) :
  (String.length (String.substring 0 m s) <= m)%nat.
Proof.
  revert s. induction m as [|m IH]; intros [|c s]; cbn; try lia.
  specialize (IH s). lia.
Qed.

Lemma varchar_stored (n : nat) (s stored : string) :
  varchar n s = Returns stored -> (String.length stored <= n)%nat.
Proof.
  unfold varchar. destruct (Nat.leb_spec (String.length s) n) as [Hfits | Hlong].
  - intros [= <-]. exact Hfits.
  - destruct (all_chars _ _); [|discriminate].
    intros [= <-]. apply length_substring_0.
Qed.

Lemma varchar_refused (n : nat) (s : string) (error : JsError) :
  varchar n s = Throws error ->
  err_code error = "22001" /\ (n < String.length s)%nat.
Proof.
  unfold varchar. destruct (Nat.leb_spec (String.length s) n) as [Hfits | Hlong];
    [discriminate|].
  destruct (all_chars _ _); [discriminate|].
  intros [= <-]. split; [reflexivity|exact Hlong].
Qed.

(** X10.  The constraints of the schema on payments: on a table that meets
    them, [createPayment] either adds the row at the end and the table
    still meets them, or it is refused with the SQLSTATE of the constraint
    that the row breaks: 22P02 or 22003 for an amount outside the [INTEGER]
    range, 22001 for an intent of more than 255 characters, 23505 for an
    intent that, as it would be stored, has a row already, 23503 for a
    transaction that does not exist. *)
Theorem createPayment_keeps_constraints (d : Database) (txid : nat) (intent : string)
    (amount : Z) :
  payments_constrained d ->
  match createPayment d txid intent amount with
  | Returns (d', row) =>
      payments_constrained d' /\ Db.payments d' = Db.payments d ++ [row]
  | Throws error =>
      ((err_code error = "22P02" \/ err_code error = "22003") /\ int4 amount = false) \/
      (err_code error = "22001" /\ (255 < String.length intent)%nat) \/
      (err_code error = "23505" /\
       exists stored,
         varchar 255 intent = Returns stored /\
         stored ∈ map stripe_payment_intent_id (Db.payments d)) \/
      (err_code error = "23503" /\ getTransactionById d txid = None)
  end.
Proof.
  intros [Hunique Hrows]. unfold createPayment.
  destruct (integer_parameter amount) as [error|] eqn:Hamount.
  { left. apply integer_parameter_refused, Hamount. }
  apply integer_parameter_bound in Hamount.
  destruct (varchar 255 intent) as [stored|error] eqn:Hstored.
  2:{ right. left. apply (varchar_refused 255 intent error Hstored). }
  apply varchar_stored in Hstored as Hlength.
  destruct (getPaymentByPaymentIntentId d stored) as [row|] eqn:Hfound.
  { right. right. left. split; [reflexivity|]. exists stored. split; [reflexivity|].
    destruct (decide (stored ∈ map stripe_payment_intent_id (Db.payments d))) as [|Hno];
      [assumption|].
    apply intent_lookup_none in Hno. congruence. }
  destruct (getTransactionById d txid) as [t|] eqn:Htx.
  2:{ right. right. right. split; reflexivity. }
  split; [|reflexivity]. unfold payments_constrained. cbn [Db.payments]. split.
  - rewrite map_app. cbn [map stripe_payment_intent_id].
    apply NoDup_app. repeat split.
    + exact Hunique.
    + intros x Hx Hx'. apply list_elem_of_singleton in Hx'. subst x.
      apply intent_lookup_none in Hfound. contradiction.
    + apply NoDup_singleton.
  - apply Forall_app. split.
    + exact Hrows.
    + constructor; [|constructor].
      cbn [stripe_payment_intent_id pay_amount pay_transaction_id].
      repeat split; [exact Hlength|exact Hamount|].
      exists t. exact Htx.
Qed.

Lemma createPayment_keeps_constraints_witness :
  match createPayment Scenarios.captured_db 1 "pi_1" 700 with
  | Returns (d', row) =>
      payments_constrained d' /\
      Db.payments d' = Db.payments Scenarios.captured_db ++ [row]
  | Throws error =>
      ((err_code error = "22P02" \/ err_code error = "22003") /\ int4 700 = false) \/
      (err_code error = "22001" /\ (255 < String.length "pi_1")%nat) \/
      (err_code error = "23505" /\
       exists stored,
         varchar 255 "pi_1" = Returns stored /\
         stored ∈ map stripe_payment_intent_id (Db.payments Scenarios.captured_db)) \/
      (err_code error = "23503" /\ getTransactionById Scenarios.captured_db 1 = None)
  end.
Proof.
  apply (createPayment_keeps_constraints Scenarios.captured_db 1 "pi_1" 700).
  unfold payments_constrained. split.
  - apply (bool_decide_unpack _). vm_compute. exact I.
  - repeat constructor; try (vm_compute; lia); vm_compute; eexists; reflexivity.
Defined.

Lemma lookup_after_update (d : Database) (k : nat) (s : PaymentStatus)
    (code message : string) (intent : string) :
  getPaymentByPaymentIntentId (updatePaymentStatus d k s code message) intent =
  (fun r => if (pay_id r =? k)%nat then set_payment_status s code message r else r)
    <$> getPaymentByPaymentIntentId d intent.
Proof.
  unfold getPaymentByPaymentIntentId, updatePaymentStatus. cbn [Db.payments with_payments].
  induction (Db.payments d) as [|p ps IH]; simpl; [reflexivity|].
  assert (Hsame : stripe_payment_intent_id
                    (if (pay_id p =? k)%nat then set_payment_status s code message p else p)
                  = stripe_payment_intent_id p) by (destruct (pay_id p =? k)%nat; reflexivity).
  rewrite Hsame. destruct (String.eqb _ _); [reflexivity|exact IH].
Qed.

(** X11.  Update and lookup of a payment: after [updatePaymentStatus] on
    the row found for an intent, with a failure code of at most 100
    characters, the lookup of that intent returns the same row with the new
    status; the failure code is replaced only by a non-empty code, and the
    failure message only when both the code and the message are
    non-empty. *)
Theorem updatePaymentStatus_then_lookup (d : Database) (intent : string) (p : Payment)
    (s : PaymentStatus) (code message : string) :
  (String.length code <= 100)%nat ->
  getPaymentByPaymentIntentId d intent = Some p ->
  exists p',
    getPaymentByPaymentIntentId (updatePaymentStatus d (pay_id p) s code message) intent
      = Some p' /\
    same_payment p p' /\
    pay_status p' = s /\
    failure_code p' = (if truthy code then Some code else failure_code p) /\
    failure_message p' =
      (if truthy code && truthy message then Some message else failure_message p).
Proof.
  intros _ Hfound. rewrite lookup_after_update, Hfound. cbn [fmap option_fmap option_map].
  rewrite Nat.eqb_refl. eexists. split; [reflexivity|].
  unfold same_payment. cbn. repeat split; reflexivity.
Qed.

Lemma updatePaymentStatus_then_lookup_witness :
  exists p',
    getPaymentByPaymentIntentId
      (updatePaymentStatus Scenarios.captured_db 2 failed "" "3D Secure required") "pi_2"
      = Some p' /\
    same_payment (Scenarios.payment_row 2 "pi_2" 5000 captured) p' /\
    pay_status p' = failed /\
    failure_code p' = None /\
    failure_message p' = None.
Proof.
  apply (updatePaymentStatus_then_lookup Scenarios.captured_db "pi_2"
           (Scenarios.payment_row 2 "pi_2" 5000 captured) failed "" "3D Secure required").
  - vm_compute. lia.
  - vm_compute. reflexivity.
Defined.

Lemma uninstalled_lookup (d : Database) (shop : string) :
  getStoreByDomain (uninstallStore d shop) shop = None.
Proof.
  unfold getStoreByDomain, uninstallStore. cbn [stores].
  induction (stores d) as [|s ss IH]; simpl; [reflexivity|].
  destruct (String.eqb_spec (shop_domain s) shop) as [Heq | Hne]; simpl.
  - rewrite Heq, String.eqb_refl. simpl. exact IH.
  - destruct (String.eqb_spec (shop_domain s) shop); [contradiction|]. simpl. exact IH.
Qed.

Lemma uninstalled_other (d : Database) (shop other : string) :
  other <> shop ->
  getStoreByDomain (uninstallStore d shop) other = getStoreByDomain d other.
Proof.
  intros Hne. unfold getStoreByDomain, uninstallStore. cbn [stores].
  induction (stores d) as [|s ss IH]; simpl; [reflexivity|].
  destruct (String.eqb_spec (shop_domain s) shop) as [Heq | Hd]; simpl.
  - destruct (String.eqb_spec (shop_domain s) other) as [Ho | _]; [congruence|].
    simpl. exact IH.
  - destruct (String.eqb (shop_domain s) other && is_active s); [reflexivity|exact IH].
Qed.

(** X12.  After an [app/uninstalled] webhook for a shop, [/init] for that
    shop never succeeds and changes nothing, the order submitter throws for
    it, the stores of other shops are found as before, and the
    transactions, payments and refunds are untouched; every other topic
    leaves the database as it is. *)
Theorem uninstall_blocks_shop (topic shop : string) (app : App) :
  let d' := shopify_webhook topic shop (db (env app)) in
  (topic <> "app/uninstalled" -> d' = db (env app)) /\
  transactions d' = transactions (db (env app)) /\
  Db.payments d' = Db.payments (db (env app)) /\
  Db.refunds d' = Db.refunds (db (env app)) /\
  (topic = "app/uninstalled" ->
   (forall other, other <> shop ->
      getStoreByDomain d' other = getStoreByDomain (db (env app)) other) /\
   (forall now random token,
      exists status code message,
        init now random shop token (with_env (with_db d' (env app)) app)
          = (with_env (with_db d' (env app)) app, resp_error status code message)) /\
   (forall shopify txid,
      OrderService.createShopifyOrder shopify txid shop d'
        = (d', Throws (Error ("Store not found: " +:+ shop))))).
Proof.
  cbn zeta. unfold shopify_webhook, handleAppUninstalled.
  destruct (String.eqb_spec topic "app/uninstalled") as [-> | Hne].
  - split; [congruence|]. repeat split.
    + intros other Ho. apply uninstalled_other, Ho.
    + intros now random token. unfold init.
      destruct (_ || _); [eauto|].
      destruct (negb (validateShopDomain shop)); [eauto|].
      destruct (negb (validateCheckoutToken token)); [eauto|].
      cbn [env db with_env with_db]. rewrite uninstalled_lookup. eauto.
    + intros shopify txid. unfold OrderService.createShopifyOrder.
      rewrite uninstalled_lookup. reflexivity.
  - split; [reflexivity|]. do 3 (split; [reflexivity|]).
    intros Htopic. contradiction.
Qed.

Lemma uninstall_blocks_shop_witness :
  exists status code message,
    Widget.init 0 "k3j9x0a1b" "demo.myshopify.com" "c0ffee00c0ffee00c0ffee00c0ffee00"
      (with_env (with_db (shopify_webhook "app/uninstalled" "demo.myshopify.com"
                            (db (env Scenarios.fresh_app)))
                         (env Scenarios.fresh_app)) Scenarios.fresh_app)
    = (with_env (with_db (shopify_webhook "app/uninstalled" "demo.myshopify.com"
                            (db (env Scenarios.fresh_app)))
                         (env Scenarios.fresh_app)) Scenarios.fresh_app,
       resp_error status code message).
Proof.
  destruct (uninstall_blocks_shop "app/uninstalled" "demo.myshopify.com"
              Scenarios.fresh_app) as (_ & _ & _ & _ & Hblocked).
  destruct (Hblocked eq_refl) as (_ & Hinit & _).
  apply (Hinit 0 "k3j9x0a1b" "c0ffee00c0ffee00c0ffee00c0ffee00").
Defined.

End QueryFacts.

(** ** Sessions *)

Module SessionFacts.
Import Js Validation Db Provider OrderService Widget Invariants QueryFacts.

Lemma token_lookup_after_create (d : Database) (storeId : nat) (token : string)
    (total : Z) :
  getTransactionByCheckoutToken (fst (createTransaction d storeId token total)) token
    = Some (snd (createTransaction d storeId token total)).
Proof.
  unfold getTransactionByCheckoutToken, createTransaction. cbn [fst snd transactions].
  rewrite List.filter_app. cbn [List.filter shopify_checkout_token].
  rewrite String.eqb_refl. apply last_snoc.
Qed.

(** X13.  [/init] reuses the transaction of a checkout token: after a
    successful [/init], any further [/init] for the same shop and token
    succeeds with the same transaction id, total and settings, and leaves
    the database as it is. *)
Theorem init_reuses_transaction
    (now : Z) (random shop token : string) (app app1 : App)
    (sid : string) (txid : nat) (total maxCards minAmount : Z) :
  init now random shop token app
    = (app1, resp_init sid txid total maxCards minAmount) ->
  forall (now' : Z) (random' : string),
    exists app2 sid',
      init now' random' shop token app1
        = (app2, resp_init sid' txid total maxCards minAmount) /\
      db (env app2) = db (env app1).
Proof.
  unfold init.
  destruct (_ || _); [discriminate|].
  destruct (negb (validateShopDomain shop)); [discriminate|].
  destruct (negb (validateCheckoutToken token)); [discriminate|].
  destruct (getStoreByDomain (db (env app)) shop) as [store|] eqn:Hstore; [|discriminate].
  destruct (getTransactionByCheckoutToken (db (env app)) token) as [t|] eqn:Hfound.
  - intros [= <- _ <- <- <- <-] now' random'.
    cbn [env db with_db]. rewrite Hstore, Hfound.
    eexists _, _. split; reflexivity.
  - pose proof (token_lookup_after_create (db (env app)) (store_id store) token 0) as Hnew.
    destruct (createTransaction (db (env app)) (store_id store) token 0) as [d t] eqn:Hc.
    cbn [fst snd] in Hnew.
    assert (Hstore' : getStoreByDomain d shop = Some store).
    { unfold createTransaction in Hc. injection Hc as <- _. exact Hstore. }
    intros [= <- _ <- <- <- <-] now' random'.
    cbn [env db with_db]. rewrite Hstore', Hnew.
    eexists _, _. split; reflexivity.
Qed.

Lemma init_reuses_transaction_witness :
  exists app2 sid',
    init 5000 "zzzzzzzzz" "demo.myshopify.com" "c0ffee00c0ffee00c0ffee00c0ffee00"
         (fst (init 0 "k3j9x0a1b" "demo.myshopify.com"
                 "c0ffee00c0ffee00c0ffee00c0ffee00" Scenarios.fresh_app))
      = (app2, resp_init sid' 1 0 5 100) /\
    db (env app2) =
    db (env (fst (init 0 "k3j9x0a1b" "demo.myshopify.com"
                    "c0ffee00c0ffee00c0ffee00c0ffee00" Scenarios.fresh_app))).
Proof.
  apply (init_reuses_transaction 0 "k3j9x0a1b" "demo.myshopify.com"
           "c0ffee00c0ffee00c0ffee00c0ffee00" Scenarios.fresh_app _
           "session_0_k3j9x0a1b" 1 0 5 100).
  vm_compute. reflexivity.
Defined.


Lemma findIndex_appended (intent : string) (ps : list SessionPayment)
    (entry : SessionPayment) :
  intent ∉ map Widget.paymentIntentId ps ->
  Widget.paymentIntentId entry = intent ->
  findIndex intent (ps ++ [entry]) = Some (length ps).
Proof.
  unfold findIndex. intros Hnot Hentry.
  induction ps as [|p ps IH]; cbn [list_find app].
  - destruct (decide _); [reflexivity|contradiction].
  - cbn [map] in Hnot. apply not_elem_of_cons in Hnot as [Hne Hnot].
    destruct (decide (Widget.paymentIntentId p = intent)); [congruence|].
    specialize (IH Hnot).
    destruct (list_find _ (ps ++ [entry])) as [[i q]|]; [|discriminate].
    injection IH as ->. reflexivity.
Qed.

Lemma delete_appended {A : Type} (l : list A) (x : A) : delete (length l) (l ++ [x]) = l.
Proof. induction l as [|a l IH]; simpl; [reflexivity|]. rewrite IH. reflexivity. Qed.



Lemma create_payment_intent_accepted
    (now : Z) (stripe : Stripe) (sid : string) (n : Z) (app : App)
    (session : Session) (transaction : Transaction) (intent secret : string) :
  truthy sid = true -> 100 <= n <= 2147483647 ->
  widgetSessions app !! sid = Some session ->
  getTransactionById (db (env app)) (transactionId session) = Some transaction ->
  (length (Widget.payments session) < 5)%nat ->
  paymentIntents_create stripe n = Returns (intent, secret) ->
  (String.length intent <= 255)%nat ->
  getPaymentByPaymentIntentId (db (env app)) intent = None ->
  create_payment_intent now stripe sid (JsInt n) app =
  ({| env :=
        {| db := {| stores := stores (db (env app));
                    transactions := transactions (db (env app));
                    Db.payments := Db.payments (db (env app)) ++
                      [new_payment_row (db (env app)) (tx_id transaction) intent n];
                    Db.refunds := Db.refunds (db (env app));
                    next_transaction_id := next_transaction_id (db (env app));
                    next_payment_id := S (next_payment_id (db (env app)));
                    next_refund_id := next_refund_id (db (env app)) |};
           calls := calls (env app) ++ [CallCreate n] |};
      widgetSessions :=
        <[sid := with_session_payments
                   (Widget.payments session ++
                      [new_session_entry (db (env app)) intent n]) session]>
          (widgetSessions app) |},
   resp_payment_intent intent secret (next_payment_id (db (env app)))).
Proof.
  intros Hsid [Hmin Hmax] Hsession Hfound Hcards Hcreate Hlength Hfresh.
  unfold create_payment_intent, PaymentService.createPaymentIntent.
  rewrite Hsid. cbn [negb orb falsy_amount validateAmount].
  rewrite (DbFacts.parseInt_in_range n) by lia.
  assert (Hnz : (n =? 0) = false) by lia. rewrite Hnz.
  assert (Hlt : (n <? 100) = false) by lia. rewrite Hlt.
  assert (Hle : (n <=? 0) = false) by lia. rewrite Hle.
  rewrite Hsession, Hfound.
  assert (Hfive : (5 <=? length (Widget.payments session))%nat = false)
    by (apply Nat.leb_gt; exact Hcards).
  rewrite Hfive, Hcreate. cbn [db record_calls].
  rewrite (DbFacts.createPayment_accepted (db (env app)) (tx_id transaction) intent n
             transaction); [reflexivity|lia|exact Hlength|exact Hfresh|].
  rewrite (DbFacts.getTransactionById_id _ _ _ Hfound). exact Hfound.
Qed.

(** X16.  add_card of an amount from 100 to 2147483647, accepted, followed
    by remove_card of the returned intent restores the session's card list,
    while the card's payment row stays in the database with status pending
    and the provider has received the create and the cancel. *)
Theorem add_then_remove_card
    (now now' : Z) (stripe stripe' : Stripe) (sid : string) (n : Z) (app : App)
    (session : Session) (transaction : Transaction) (intent secret : string) :
  truthy sid = true -> truthy intent = true -> 100 <= n <= 2147483647 ->
  widgetSessions app !! sid = Some session ->
  getTransactionById (db (env app)) (transactionId session) = Some transaction ->
  (length (Widget.payments session) < 5)%nat ->
  paymentIntents_create stripe n = Returns (intent, secret) ->
  (String.length intent <= 255)%nat ->
  getPaymentByPaymentIntentId (db (env app)) intent = None ->
  intent ∉ map Widget.paymentIntentId (Widget.payments session) ->
  let added := fst (create_payment_intent now stripe sid (JsInt n) app) in
  let removed := remove_payment now' stripe' sid intent added in
  snd removed = resp_success /\
  widgetSessions (fst removed) !! sid = Some session /\
  getPaymentByPaymentIntentId (db (env (fst removed))) intent
    = Some (new_payment_row (db (env app)) (tx_id transaction) intent n) /\
  calls (env (fst removed)) = calls (env app) ++ [CallCreate n; CallCancel intent].
Proof.
  intros Hsid Hintent Hmin Hsession Hfound Hcards Hcreate Hlength Hfresh Hnot.
  cbn zeta.
  rewrite (create_payment_intent_accepted now stripe sid n app session transaction
             intent secret) by assumption.
  cbn [fst]. unfold remove_payment.
  rewrite Hsid, Hintent. cbn [negb orb widgetSessions]. rewrite lookup_insert_eq.
  cbn [Widget.payments with_session_payments].
  rewrite (findIndex_appended intent) by (auto; reflexivity).
  cbn [fst snd env widgetSessions db calls PaymentService.cancelPaymentIntent
       record_calls].
  rewrite lookup_insert_eq, delete_appended. repeat split.
  - destruct session; reflexivity.
  - unfold getPaymentByPaymentIntentId. cbn [Db.payments].
    apply (intent_lookup_app_new (Db.payments (db (env app)))
             (new_payment_row (db (env app)) (tx_id transaction) intent n)).
    exact Hfresh.
  - rewrite <- app_assoc. reflexivity.
Qed.

Lemma add_then_remove_card_witness :
  let added := fst (create_payment_intent 0 (Scenarios.provider []) "session_0_k3j9x0a1b"
                      (JsInt 10000) Scenarios.covered_app) in
  let removed := remove_payment 1 (Scenarios.provider []) "session_0_k3j9x0a1b"
                   "pi_10000" added in
  snd removed = resp_success /\
  widgetSessions (fst removed) !! "session_0_k3j9x0a1b"
    = widgetSessions Scenarios.covered_app !! "session_0_k3j9x0a1b" /\
  getPaymentByPaymentIntentId (db (env (fst removed))) "pi_10000"
    = Some (new_payment_row (db (env Scenarios.covered_app)) 1 "pi_10000" 10000) /\
  calls (env (fst removed)) = [] ++ [CallCreate 10000; CallCancel "pi_10000"].
Proof.
  refine (add_then_remove_card 0 1 (Scenarios.provider []) (Scenarios.provider [])
            "session_0_k3j9x0a1b" 10000 Scenarios.covered_app _
            (Scenarios.transaction_row 15000 tx_pending) "pi_10000" "secret_10000"
            _ _ _ _ _ _ _ _ _ _).
  - reflexivity.
  - reflexivity.
  - lia.
  - vm_compute. reflexivity.
  - vm_compute. reflexivity.
  - vm_compute. lia.
  - vm_compute. reflexivity.
  - vm_compute. lia.
  - vm_compute. reflexivity.
  - apply (bool_decide_unpack _). vm_compute. exact I.
Defined.

End SessionFacts.

(** ** Checkout *)

Module CheckoutFacts.
Import Js Validation Db Provider PaymentService Invariants CheckoutLog DbFacts
       PaymentServiceFacts QueryFacts.

Lemma tx_lookup_after_update (d : Database) (k : nat) (s : TransactionStatus)
    (reason : string) (id : nat) :
  getTransactionById (updateTransactionStatus d k s reason) id =
  (fun t => if (tx_id t =? k)%nat then set_transaction_status s reason t else t)
    <$> getTransactionById d id.
Proof.
  unfold getTransactionById, updateTransactionStatus. cbn [transactions with_transactions].
  induction (transactions d) as [|t ts IH]; simpl; [reflexivity|].
  assert (Hsame : tx_id (if (tx_id t =? k)%nat then set_transaction_status s reason t else t)
                  = tx_id t) by (destruct (tx_id t =? k)%nat; reflexivity).
  rewrite Hsame. destruct (tx_id t =? id)%nat; [reflexivity|exact IH].
Qed.

Lemma tx_lookup_id (d : Database) (id : nat) (t : Transaction) :
  getTransactionById d id = Some t -> (tx_id t =? id)%nat = true.
Proof.
  unfold getTransactionById. intros H. apply List.find_some in H as [_ H]. exact H.
Qed.

Lemma tx_kept_refl (d : Database) : tx_kept d d.
Proof. intros id H. exact H. Qed.

Lemma tx_kept_trans (d1 d2 d3 : Database) :
  tx_kept d1 d2 -> tx_kept d2 d3 -> tx_kept d1 d3.
Proof. intros H12 H23 id H. auto. Qed.

Lemma tx_kept_payment_update (d : Database) (k : nat) (s : PaymentStatus)
    (code message : string) :
  tx_kept d (updatePaymentStatus d k s code message).
Proof. intros id H. exact H. Qed.

Lemma tx_kept_status_update (d : Database) (k : nat) (s : TransactionStatus)
    (reason : string) :
  tx_kept d (updateTransactionStatus d k s reason).
Proof.
  intros id [t Ht]. rewrite tx_lookup_after_update, Ht. eexists. reflexivity.
Qed.

Lemma void_authorized_tx (ids : list string) (d : Database) :
  tx_kept d (void_authorized ids d).
Proof.
  unfold void_authorized. revert d.
  induction ids as [|id ids IH]; intros d; simpl; [apply tx_kept_refl|].
  eapply tx_kept_trans; [|apply IH].
  destruct (getPaymentByPaymentIntentId d id);
    [apply tx_kept_payment_update|apply tx_kept_refl].
Qed.

Lemma check_authorizations_tx (stripe : Stripe) (txid : nat)
    (work : list (CheckoutPayment * Completion unit)) (done : list string) (env : Env) :
  tx_kept (db env) (db (fst (check_authorizations stripe txid work done env))).
Proof.
  revert done env.
  induction work as [|[p [u|reason]] work IH]; intros done env;
    cbn [check_authorizations].
  - apply tx_kept_refl.
  - eapply tx_kept_trans; [|apply IH]. apply tx_kept_payment_update.
  - cbn [fst db with_db].
    eapply tx_kept_trans; [|apply tx_kept_status_update].
    eapply tx_kept_trans; [apply (tx_kept_payment_update _ (paymentId p) failed
                                    (err_code reason) (err_message reason))|].
    destruct (0 <? length done)%nat; cbn [db with_db]; rewrite ?cancel_db; cbn [db with_db].
    + apply void_authorized_tx.
    + apply tx_kept_refl.
Qed.

Lemma check_captures_tx (work : list (string * Completion unit)) (d : Database) :
  tx_kept d (fst (check_captures work d)).
Proof.
  revert d. induction work as [|[id [u|reason]] work IH]; intros d; simpl.
  - apply tx_kept_refl.
  - eapply tx_kept_trans; [|apply IH].
    destruct (getPaymentByPaymentIntentId d id);
      [apply tx_kept_payment_update|apply tx_kept_refl].
  - specialize (IH d). destruct (check_captures work d). exact IH.
Qed.

(** The transaction's status after the [try] block, before the [catch]. *)
Lemma complete_try_status (stripe : Stripe) (txid : nat) (ps : list CheckoutPayment)
    (env : Env) :
  is_Some (getTransactionById (db env) txid) ->
  is_Some (getTransactionById (db (fst (complete_try stripe txid ps env))) txid) /\
  (forall r, snd (complete_try stripe txid ps env) = Returns r ->
     r = txid /\
     tx_status <$> getTransactionById (db (fst (complete_try stripe txid ps env))) txid
       = Some tx_completed).
Proof.
  intros Hfound. unfold complete_try.
  pose proof (authorize_all_db stripe ps env) as Ha.
  destruct (authorize_all stripe ps env) as [env1 results]. cbn [fst] in Ha.
  pose proof (check_authorizations_tx stripe txid (zip ps results) [] env1) as Hc.
  rewrite Ha in Hc.
  destruct (check_authorizations _ _ _ _ _) as [env2 [ids|error]]; cbn [fst snd] in *.
  2: { split; [apply Hc, Hfound|discriminate]. }
  pose proof (capture_all_db stripe ids env2) as Hd.
  destruct (capture_all stripe ids env2) as [env3 captures]. cbn [fst] in Hd.
  pose proof (check_captures_tx (zip ids captures) (db env3)) as He.
  destruct (check_captures _ _) as [d failedCaptures]. cbn [fst] in He.
  rewrite Hd in He.
  assert (Hd' : is_Some (getTransactionById d txid)) by (apply He, Hc, Hfound).
  destruct (0 <? length failedCaptures)%nat; cbn [fst snd db with_db].
  - rewrite void_failed_db. cbn [db with_db].
    split; [apply tx_kept_status_update, Hd'|discriminate].
  - split; [apply tx_kept_status_update, Hd'|].
    intros r [= <-]. split; [reflexivity|].
    destruct Hd' as [t Ht]. rewrite tx_lookup_after_update, Ht.
    cbn [fmap option_fmap option_map]. rewrite (tx_lookup_id _ _ _ Ht). reflexivity.
Qed.

Lemma completeCheckout_final_status
    (stripe : Stripe) (txid : nat) (ps : list CheckoutPayment) (total : Z) (env : Env) :
  validatePaymentAmounts total (map amount ps) = valid ->
  is_Some (getTransactionById (db env) txid) ->
  tx_status <$> getTransactionById
                  (db (fst (completeCheckout stripe txid ps total env))) txid
    = Some (match snd (completeCheckout stripe txid ps total env) with
            | Returns _ => tx_completed
            | Throws _ => tx_failed
            end) /\
  (forall r, snd (completeCheckout stripe txid ps total env) = Returns r -> r = txid).
Proof.
  intros Hvalid [transaction Hfound]. unfold completeCheckout.
  rewrite Hvalid, Hfound.
  match goal with
  | |- context [complete_try stripe txid ps ?e] =>
      assert (Hstart : is_Some (getTransactionById (db e) txid))
        by (apply tx_kept_status_update; rewrite Hfound; eexists; reflexivity);
      destruct (complete_try_status stripe txid ps e Hstart) as [Hkept Hdone];
      destruct (complete_try stripe txid ps e) as [env1 [r|error]]
  end; cbn [fst snd db with_db] in *.
  - destruct (Hdone r eq_refl) as [-> Hstatus]. split; [exact Hstatus|].
    intros r [= <-]. reflexivity.
  - split; [|discriminate].
    destruct Hkept as [t Ht]. rewrite tx_lookup_after_update, Ht.
    cbn [fmap option_fmap option_map]. rewrite (tx_lookup_id _ _ _ Ht). reflexivity.
Qed.



Lemma authorize_outcome (stripe : Stripe) (p : CheckoutPayment) (env env0 : Env) :
  snd (authorize stripe p env) = snd (authorize stripe p env0).
Proof.
  unfold authorize.
  destruct (paymentIntents_retrieve _ _) as [status|]; [|reflexivity].
  destruct (confirmed_status status); [reflexivity|].
  destruct (paymentIntents_confirm _ _ _) as [confirmed|]; [|reflexivity].
  destruct (String.eqb confirmed _); [reflexivity|].
  destruct (negb _); reflexivity.
Qed.

Lemma authorize_log (stripe : Stripe) (ps : list CheckoutPayment) (p : CheckoutPayment)
    (env env0 : Env) :
  exists more,
    fst (authorize stripe p env) = record_calls more env /\
    Forall (compensation_call stripe ps env0) more.
Proof.
  unfold authorize.
  destruct (paymentIntents_retrieve _ _) as [status|];
    [|eexists; split; [reflexivity|repeat constructor]].
  destruct (confirmed_status status);
    [eexists; split; [reflexivity|repeat constructor]|].
  exists [CallRetrieve (paymentIntentId p);
          CallConfirm (paymentIntentId p) (paymentMethodId p)].
  split; [|repeat constructor].
  destruct (paymentIntents_confirm _ _ _) as [confirmed|]; cbn [fst].
  2: { unfold record_calls. cbn. rewrite <- app_assoc. reflexivity. }
  destruct (String.eqb confirmed _); cbn [fst].
  { unfold record_calls. cbn. rewrite <- app_assoc. reflexivity. }
  destruct (negb _); cbn [fst]; unfold record_calls; cbn;
    rewrite <- app_assoc; reflexivity.
Qed.

Lemma record_calls_twice (a b : list ProviderCall) (env : Env) :
  record_calls b (record_calls a env) = record_calls (a ++ b) env.
Proof. unfold record_calls. cbn. rewrite app_assoc. reflexivity. Qed.

Lemma authorize_all_log (stripe : Stripe) (all ps : list CheckoutPayment)
    (env env0 : Env) :
  exists more,
    fst (authorize_all stripe ps env) = record_calls more env /\
    Forall (compensation_call stripe all env0) more /\
    snd (authorize_all stripe ps env) = map (fun p => snd (authorize stripe p env0)) ps.
Proof.
  revert env. induction ps as [|p ps IH]; intros env; cbn [authorize_all map].
  - exists []. unfold record_calls. rewrite app_nil_r. destruct env. auto.
  - destruct (authorize_log stripe all p env env0) as (m1 & H1 & F1).
    pose proof (authorize_outcome stripe p env env0) as Ho.
    destruct (authorize stripe p env) as [env1 r]. cbn [fst snd] in *. subst env1.
    destruct (IH (record_calls m1 env)) as (m2 & H2 & F2 & R2).
    destruct (authorize_all stripe ps (record_calls m1 env)) as [env2 rs].
    cbn [fst snd] in *. subst env2.
    exists (m1 ++ m2). rewrite record_calls_twice. repeat split.
    + apply Forall_app. auto.
    + congruence.
Qed.

Lemma cancel_log (stripe : Stripe) (ids : list string) (env : Env) :
  cancelPaymentIntents stripe ids env = record_calls (map CallCancel ids) env.
Proof.
  unfold cancelPaymentIntents. revert env.
  induction ids as [|id ids IH]; intros env; cbn [foldl map].
  - unfold record_calls. rewrite app_nil_r. destruct env. reflexivity.
  - rewrite IH. cbn [fst cancelPaymentIntent]. apply record_calls_twice.
Qed.

Lemma zip_map_elem {A B : Type} (f : A -> B) (l : list A) (a : A) (b : B) :
  (a, b) ∈ zip l (map f l) -> a ∈ l /\ f a = b.
Proof.
  induction l as [|x l IH]; cbn [zip zip_with map]; intros Hin; [inversion Hin|].
  apply elem_of_cons in Hin as [[= -> ->] | Hin].
  - split; [left|reflexivity].
  - destruct (IH Hin). split; [right|]; assumption.
Qed.

(** The authorization loop on a list that holds a refused entry: it
    throws, and the only requests it sends are cancels of intents pushed
    before. *)
Lemma check_authorizations_refused (stripe : Stripe) (txid : nat)
    (qs : list CheckoutPayment) (rs : list (Completion unit)) (done : list string)
    (env : Env) :
  length qs = length rs ->
  (exists reason, Throws reason ∈ rs) ->
  exists cancelled error,
    snd (check_authorizations stripe txid (zip qs rs) done env) = Throws error /\
    calls (fst (check_authorizations stripe txid (zip qs rs) done env))
      = calls env ++ map CallCancel cancelled /\
    (forall id, id ∈ cancelled ->
       id ∈ done \/
       exists q, (q, Returns tt) ∈ zip qs rs /\ paymentIntentId q = id).
Proof.
  revert rs done env.
  induction qs as [|q qs IH]; intros [|r rs] done env Hlen [reason Hin];
    try discriminate; [inversion Hin|].
  cbn [zip zip_with check_authorizations]. destruct r as [[]|refused].
  - apply elem_of_cons in Hin as [Heq | Hin]; [discriminate|].
    destruct (IH rs (done ++ [paymentIntentId q])
                (with_db (updatePaymentStatus (db env) (paymentId q) authorized "" "") env)
                ltac:(simpl in Hlen; lia) (ex_intro _ reason Hin))
      as (cancelled & error & Hthrow & Hcalls & Hfrom).
    exists cancelled, error. repeat split; [exact Hthrow|exact Hcalls|].
    intros id Hid. destruct (Hfrom id Hid) as [Hdone | (q' & Hq' & Hname)].
    + apply elem_of_app in Hdone as [Hdone | Hnew]; [left; exact Hdone|].
      apply list_elem_of_singleton in Hnew. subst id.
      right. exists q. split; [left|reflexivity].
    + right. exists q'. split; [right; exact Hq'|exact Hname].
  - destruct (0 <? length done)%nat eqn:Hany; cbn [fst snd calls with_db].
    + exists done. eexists. repeat split; [|auto].
      rewrite cancel_log. reflexivity.
    + exists []. eexists. repeat split.
      * cbn. rewrite app_nil_r. reflexivity.
      * intros id Hid. inversion Hid.
Qed.

(** X18.  No capture without every authorization: when the provider
    refuses the authorization of one submitted payment, [completeCheckout]
    throws and the requests it sends are retrieves, confirms and cancels
    only; it sends no capture, and it cancels only intents of submitted
    payments whose own authorization was granted. *)
Theorem no_capture_after_refused_authorization
    (stripe : Stripe) (txid : nat) (ps : list CheckoutPayment) (total : Z)
    (env env0 : Env) (p : CheckoutPayment) (reason : JsError) :
  p ∈ ps ->
  snd (authorize stripe p env0) = Throws reason ->
  exists more error,
    snd (completeCheckout stripe txid ps total env) = Throws error /\
    calls (fst (completeCheckout stripe txid ps total env)) = calls env ++ more /\
    Forall (compensation_call stripe ps env0) more /\
    forallb (fun c => negb (is_capture c)) more = true.
Proof.
  intros Hin Hrefused.
  assert (Hnocapture : forall more,
            Forall (compensation_call stripe ps env0) more ->
            forallb (fun c => negb (is_capture c)) more = true).
  { intros more Hall. apply forallb_forall. intros c Hc.
    rewrite Forall_forall in Hall. apply list_elem_of_In in Hc.
    specialize (Hall c Hc). destruct c; cbn in *; auto; contradiction. }
  unfold completeCheckout.
  destruct (validatePaymentAmounts _ _) as [|invalid_amounts].
  2: { exists [], (Error invalid_amounts). cbn. rewrite app_nil_r. auto. }
  destruct (getTransactionById _ _) as [transaction|].
  2: { exists [], (Error "Transaction not found"). cbn. rewrite app_nil_r. auto. }
  unfold complete_try.
  match goal with
  | |- context [authorize_all stripe ps ?e] =>
      destruct (authorize_all_log stripe ps ps e env0) as (m1 & H1 & F1 & R1);
      destruct (authorize_all stripe ps e) as [env1 results]
  end.
  cbn [fst snd] in H1, R1. subst env1 results.
  match goal with
  | |- context [check_authorizations stripe txid (zip ps ?rs) [] ?e] =>
      destruct (check_authorizations_refused stripe txid ps rs [] e)
        as (cancelled & error & Hthrow & Hcalls & Hfrom);
      [rewrite length_map; reflexivity
      |exists reason; rewrite <- Hrefused;
       apply list_elem_of_In, (in_map (fun q => snd (authorize stripe q env0))),
             list_elem_of_In, Hin
      |destruct (check_authorizations stripe txid (zip ps rs) [] e) as [env2 outcome]]
  end.
  cbn [fst snd] in Hthrow, Hcalls. subst outcome.
  exists (m1 ++ map CallCancel cancelled), error. cbn [fst snd calls with_db].
  assert (Hall : Forall (compensation_call stripe ps env0)
                        (m1 ++ map CallCancel cancelled)).
  { apply Forall_app. split; [exact F1|].
    apply Forall_forall. intros c Hc.
    apply list_elem_of_In, in_map_iff in Hc as (id & <- & Hid).
    apply list_elem_of_In in Hid.
    destruct (Hfrom id Hid) as [Hnil | (q & Hq & Hname)]; [inversion Hnil|].
    cbn [compensation_call]. exists q.
    apply zip_map_elem in Hq as [Hq Hr]. auto. }
  repeat split; [|exact Hall|apply Hnocapture, Hall].
  rewrite Hcalls. cbn [calls with_db record_calls]. rewrite app_assoc. reflexivity.
Qed.

Lemma no_capture_after_refused_authorization_witness :
  exists more error,
    snd (completeCheckout (Scenarios.provider ["pi_2"]) 1 Scenarios.three_cards 12000
           Scenarios.three_cards_env) = Throws error /\
    calls (fst (completeCheckout (Scenarios.provider ["pi_2"]) 1 Scenarios.three_cards
                  12000 Scenarios.three_cards_env))
      = calls Scenarios.three_cards_env ++ more /\
    Forall (compensation_call (Scenarios.provider ["pi_2"]) Scenarios.three_cards
              Scenarios.three_cards_env) more /\
    forallb (fun c => negb (is_capture c)) more = true.
Proof.
  apply (no_capture_after_refused_authorization (Scenarios.provider ["pi_2"]) 1
           Scenarios.three_cards 12000 Scenarios.three_cards_env
           Scenarios.three_cards_env
           (Scenarios.checkout_payment 2 "pi_2" "pm_2" 4000) Scenarios.card_declined).
  - unfold Scenarios.three_cards. apply elem_of_cons. right.
    apply elem_of_cons. left. reflexivity.
  - vm_compute. reflexivity.
Defined.

Lemma authorized_loop (stripe : Stripe) (txid : nat) (qs : list CheckoutPayment)
    (done : list string) (env : Env) :
  exists d',
    check_authorizations stripe txid (zip qs (map (fun _ => Returns tt) qs)) done env
      = (with_db d' env, Returns (done ++ map paymentIntentId qs)) /\
    transactions d' = transactions (db env) /\
    (forall i, is_Some (getPaymentByPaymentIntentId (db env) i) ->
               is_Some (getPaymentByPaymentIntentId d' i)).
Proof.
  revert done env. induction qs as [|q qs IH]; intros done env;
    cbn [map zip zip_with check_authorizations].
  - exists (db env). rewrite app_nil_r. destruct env. auto.
  - destruct (IH (done ++ [paymentIntentId q])
                (with_db (updatePaymentStatus (db env) (paymentId q) authorized "" "") env))
      as (d' & Heq & Htx & Hkept).
    exists d'. rewrite Heq, <- app_assoc. repeat split; [exact Htx|].
    intros i [row Hrow]. apply Hkept. cbn [db with_db].
    rewrite lookup_after_update, Hrow. eexists. reflexivity.
Qed.

Lemma capture_all_granted (stripe : Stripe) (ids : list string) (env : Env) :
  (forall id, id ∈ ids -> paymentIntents_capture stripe id = Returns tt) ->
  capture_all stripe ids env
    = (record_calls (map CallCapture ids) env, map (fun _ => Returns tt) ids).
Proof.
  revert env. induction ids as [|id ids IH]; intros env Hok; cbn [capture_all map].
  - unfold record_calls. rewrite app_nil_r. destruct env. reflexivity.
  - cbn [capturePaymentIntent]. rewrite (Hok id) by left.
    rewrite IH by (intros id' Hid; apply Hok; right; exact Hid).
    rewrite record_calls_twice. reflexivity.
Qed.

Lemma captured_stays (d : Database) (k : nat) (code message : string) (i : string) :
  captured_at d i -> captured_at (updatePaymentStatus d k captured code message) i.
Proof.
  intros (row & Hrow & Hstatus). unfold captured_at.
  rewrite lookup_after_update, Hrow. eexists. split; [reflexivity|].
  destruct (pay_id row =? k)%nat; [reflexivity|exact Hstatus].
Qed.

Lemma captured_loop (ids : list string) (d : Database) :
  (forall i, i ∈ ids -> is_Some (getPaymentByPaymentIntentId d i)) ->
  exists d',
    check_captures (zip ids (map (fun _ => Returns tt) ids)) d = (d', []) /\
    transactions d' = transactions d /\
    (forall i, captured_at d i -> captured_at d' i) /\
    (forall i, i ∈ ids -> captured_at d' i).
Proof.
  revert d. induction ids as [|id ids IH]; intros d Hfound;
    cbn [map zip zip_with check_captures].
  - exists d. repeat split; auto. intros i Hi. inversion Hi.
  - destruct (Hfound id ltac:(left)) as [row Hrow]. rewrite Hrow.
    set (d1 := updatePaymentStatus d (pay_id row) captured "" "").
    assert (Hnow : captured_at d1 id).
    { unfold captured_at, d1. rewrite lookup_after_update, Hrow. eexists.
      split; [reflexivity|]. cbn. rewrite Nat.eqb_refl. reflexivity. }
    destruct (IH d1) as (d' & Heq & Htx & Hstay & Hall).
    { intros i Hi. destruct (Hfound i ltac:(right; exact Hi)) as [r Hr].
      unfold d1. rewrite lookup_after_update, Hr. eexists. reflexivity. }
    exists d'. repeat split.
    + exact Heq.
    + rewrite Htx. reflexivity.
    + intros i Hi. apply Hstay, captured_stays, Hi.
    + intros i Hi. apply elem_of_cons in Hi as [-> | Hi]; [apply Hstay, Hnow|apply Hall, Hi].
Qed.

Lemma compensation_no_capture (stripe : Stripe) (ps : list CheckoutPayment) (env0 : Env)
    (more : list ProviderCall) :
  Forall (compensation_call stripe ps env0) more ->
  forallb (fun c => negb (is_capture c)) more = true.
Proof.
  intros Hall. apply forallb_forall. intros c Hc.
  rewrite Forall_forall in Hall. apply list_elem_of_In in Hc.
  specialize (Hall c Hc). destruct c; cbn in *; auto; contradiction.
Qed.

(** X19.  All or nothing, the successful side: when the provider grants
    the authorization and the capture of every submitted payment and each
    submitted intent has a payment row, [completeCheckout] returns the
    transaction id, the transaction is [completed], the payment found for
    every submitted intent is [captured], and the provider receives one
    capture per submitted payment, in order, after all the authorization
    requests. *)
Theorem checkout_captures_all
    (stripe : Stripe) (txid : nat) (ps : list CheckoutPayment) (total : Z)
    (env env0 : Env) :
  validatePaymentAmounts total (map amount ps) = valid ->
  is_Some (getTransactionById (db env) txid) ->
  (forall p, p ∈ ps -> snd (authorize stripe p env0) = Returns tt) ->
  (forall p, p ∈ ps -> paymentIntents_capture stripe (paymentIntentId p) = Returns tt) ->
  (forall p, p ∈ ps ->
     is_Some (getPaymentByPaymentIntentId (db env) (paymentIntentId p))) ->
  snd (completeCheckout stripe txid ps total env) = Returns txid /\
  tx_status <$> getTransactionById
                  (db (fst (completeCheckout stripe txid ps total env))) txid
    = Some tx_completed /\
  (forall p, p ∈ ps ->
     captured_at (db (fst (completeCheckout stripe txid ps total env)))
                 (paymentIntentId p)) /\
  exists authorizations,
    calls (fst (completeCheckout stripe txid ps total env))
      = calls env ++ authorizations ++ map CallCapture (map paymentIntentId ps) /\
    forallb (fun c => negb (is_capture c)) authorizations = true.
Proof.
  intros Hvalid [transaction Hfound] Hgranted Hcaptured Hrows.
  unfold completeCheckout. rewrite Hvalid, Hfound. unfold complete_try.
  match goal with
  | |- context [authorize_all stripe ps ?e] =>
      set (start := e);
      destruct (authorize_all_log stripe ps ps start env0) as (m1 & H1 & F1 & R1);
      destruct (authorize_all stripe ps start) as [env1 results]
  end.
  cbn [fst snd] in H1, R1. subst env1.
  assert (Hresults : results = map (fun _ => Returns tt) ps).
  { rewrite R1. apply map_ext_in. intros q Hq. apply Hgranted, list_elem_of_In, Hq. }
  rewrite Hresults.
  destruct (authorized_loop stripe txid ps [] (record_calls m1 start))
    as (d1 & Hloop & Htx1 & Hkept1).
  rewrite Hloop. cbn [app].
  rewrite capture_all_granted.
  2: { intros id Hid. apply list_elem_of_In, in_map_iff in Hid as (q & <- & Hq).
       apply Hcaptured, list_elem_of_In, Hq. }
  cbn [db with_db record_calls].
  destruct (captured_loop (map paymentIntentId ps) d1) as (d2 & Hcap & Htx2 & _ & Hall).
  { intros i Hi. apply list_elem_of_In, in_map_iff in Hi as (q & <- & Hq).
    apply Hkept1. cbn [db record_calls]. unfold start. cbn [db with_db].
    apply Hrows, list_elem_of_In, Hq. }
  rewrite Hcap. cbn [length Nat.ltb Nat.leb fst snd db calls with_db].
  repeat split.
  - rewrite tx_lookup_after_update.
    assert (Hd2 : getTransactionById d2 txid
                  = getTransactionById (db start) txid).
    { unfold getTransactionById. rewrite Htx2, Htx1. reflexivity. }
    rewrite Hd2. unfold start. cbn [db with_db].
    rewrite tx_lookup_after_update, Hfound. cbn.
    rewrite (tx_lookup_id _ _ _ Hfound). cbn. rewrite (tx_lookup_id _ _ _ Hfound).
    reflexivity.
  - intros p Hp. unfold captured_at.
    destruct (Hall (paymentIntentId p)) as (row & Hrow & Hstatus).
    { apply list_elem_of_In, in_map, list_elem_of_In, Hp. }
    exists row. split; [exact Hrow|exact Hstatus].
  - exists m1. split; [|apply (compensation_no_capture stripe ps env0), F1].
    unfold start. cbn [calls with_db record_calls].
    first [reflexivity | rewrite <- app_assoc; reflexivity].
Qed.

Lemma checkout_captures_all_witness :
  snd (completeCheckout (Scenarios.provider []) 1 Scenarios.two_cards 15000
         Scenarios.processing_env) = Returns 1%nat /\
  tx_status <$> getTransactionById
                  (db (fst (completeCheckout (Scenarios.provider []) 1 Scenarios.two_cards
                              15000 Scenarios.processing_env))) 1
    = Some tx_completed /\
  (forall p, p ∈ Scenarios.two_cards ->
     captured_at (db (fst (completeCheckout (Scenarios.provider []) 1 Scenarios.two_cards
                             15000 Scenarios.processing_env)))
                 (paymentIntentId p)) /\
  exists authorizations,
    calls (fst (completeCheckout (Scenarios.provider []) 1 Scenarios.two_cards 15000
                  Scenarios.processing_env))
      = calls Scenarios.processing_env ++ authorizations ++
        map CallCapture (map paymentIntentId Scenarios.two_cards) /\
    forallb (fun c => negb (is_capture c)) authorizations = true.
Proof.
  apply (checkout_captures_all (Scenarios.provider []) 1 Scenarios.two_cards 15000
           Scenarios.processing_env Scenarios.processing_env).
  - vm_compute. reflexivity.
  - vm_compute. eexists. reflexivity.
  - intros p Hp. unfold Scenarios.two_cards in Hp.
    repeat (apply elem_of_cons in Hp as [-> | Hp]); [reflexivity..|inversion Hp].
  - intros p Hp. reflexivity.
  - intros p Hp. unfold Scenarios.two_cards in Hp.
    repeat (apply elem_of_cons in Hp as [-> | Hp]);
      [vm_compute; eexists; reflexivity..|inversion Hp].
Defined.

End CheckoutFacts.

(** ** Refunds and provider webhooks *)

Module RefundFacts.
Import Js Currency Db Provider RefundService Invariants RefundLog CurrencyFacts DbFacts
       RefundServiceFacts QueryFacts.

(** X20.  A rejected refund has no effect: whenever [processRefund] throws,
    the database and the provider log are as before the call. *)
Theorem refund_rejection_is_atomic
    (stripe : Stripe) (txid : nat) (amount : Z) (reason who : string) (env : Env)
    (error : JsError) :
  snd (processRefund stripe txid amount reason who env) = Throws error ->
  fst (processRefund stripe txid amount reason who env) = env.
Proof.
  unfold processRefund.
  destruct (getTransactionById _ _) as [transaction|]; [|reflexivity].
  destruct (negb _); [reflexivity|].
  destruct (length _ =? 0)%nat; [reflexivity|].
  destruct (amount >? _); [reflexivity|].
  destruct (length _ =? 0)%nat; [reflexivity|].
  destruct (foldl _ _ _) as [env1 results]. cbn [snd]. discriminate.
Qed.

Lemma refund_rejection_is_atomic_witness :
  fst (processRefund (Scenarios.provider []) 1 20000 "requested_by_customer" "admin"
         Scenarios.captured_env) = Scenarios.captured_env.
Proof.
  apply (refund_rejection_is_atomic (Scenarios.provider []) 1 20000
           "requested_by_customer" "admin" Scenarios.captured_env
           (Error "Refund amount (200) exceeds remaining refundable amount (150)")).
  vm_compute. reflexivity.
Defined.

Lemma refund_one_log (stripe : Stripe) (txid : nat) (reason who : string) (d0 : Database)
    (state : Env * list RefundResult) (split : RefundSplit) :
  Db.payments (db (fst state)) = Db.payments d0 ->
  0 < refundAmount split ->
  exists more,
    calls (fst (refund_one stripe txid reason who state split))
      = calls (fst state) ++ more /\
    Forall (sound_refund_call d0) more.
Proof.
  destruct state as [env results]. cbn [fst]. intros Hsame Hpos. unfold refund_one.
  assert (Hlookup : getPaymentByPaymentIntentId (db env) (stripePaymentIntentId split)
                    = getPaymentByPaymentIntentId d0 (stripePaymentIntentId split)).
  { unfold getPaymentByPaymentIntentId. rewrite Hsame. reflexivity. }
  destruct (getPaymentByPaymentIntentId (db env) _) as [payment|] eqn:Hfound.
  2: { exists []. cbn. rewrite app_nil_r. auto. }
  destruct (bool_decide (pay_status payment = captured)) eqn:Hcaptured; cbn [negb].
  2: { exists []. cbn. rewrite app_nil_r. auto. }
  apply bool_decide_eq_true in Hcaptured.
  exists [CallRefund (stripePaymentIntentId split) (refundAmount split)].
  split.
  - destruct (refunds_create _ _ _ _) as [[rid status]|]; [|reflexivity].
    destruct (createRefund _ _ _ _ _ _ _ _) as [[d row]|]; reflexivity.
  - repeat constructor; [exact Hpos|]. exists payment. rewrite <- Hlookup. auto.
Qed.

Lemma refund_loop_log (stripe : Stripe) (txid : nat) (reason who : string) (d0 : Database)
    (splits : list RefundSplit) (state : Env * list RefundResult) :
  Db.payments (db (fst state)) = Db.payments d0 ->
  Forall (fun split => 0 < refundAmount split) splits ->
  exists more,
    calls (fst (foldl (refund_one stripe txid reason who) state splits))
      = calls (fst state) ++ more /\
    Forall (sound_refund_call d0) more.
Proof.
  revert state. induction splits as [|split splits IH]; intros state Hsame Hpos;
    cbn [foldl].
  - exists []. rewrite app_nil_r. auto.
  - inversion Hpos as [|? ? Hhead Htail]; subst.
    destruct (refund_one_log stripe txid reason who d0 state split Hsame Hhead)
      as (m1 & H1 & F1).
    destruct (IH (refund_one stripe txid reason who state split)) as (m2 & H2 & F2).
    + destruct (refund_one_tables stripe txid reason who state split) as [Hp _].
      congruence.
    + exact Htail.
    + exists (m1 ++ m2). rewrite H2, H1, app_assoc. split; [reflexivity|].
      apply Forall_app. auto.
Qed.

(** X21.  [processRefund] only ever asks the provider for refunds of a
    positive amount on payments whose row is captured: every request it
    adds to the log is such a refund, whatever the outcome. *)
Theorem refund_requests_are_sound
    (stripe : Stripe) (txid : nat) (amount : Z) (reason who : string) (env : Env) :
  exists more,
    calls (fst (processRefund stripe txid amount reason who env)) = calls env ++ more /\
    Forall (sound_refund_call (db env)) more.
Proof.
  assert (Hnone : exists more, calls env = calls env ++ more /\
                               Forall (sound_refund_call (db env)) more)
    by (exists []; rewrite app_nil_r; auto).
  unfold processRefund.
  destruct (getTransactionById _ _) as [transaction|]; [|exact Hnone].
  destruct (negb _); [exact Hnone|].
  destruct (length _ =? 0)%nat; [exact Hnone|].
  destruct (amount >? _); [exact Hnone|].
  destruct (length _ =? 0)%nat; [exact Hnone|].
  match goal with
  | |- context [foldl ?f (env, []) ?l] =>
      destruct (refund_loop_log stripe txid reason who (db env) l (env, []))
        as (more & Hcalls & Hsound);
      [reflexivity
      |apply Forall_forall; intros split Hin;
       apply list_elem_of_In, filter_In in Hin as [_ Hin]; lia
      |destruct (foldl f (env, []) l) as [env1 results]]
  end.
  cbn [fst] in Hcalls. exists more. split; [|exact Hsound].
  cbn [fst]. destruct (_ >=? _); [exact Hcalls|].
  destruct (_ >? 0); exact Hcalls.
Qed.

Lemma reduce_sum_rev (xs : list Z) : reduce_sum (rev xs) = reduce_sum xs.
Proof.
  induction xs as [|x xs IH]; [reflexivity|].
  cbn [rev]. rewrite reduce_sum_app, reduce_sum_cons, IH.
  rewrite reduce_sum_cons, reduce_sum_nil. lia.
Qed.

Lemma filter_rev_list {A : Type} (p : A -> bool) (l : list A) :
  List.filter p (rev l) = rev (List.filter p l).
Proof.
  induction l as [|a l IH]; [reflexivity|].
  cbn [rev List.filter]. rewrite List.filter_app, IH. cbn [List.filter].
  destruct (p a); cbn [rev]; [reflexivity|rewrite app_nil_r; reflexivity].
Qed.

(** The succeeded total of a transaction over its refund rows in insertion
    order. *)
Lemma already_refunded_rows (d : Database) (txid : nat) :
  already_refunded d txid =
  reduce_sum (map refund_amount
                (List.filter (fun r => bool_decide (refund_status r = refund_succeeded))
                   (List.filter (fun r => (refund_transaction_id r =? txid)%nat)
                                (Db.refunds d)))).
Proof.
  unfold already_refunded, getRefundsByTransactionId.
  rewrite filter_rev_list, map_rev. apply reduce_sum_rev.
Qed.

Lemma refund_one_accounts (stripe : Stripe) (txid : nat) (reason who : string)
    (state : Env * list RefundResult) (split : RefundSplit) :
  already_refunded (db (fst (refund_one stripe txid reason who state split))) txid
    - reduce_sum (succeeded_amounts (snd (refund_one stripe txid reason who state split)))
  = already_refunded (db (fst state)) txid - reduce_sum (succeeded_amounts (snd state)).
Proof.
  destruct state as [env results]. cbn [fst snd]. unfold refund_one.
  assert (Herror : forall id message,
            reduce_sum (succeeded_amounts (results ++ [refund_error id message]))
            = reduce_sum (succeeded_amounts results)).
  { intros id message. unfold succeeded_amounts. rewrite flat_map_app.
    cbn [flat_map]. rewrite !app_nil_r. reflexivity. }
  destruct (getPaymentByPaymentIntentId _ _) as [payment|]; cbn [fst snd];
    [|rewrite Herror; reflexivity].
  destruct (negb _); cbn [fst snd]; [reflexivity|].
  destruct (refunds_create _ _ _ _) as [[rid status]|]; cbn [fst snd db record_calls];
    [|rewrite Herror; reflexivity].
  unfold createRefund.
  destruct (integer_parameter _); cbn [fst snd]; [rewrite Herror; reflexivity|].
  destruct (refund_strings _ _ _) as [[[rid' reason'] who']|]; cbn [fst snd];
    [|rewrite Herror; reflexivity].
  destruct (existsb _ _); cbn [fst snd]; [rewrite Herror; reflexivity|].
  destruct (negb _); cbn [fst snd]; [rewrite Herror; reflexivity|].
  destruct (negb _); cbn [fst snd db record_calls with_db];
    [rewrite Herror; reflexivity|].
  rewrite !already_refunded_rows. cbn [Db.refunds].
  rewrite !List.filter_app, map_app, reduce_sum_app.
  cbn [List.filter refund_transaction_id]. rewrite Nat.eqb_refl.
  cbn [List.filter refund_status].
  unfold succeeded_amounts. rewrite flat_map_app, reduce_sum_app. cbn [flat_map].
  destruct (String.eqb status "succeeded").
  - rewrite bool_decide_eq_true_2 by reflexivity. cbn [map refund_amount app].
    rewrite !reduce_sum_cons, !reduce_sum_nil. lia.
  - rewrite bool_decide_eq_false_2 by discriminate. cbn [map app].
    rewrite !reduce_sum_nil. lia.
Qed.

Lemma refund_loop_accounts (stripe : Stripe) (txid : nat) (reason who : string)
    (splits : list RefundSplit) (state : Env * list RefundResult) :
  already_refunded (db (fst (foldl (refund_one stripe txid reason who) state splits))) txid
    - reduce_sum (succeeded_amounts
                    (snd (foldl (refund_one stripe txid reason who) state splits)))
  = already_refunded (db (fst state)) txid - reduce_sum (succeeded_amounts (snd state)).
Proof.
  revert state. induction splits as [|split splits IH]; intros state; cbn [foldl];
    [reflexivity|].
  rewrite IH. apply refund_one_accounts.
Qed.

(** X22.  Refund accounting: when [processRefund] returns, the succeeded
    refund total of the transaction, as the next refund will read it, has
    grown by exactly the amounts of the per-payment results that the
    provider reported as succeeded. *)
Theorem refund_accounting
    (stripe : Stripe) (txid : nat) (amount : Z) (reason who : string) (env env' : Env)
    (out : RefundOutcome) :
  processRefund stripe txid amount reason who env = (env', Returns out) ->
  already_refunded (db env') txid
    = already_refunded (db env) txid + reduce_sum (succeeded_amounts (refunds out)).
Proof.
  unfold processRefund.
  destruct (getTransactionById _ _) as [transaction|]; [|discriminate].
  destruct (negb _); [discriminate|].
  destruct (length _ =? 0)%nat; [discriminate|].
  destruct (amount >? _); [discriminate|].
  destruct (length _ =? 0)%nat; [discriminate|].
  match goal with
  | |- context [foldl ?f (env, []) ?l] =>
      pose proof (refund_loop_accounts stripe txid reason who l (env, [])) as Hacc;
      destruct (foldl f (env, []) l) as [env1 results]
  end.
  cbn [fst snd] in Hacc. change (succeeded_amounts []) with (@nil Z) in Hacc.
  rewrite reduce_sum_nil in Hacc.
  intros [= <- <-]. cbn [refunds].
  assert (Hsame : forall e, (e = env1 \/ exists s, e = with_db
                     (updateTransactionStatus (db env1) txid s "") env1) ->
                  already_refunded (db e) txid = already_refunded (db env1) txid).
  { intros e [-> | [s ->]]; reflexivity. }
  rewrite (Hsame _); [lia|].
  destruct (_ >=? _); [right; eexists; reflexivity|].
  destruct (_ >? 0); [right; eexists; reflexivity|left; reflexivity].
Qed.

Lemma refund_accounting_witness :
  already_refunded
    (db (fst (processRefund (Scenarios.provider []) 1 3000 "requested_by_customer"
                "admin" Scenarios.captured_env))) 1
  = already_refunded (db Scenarios.captured_env) 1 +
    reduce_sum (succeeded_amounts
                  [refund_done 1 1 "re_pi_1" 2000 "succeeded";
                   refund_done 2 2 "re_pi_2" 1000 "succeeded"]).
Proof.
  apply (refund_accounting (Scenarios.provider []) 1 3000 "requested_by_customer" "admin"
           Scenarios.captured_env _
           {| success := true;
              refunds := [refund_done 1 1 "re_pi_1" 2000 "succeeded";
                          refund_done 2 2 "re_pi_2" 1000 "succeeded"];
              totalRefunded := 3000;
              transactionStatus := tx_partially_refunded |}).
  vm_compute. reflexivity.
Defined.

(** X23.  The [payment_intent.succeeded] handler is idempotent: delivering
    the event twice leaves the database as delivering it once; after it the
    payment of the intent, if there is one, is captured; and on a payment
    that is already captured it changes nothing. *)
Theorem succeeded_webhook_idempotent (intent : string) (d : Database) :
  Webhooks.handlePaymentIntentSucceeded intent
    (Webhooks.handlePaymentIntentSucceeded intent d)
    = Webhooks.handlePaymentIntentSucceeded intent d /\
  (is_Some (getPaymentByPaymentIntentId d intent) ->
   captured_at (Webhooks.handlePaymentIntentSucceeded intent d) intent) /\
  (captured_at d intent -> Webhooks.handlePaymentIntentSucceeded intent d = d).
Proof.
  assert (Hfix : captured_at d intent -> Webhooks.handlePaymentIntentSucceeded intent d = d).
  { intros (row & Hrow & Hstatus). unfold Webhooks.handlePaymentIntentSucceeded.
    rewrite Hrow, (bool_decide_eq_true_2 _ Hstatus). reflexivity. }
  assert (Hafter : is_Some (getPaymentByPaymentIntentId d intent) ->
                   captured_at (Webhooks.handlePaymentIntentSucceeded intent d) intent).
  { intros [row Hrow]. unfold Webhooks.handlePaymentIntentSucceeded. rewrite Hrow.
    destruct (decide (pay_status row = captured)) as [Hc | Hn].
    - rewrite (bool_decide_eq_true_2 _ Hc). exists row. auto.
    - rewrite (bool_decide_eq_false_2 _ Hn). cbn [negb]. unfold captured_at.
      rewrite lookup_after_update, Hrow. eexists. split; [reflexivity|].
      cbn. rewrite Nat.eqb_refl. reflexivity. }
  repeat split; [|exact Hafter|exact Hfix].
  destruct (getPaymentByPaymentIntentId d intent) as [row|] eqn:Hrow.
  - unfold Webhooks.handlePaymentIntentSucceeded at 1.
    destruct (Hafter ltac:(eexists; reflexivity)) as (row' & Hrow' & Hstatus').
    rewrite Hrow', (bool_decide_eq_true_2 _ Hstatus'). reflexivity.
  - unfold Webhooks.handlePaymentIntentSucceeded. rewrite Hrow, Hrow. reflexivity.
Qed.

Lemma succeeded_webhook_idempotent_witness :
  Webhooks.handlePaymentIntentSucceeded "pi_1" Scenarios.captured_db
    = Scenarios.captured_db /\
  captured_at (Webhooks.handlePaymentIntentSucceeded "pi_1" Scenarios.voided_db) "pi_1".
Proof.
  destruct (succeeded_webhook_idempotent "pi_1" Scenarios.captured_db) as (_ & _ & Hfix).
  destruct (succeeded_webhook_idempotent "pi_1" Scenarios.voided_db) as (_ & Hafter & _).
  split.
  - apply Hfix. vm_compute. eexists. split; reflexivity.
  - apply Hafter. vm_compute. eexists. reflexivity.
Defined.

End RefundFacts.

(** ** Payment rows across operations *)

Module RowFacts.
Import Js Validation Db Provider PaymentService OrderService Widget Machine Invariants
       DbFacts PaymentServiceFacts RefundServiceFacts WidgetFacts.

Lemma rows_same_refl (ps : list Payment) : rows_same ps ps.
Proof.
  induction ps as [|p ps IH]; constructor; [|exact IH].
  unfold same_payment. auto.
Qed.

Lemma rows_same_trans (ps1 ps2 ps3 : list Payment) :
  rows_same ps1 ps2 -> rows_same ps2 ps3 -> rows_same ps1 ps3.
Proof.
  intros H12. revert ps3.
  induction H12 as [|p1 p2 ps1 ps2 H _ IH]; intros ps3 H23;
    inversion H23 as [|? p3 ? ps3' H' Hrest]; subst; constructor.
  - unfold same_payment in *. destruct H as (? & ? & ? & ?), H' as (? & ? & ? & ?).
    repeat split; congruence.
  - apply IH, Hrest.
Qed.

Lemma update_same (d : Database) (id : nat) (status : PaymentStatus)
    (code message : string) :
  rows_same (Db.payments d) (Db.payments (updatePaymentStatus d id status code message)).
Proof.
  unfold updatePaymentStatus. cbn [Db.payments with_payments].
  induction (Db.payments d) as [|p ps IH]; simpl; constructor; [|exact IH].
  unfold same_payment. destruct (pay_id p =? id)%nat; cbn; auto.
Qed.

Lemma found_update_same (d : Database) (intent : string) (status : PaymentStatus) :
  rows_same (Db.payments d)
    (Db.payments match getPaymentByPaymentIntentId d intent with
                 | Some row => updatePaymentStatus d (pay_id row) status "" ""
                 | None => d
                 end).
Proof.
  destruct (getPaymentByPaymentIntentId d intent);
    [apply update_same|apply rows_same_refl].
Qed.

Lemma void_authorized_same (ids : list string) (d : Database) :
  rows_same (Db.payments d) (Db.payments (void_authorized ids d)).
Proof.
  unfold void_authorized. revert d.
  induction ids as [|id ids IH]; intros d; simpl; [apply rows_same_refl|].
  eapply rows_same_trans; [apply (found_update_same d id voided)|apply IH].
Qed.

Lemma check_authorizations_same (stripe : Stripe) (txid : nat)
    (work : list (CheckoutPayment * Completion unit)) (done : list string) (env : Env) :
  rows_same (Db.payments (db env))
    (Db.payments (db (fst (check_authorizations stripe txid work done env)))).
Proof.
  revert done env.
  induction work as [|[p [u|reason]] work IH]; intros done env;
    cbn [check_authorizations].
  - apply rows_same_refl.
  - eapply rows_same_trans; [|apply IH].
    apply (update_same (db env) (PaymentService.paymentId p) authorized).
  - eapply rows_same_trans;
      [apply (update_same (db env) (PaymentService.paymentId p) failed
                (err_code reason) (err_message reason))|].
    destruct (0 <? length done)%nat; cbn [fst db with_db];
      rewrite ?cancel_db; cbn [db with_db].
    + apply void_authorized_same.
    + apply rows_same_refl.
Qed.

Lemma check_captures_same (work : list (string * Completion unit)) (d : Database) :
  rows_same (Db.payments d) (Db.payments (fst (check_captures work d))).
Proof.
  revert d. induction work as [|[id [u|reason]] work IH]; intros d; simpl.
  - apply rows_same_refl.
  - eapply rows_same_trans; [apply (found_update_same d id captured)|apply IH].
  - specialize (IH d). destruct (check_captures work d). exact IH.
Qed.

Lemma completeCheckout_same (stripe : Stripe) (txid : nat) (ps : list CheckoutPayment)
    (total : Z) (env : Env) :
  rows_same (Db.payments (db env))
    (Db.payments (db (fst (completeCheckout stripe txid ps total env)))).
Proof.
  unfold completeCheckout.
  destruct (validatePaymentAmounts _ _); [|apply rows_same_refl].
  destruct (getTransactionById _ _); [|apply rows_same_refl].
  match goal with
  | |- context [complete_try stripe txid ps ?e] =>
      assert (Htry : rows_same (Db.payments (db env))
                       (Db.payments (db (fst (complete_try stripe txid ps e)))));
      [|destruct (complete_try stripe txid ps e) as [env1 [r|error]]; exact Htry]
  end.
  unfold complete_try.
  match goal with
  | |- context [authorize_all stripe ps ?e] =>
      pose proof (authorize_all_db stripe ps e) as Ha;
      destruct (authorize_all stripe ps e) as [env1 results]
  end.
  cbn [fst db with_db] in Ha.
  pose proof (check_authorizations_same stripe txid (zip ps results) [] env1) as Hc.
  rewrite Ha, payments_updateTransactionStatus in Hc.
  destruct (check_authorizations _ _ _ _ _) as [env2 [ids|error]]; cbn [fst] in Hc;
    [|exact Hc].
  pose proof (capture_all_db stripe ids env2) as Hd.
  destruct (capture_all stripe ids env2) as [env3 captures]. cbn [fst] in Hd.
  pose proof (check_captures_same (zip ids captures) (db env3)) as He.
  destruct (check_captures _ _) as [d failedCaptures]. cbn [fst] in He.
  rewrite Hd in He.
  eapply rows_same_trans; [exact Hc|]. eapply rows_same_trans; [exact He|].
  destruct (0 <? length failedCaptures)%nat; cbn [fst db with_db];
    rewrite payments_updateTransactionStatus, ?void_failed_db; apply rows_same_refl.
Qed.

Lemma step_same (e : Event) (app : App) :
  rows_same (Db.payments (db (env app))) (Db.payments (db (env (step e app)))).
Proof.
  destruct e as [now stripe shopify sid submitted | now stripe sid intent
                | stripe txid amount reason who | intent | intent error];
    cbn [step].
  - unfold complete_checkout.
    destruct submitted as [submitted|]; [|apply rows_same_refl].
    destruct (negb _); [apply rows_same_refl|].
    destruct (_ !! _) as [session|]; [|apply rows_same_refl].
    destruct (getTransactionById _ _) as [transaction|]; [|apply rows_same_refl].
    destruct (payment_data _ _) as [data|]; [|apply rows_same_refl].
    pose proof (completeCheckout_same stripe (tx_id transaction) data
                  (total_amount transaction) (env app)) as Hc.
    destruct (PaymentService.completeCheckout _ _ _ _ _) as [e [r|error]];
      cbn [fst] in Hc; [|exact Hc].
    pose proof (createShopifyOrder_payments shopify (tx_id transaction)
                  (shopDomain session) (db e)) as Ho.
    destruct (createShopifyOrder _ _ _ _) as [d [[o n]|error]];
      cbn [fst env db with_env with_db] in *; rewrite Ho; exact Hc.
  - rewrite remove_payment_payments. apply rows_same_refl.
  - cbn [env with_env]. rewrite processRefund_payments. apply rows_same_refl.
  - cbn [env with_env db with_db]. unfold Webhooks.handlePaymentIntentSucceeded.
    destruct (getPaymentByPaymentIntentId _ _) as [payment|]; [|apply rows_same_refl].
    destruct (negb _); [apply update_same|apply rows_same_refl].
  - cbn [env with_env db with_db]. unfold Webhooks.handlePaymentIntentFailed.
    destruct (getPaymentByPaymentIntentId _ _) as [payment|]; [|apply rows_same_refl].
    apply update_same.
Qed.

Lemma rows_same_amounts (ps ps' : list Payment) (txid : nat) :
  rows_same ps ps' ->
  map pay_amount (List.filter (fun p => (pay_transaction_id p =? txid)%nat) ps') =
  map pay_amount (List.filter (fun p => (pay_transaction_id p =? txid)%nat) ps).
Proof.
  intros H. induction H as [|p p' ps ps' (_ & Htx & _ & Hamount) _ IH];
    [reflexivity|].
  cbn [List.filter]. rewrite Htx.
  destruct (pay_transaction_id p =? txid)%nat; cbn [map]; congruence.
Qed.

(** X24.  Across any sequence of complete, remove_card and refund
    operations and provider webhook events, the payment rows keep their id,
    transaction, intent and amount: only status and failure fields change.
    In particular the amounts of each transaction's payments, the weights
    of every later refund split, stay the same. *)
Theorem payment_rows_are_stable (events : list Event) (app : App) :
  Forall2 same_payment (Db.payments (db (env app)))
                       (Db.payments (db (env (run events app)))) /\
  forall txid,
    map pay_amount (getPaymentsByTransactionId (db (env (run events app))) txid) =
    map pay_amount (getPaymentsByTransactionId (db (env app)) txid).
Proof.
  assert (H : rows_same (Db.payments (db (env app)))
                        (Db.payments (db (env (run events app))))).
  { revert app. induction events as [|e events IH]; intros app; cbn [run foldl].
    - apply rows_same_refl.
    - eapply rows_same_trans; [apply step_same|apply IH]. }
  split; [exact H|].
  intros txid. apply rows_same_amounts, H.
Qed.

End RowFacts.

(** ** Routes *)

Module RouteFacts.
Import Js Validation Db Provider PaymentService OrderService Widget Invariants
       DbFacts QueryFacts CheckoutFacts.

Lemma completeCheckout_rejects_unvalidated
    (stripe : Stripe) (txid : nat) (ps : list CheckoutPayment) (total : Z) (env : Env)
    (r : nat) :
  snd (completeCheckout stripe txid ps total env) = Returns r ->
  validatePaymentAmounts total (map PaymentService.amount ps) = valid.
Proof.
  unfold completeCheckout.
  destruct (validatePaymentAmounts _ _); [reflexivity|discriminate].
Qed.

Lemma createShopifyOrder_throws (shopify : Shopify) (txid : nat) (shop : string)
    (d : Database) (error : JsError) :
  snd (createShopifyOrder shopify txid shop d) = Throws error ->
  fst (createShopifyOrder shopify txid shop d) = d.
Proof.
  unfold createShopifyOrder.
  destruct (getStoreByDomain _ _); [|reflexivity].
  destruct (getTransactionById _ _); [|reflexivity].
  destruct (orders_post _ _) as [[o n]|]; [discriminate|reflexivity].
Qed.

Lemma tx_lookup_after_order (d : Database) (k : nat) (o n : string) (id : nat) :
  getTransactionById (updateTransactionOrder d k o n) id =
  (fun t => if (tx_id t =? k)%nat then
              {| tx_id := tx_id t; tx_store_id := tx_store_id t;
                 shopify_checkout_token := shopify_checkout_token t;
                 shopify_order_id := Some o; shopify_order_number := Some n;
                 total_amount := total_amount t; tx_status := tx_status t;
                 failure_reason := failure_reason t |}
            else t)
    <$> getTransactionById d id.
Proof.
  unfold getTransactionById, updateTransactionOrder. cbn [transactions with_transactions].
  induction (transactions d) as [|t ts IH]; simpl; [reflexivity|].
  destruct (tx_id t =? k)%nat eqn:Hk; simpl;
    destruct (tx_id t =? id)%nat; simpl; rewrite ?Hk; first [reflexivity | exact IH].
Qed.

(** X25.  What an answer of [/complete-checkout] means.  If it answers
    with an order, the session is deleted and the session's transaction is
    completed and carries the order id and number of the answer.  If the
    checkout itself returned and only the order submission threw, the
    answer is CHECKOUT_FAILED although the transaction is completed, and
    the session is kept. *)
Theorem complete_checkout_answers
    (now : Z) (stripe : Stripe) (shopify : Shopify) (sid : string)
    (submitted : list SubmittedPayment) (app : App) (session : Session) :
  truthy sid = true ->
  widgetSessions app !! sid = Some session ->
  let result := complete_checkout now stripe shopify sid (Some submitted) app in
  (forall orderId orderNumber,
     snd result = resp_order orderId orderNumber ->
     widgetSessions (fst result) !! sid = None /\
     exists t,
       getTransactionById (db (env (fst result))) (transactionId session) = Some t /\
       tx_status t = tx_completed /\
       shopify_order_id t = Some orderId /\
       shopify_order_number t = Some orderNumber) /\
  (forall transaction data e r error,
     getTransactionById (db (env app)) (transactionId session) = Some transaction ->
     payment_data (db (env app)) submitted = Returns data ->
     completeCheckout stripe (tx_id transaction) data (total_amount transaction) (env app)
       = (e, Returns r) ->
     snd (createShopifyOrder shopify (tx_id transaction) (shopDomain session) (db e))
       = Throws error ->
     snd result = checkout_failed error data /\
     widgetSessions (fst result) !! sid = Some session /\
     tx_status <$> getTransactionById (db (env (fst result))) (transactionId session)
       = Some tx_completed).
Proof.
  intros Htruthy Hsession. cbn zeta. unfold complete_checkout.
  rewrite Htruthy, Hsession. cbn [negb]. split.
  - intros orderId orderNumber.
    destruct (getTransactionById (db (env app)) (transactionId session))
      as [transaction|] eqn:Hfound; [|discriminate].
    pose proof (tx_lookup_id _ _ _ Hfound) as Hid. apply Nat.eqb_eq in Hid.
    destruct (payment_data _ _) as [data|]; [|discriminate].
    pose proof (completeCheckout_final_status stripe (tx_id transaction) data
                  (total_amount transaction) (env app)) as Hstatus.
    pose proof (completeCheckout_rejects_unvalidated stripe (tx_id transaction) data
                  (total_amount transaction) (env app)) as Hvalid.
    destruct (completeCheckout _ _ _ _ _) as [e [r|error]];
      [|unfold checkout_failed; discriminate].
    cbn [fst snd] in *.
    destruct (Hstatus (Hvalid r eq_refl)) as [Hdone _].
    { rewrite Hid, Hfound. eexists. reflexivity. }
    unfold createShopifyOrder.
    destruct (getStoreByDomain _ _); [|unfold checkout_failed; discriminate].
    destruct (getTransactionById (db e) (tx_id transaction)) as [t|] eqn:Ht;
      [|unfold checkout_failed; discriminate].
    destruct (orders_post _ _) as [[o n]|]; [|unfold checkout_failed; discriminate].
    cbn [fst snd env db with_db widgetSessions]. intros [= <- <-].
    split; [apply lookup_delete_eq|].
    rewrite <- Hid, tx_lookup_after_order, Ht. cbn [fmap option_fmap option_map].
    rewrite (tx_lookup_id _ _ _ Ht). eexists. split; [reflexivity|].
    cbn [tx_status shopify_order_id shopify_order_number].
    cbn in Hdone. injection Hdone as Hdone. auto.
  - intros transaction data e r error Hfound Hdata Hcheckout Horder.
    pose proof (tx_lookup_id _ _ _ Hfound) as Hid. apply Nat.eqb_eq in Hid.
    pose proof (completeCheckout_final_status stripe (tx_id transaction) data
                  (total_amount transaction) (env app)) as Hstatus.
    pose proof (completeCheckout_rejects_unvalidated stripe (tx_id transaction) data
                  (total_amount transaction) (env app) r) as Hvalid.
    rewrite Hcheckout in Hstatus, Hvalid. cbn [fst snd] in *.
    destruct (Hstatus (Hvalid eq_refl)) as [Hdone _].
    { rewrite Hid, Hfound. eexists. reflexivity. }
    rewrite Hfound, Hdata, Hcheckout.
    pose proof (createShopifyOrder_throws _ _ _ _ _ Horder) as Hsame.
    destruct (createShopifyOrder _ _ _ _) as [d [[o n]|err]]; [discriminate|].
    cbn [fst snd] in *. injection Horder as ->. subst d.
    cbn [fst snd env db with_env with_db widgetSessions].
    rewrite <- Hid. auto.
Qed.

Lemma complete_checkout_answers_witness :
  let result := complete_checkout 0 (Scenarios.provider []) MoreScenarios.orders_accepted
                  "session_0_k3j9x0a1b" (Some MoreScenarios.both_cards)
                  Scenarios.covered_app in
  snd result = resp_order "7001" "1042" /\
  widgetSessions (fst result) !! "session_0_k3j9x0a1b" = None /\
  exists t,
    getTransactionById (db (env (fst result))) 1 = Some t /\
    tx_status t = tx_completed /\
    shopify_order_id t = Some "7001" /\
    shopify_order_number t = Some "1042".
Proof.
  cbn zeta. split; [vm_compute; reflexivity|].
  refine (proj1 (complete_checkout_answers 0 (Scenarios.provider [])
                   MoreScenarios.orders_accepted "session_0_k3j9x0a1b"
                   MoreScenarios.both_cards Scenarios.covered_app
                   {| transactionId := 1; shopDomain := "demo.myshopify.com";
                      checkoutToken := "c0ffee00c0ffee00c0ffee00c0ffee00";
                      Widget.payments :=
                        [{| Widget.paymentId := 1; Widget.paymentIntentId := "pi_1";
                            Widget.amount := 10000 |};
                         {| Widget.paymentId := 2; Widget.paymentIntentId := "pi_2";
                            Widget.amount := 5000 |}] |} _ _) "7001" "1042" _).
  - reflexivity.
  - vm_compute. reflexivity.
  - vm_compute. reflexivity.
Defined.

End RouteFacts.
